(** * Greencart backend: order creation and payment reconciliation

    A shallow embedding of [app/services/orders.py] and
    [app/services/payments.py] together with the parts of
    [app/models.py] and [app/schemas.py] they read, followed by the
    properties of the order-creation / idempotency / webhook subsystem.

    Conventions of the embedding.
    - A database table is the list of its rows; a row is a record with
      the columns the two services read or write.  The session is the
      explicit [DB] value threaded through every operation: each
      operation returns the database it leaves, together with its result
      or the exception it raised.  A transaction that fails at the flush
      is rolled back.
    - Python [int] is [Z] (unbounded, as in Python); the width of the
      integer and string columns is not modelled.
    - Python [str] is [string], read as a sequence of code points below
      256.
    - Python [dict] and [set] built inside a function are [gmap] and
      [gset]; JSON objects received from outside are association lists
      inside [PyVal].
    - The clock, the UUID generator, the Stripe client and pydantic's URL
      validation are inputs of the functions that use them. *)

From stdpp Require Import gmap strings list fin_maps pretty sorting.
From Stdlib Require Import ZArith Ascii String.

Open Scope string_scope.
Open Scope list_scope.
Open Scope Z_scope.

(** ** Exceptions and results *)

Inductive Exception : Type :=
| OrderValidationError (msg : string)
| ProductUnavailableError (msg : string)
| OutOfStockError (msg : string)
| PaymentProviderError (msg : string)
| IntegrityError          (* a unique index or NOT NULL column refused the flush *)
| MultipleResultsFound    (* scalar_one / scalar_one_or_none on several rows *)
| NoResultFound           (* scalar_one on no row *)
| StaleObjectError        (* the row behind an ORM object is gone *)
| KeyError
| TypeError
| AttributeError
| ValidationError         (* pydantic refused a response model *)
| ProgrammingError        (* the driver cannot bind a value of that type *)
| OverflowError.          (* the driver cannot bind an integer that large *)

Inductive result (A : Type) : Type :=
| Return (a : A)
| Raise (e : Exception).
Arguments Return {A} a.
Arguments Raise {A} e.

#[global] Instance result_bind : MBind result := λ A B k r,
  match r with
  | Return a => k a
  | Raise e => Raise e
  end.

(** ** The Python runtime the services rely on *)

Module Py.

Definition code (c : ascii) : N := N_of_ascii c.

(** [str.isspace] on one code point below 256. *)
Definition isspace (c : ascii) : bool :=
  let n := code c in
  ((9 <=? n) && (n <=? 13) || (28 <=? n) && (n <=? 32)
   || (n =? 133) || (n =? 160))%N.

Fixpoint lstrip (s : string) : string :=
  match s with
  | EmptyString => EmptyString
  | String c s' => if isspace c then lstrip s' else s
  end.

(** [str.strip()] with no argument. *)
Definition strip (s : string) : string :=
  String.rev (lstrip (String.rev (lstrip s))).

(** [str.lower] on one code point below 256. *)
Definition lower_char (c : ascii) : ascii :=
  let n := code c in
  if ((65 <=? n) && (n <=? 90)
      || (192 <=? n) && (n <=? 222) && negb (n =? 215))%N
  then ascii_of_N (n + 32) else c.

Fixpoint lower (s : string) : string :=
  match s with
  | EmptyString => EmptyString
  | String c s' => String (lower_char c) (lower s')
  end.

(** Truth value of a [str] and of a [str | None]. *)
Definition str_truthy (s : string) : bool := negb (bool_decide (s = EmptyString)).

Definition opt_str_truthy (o : option string) : bool :=
  match o with
  | Some s => str_truthy s
  | None => false
  end.

(** [sorted] on a set of integers. *)
Definition sorted (X : gset Z) : list Z := merge_sort Z.le (elements X).

(** [repr] of a list of integers, as an f-string prints it. *)
Definition repr_int_list (l : list Z) : string :=
  "[" +:+ String.concat ", " (pretty <$> l) +:+ "]".

End Py.

(** Values of dynamically typed data: JSON payloads and the attributes
    that receive them.  Floating-point numbers are left out. *)
#[warnings="-register-all"]
Inductive PyVal : Type :=
| PyNone
| PyBool (b : bool)
| PyInt (z : Z)
| PyStr (s : string)
| PyList (l : list PyVal)
| PyDict (d : list (string * PyVal)).

(** ** [app/models.py] *)

Module ProductStatus.
Inductive t : Type := DRAFT | PUBLISHED | ARCHIVED.
#[global] Instance eq_dec : EqDecision t.
Proof. solve_decision. Defined.
End ProductStatus.

Module OrderStatus.
Inductive t : Type :=
  DRAFT | PENDING | PAID | SHIPPED | COMPLETED | CANCELLED | REFUNDED.
#[global] Instance eq_dec : EqDecision t.
Proof. solve_decision. Defined.
End OrderStatus.

Module User.
Record t : Type := mk { id : Z }.
End User.

(** The columns of [products] read by order creation. *)
Module Product.
Record t : Type := mk {
  id : Z;
  title : string;
  impact_co2_g : option Z;
  price_cents : Z;
  promo_price_cents : option Z;
  stock : Z;
  status : ProductStatus.t;
  is_published : bool
}.

Definition set_stock (p : t) (n : Z) : t :=
  mk (id p) (title p) (impact_co2_g p) (price_cents p)
     (promo_price_cents p) n (status p) (is_published p).
End Product.

(** An order line.  [reference_price_cents] is an attribute that Python
    lets be [None]; its column is [nullable=False]. *)
Module OrderLine.
Record t : Type := mk {
  product_id : option Z;
  product_title : string;
  quantity : Z;
  unit_price_cents : Z;
  reference_price_cents : option Z;
  subtotal_cents : Z;
  impact_co2_g : option Z
}.
End OrderLine.

(** An order with its [lines] relationship loaded (every query of the two
    services uses [selectinload(Order.lines)]). *)
Module Order.
Record t : Type := mk {
  id : Z;
  user_id : Z;
  status : OrderStatus.t;
  currency : string;
  total_amount_cents : Z;
  total_items : Z;
  total_impact_co2_g : Z;
  payment_reference : PyVal;
  payment_provider : option string;
  idempotency_key : option string;
  placed_at : option Z;
  notes : option string;
  lines : list OrderLine.t
}.

Definition set_status (o : t) (s : OrderStatus.t) : t :=
  mk (id o) (user_id o) s (currency o) (total_amount_cents o)
     (total_items o) (total_impact_co2_g o) (payment_reference o)
     (payment_provider o) (idempotency_key o) (placed_at o) (notes o)
     (lines o).

Definition set_payment_reference (o : t) (r : PyVal) : t :=
  mk (id o) (user_id o) (status o) (currency o) (total_amount_cents o)
     (total_items o) (total_impact_co2_g o) r
     (payment_provider o) (idempotency_key o) (placed_at o) (notes o)
     (lines o).

Definition set_payment_provider (o : t) (p : option string) : t :=
  mk (id o) (user_id o) (status o) (currency o) (total_amount_cents o)
     (total_items o) (total_impact_co2_g o) (payment_reference o)
     p (idempotency_key o) (placed_at o) (notes o) (lines o).

Definition set_notes (o : t) (n : option string) : t :=
  mk (id o) (user_id o) (status o) (currency o) (total_amount_cents o)
     (total_items o) (total_impact_co2_g o) (payment_reference o)
     (payment_provider o) (idempotency_key o) (placed_at o) n (lines o).

(** One turn of the line loop on the order header:
    [order.lines.append(line)], then the three [+=]. *)
Definition add_line (o : t) (l : OrderLine.t) (subtotal qty co2 : Z) : t :=
  mk (id o) (user_id o) (status o) (currency o)
     (total_amount_cents o + subtotal) (total_items o + qty)
     (total_impact_co2_g o + co2) (payment_reference o)
     (payment_provider o) (idempotency_key o) (placed_at o) (notes o)
     (lines o ++ [l]).
End Order.

(** ** [app/schemas.py] *)

Module OrderItemInput.
Record t : Type := mk { product_id : Z; quantity : Z }.
End OrderItemInput.

Module OrderCreate.
Record t : Type := mk { items : list OrderItemInput.t; notes : option string }.
End OrderCreate.

(** ** The database *)

Record DB : Type := mkDB {
  products : list Product.t;
  orders : list Order.t
}.

(** [Result.scalar_one_or_none()] and [Result.scalar_one()]. *)
Definition scalar_one_or_none {A : Type} (rows : list A) : result (option A) :=
  match rows with
  | [] => Return None
  | [r] => Return (Some r)
  | _ => Raise MultipleResultsFound
  end.

Definition scalar_one {A : Type} (rows : list A) : result A :=
  match rows with
  | [] => Raise NoResultFound
  | [r] => Return r
  | _ => Raise MultipleResultsFound
  end.

(** The integer primary key handed out to a new order: one more than the
    largest in use. *)
Definition next_order_id (rows : list Order.t) : Z :=
  1 + foldr Z.max 0 (Order.id <$> rows).

(** ** [app/services/orders.py] *)

(** [Order.user_id == user.id, Order.idempotency_key == idempotency_key] *)
Definition existing_orders (db : DB) (user : User.t) (key : string)
  : list Order.t :=
  filter (λ o, Order.user_id o = User.id user
               ∧ Order.idempotency_key o = Some key) (orders db).

(** [{product.id: product for product in rows}] *)
Definition dict_by_id (rows : list Product.t) : gmap Z Product.t :=
  foldl (λ d p, <[Product.id p := p]> d) ∅ rows.

(** [select(Product).where(Product.id.in_(product_ids))] *)
Definition fetch_products (db : DB) (product_ids : gset Z)
  : gmap Z Product.t :=
  dict_by_id (filter (λ p, Product.id p ∈ product_ids) (products db)).

Definition available (p : Product.t) : bool :=
  bool_decide (Product.status p = ProductStatus.PUBLISHED)
  && Product.is_published p.

(** The first loop over [order_in.items]: availability, then stock. *)
Fixpoint check_items (products : gmap Z Product.t)
    (items : list OrderItemInput.t) : result unit :=
  match items with
  | [] => Return tt
  | item :: rest =>
      match products !! OrderItemInput.product_id item with
      | None => Raise KeyError
      | Some product =>
          if negb (available product) then
            Raise (ProductUnavailableError
                     ("Product " +:+ pretty (Product.id product)
                      +:+ " is not available for purchase"))
          else if Product.stock product <? OrderItemInput.quantity item then
            Raise (OutOfStockError
                     ("Product " +:+ pretty (Product.id product)
                      +:+ " has insufficient stock"))
          else check_items products rest
      end
  end.

Definition sale_price (product : Product.t) : Z :=
  match Product.promo_price_cents product with
  | Some promo => promo
  | None => Product.price_cents product
  end.

Definition reference_price (product : Product.t) : option Z :=
  match Product.promo_price_cents product with
  | Some _ => Some (Product.price_cents product)
  | None => None
  end.

(** The [OrderLine(...)] built for one item. *)
Definition make_line (product : Product.t) (item : OrderItemInput.t)
  : OrderLine.t :=
  let quantity := OrderItemInput.quantity item in
  let subtotal := sale_price product * quantity in
  let co2 := default 0 (Product.impact_co2_g product) * quantity in
  OrderLine.mk
    (Some (Product.id product))
    (Product.title product)
    quantity
    (sale_price product)
    (match reference_price product with
     | Some r => Some r
     | None => Some (Product.price_cents product)
     end)
    subtotal
    (if co2 =? 0 then None else Some co2).

(** The second loop over [order_in.items].  The dictionary holds the
    loaded product objects, so a decrement is seen by a later line of the
    same product. *)
Fixpoint add_lines (items : list OrderItemInput.t)
    (products : gmap Z Product.t) (order : Order.t)
  : result (gmap Z Product.t * Order.t) :=
  match items with
  | [] => Return (products, order)
  | item :: rest =>
      match products !! OrderItemInput.product_id item with
      | None => Raise KeyError
      | Some product =>
          let quantity := OrderItemInput.quantity item in
          let line := make_line product item in
          let co2 := default 0 (Product.impact_co2_g product) * quantity in
          let order' :=
            Order.add_line order line (OrderLine.subtotal_cents line)
                           quantity co2 in
          let product' :=
            Product.set_stock product (Product.stock product - quantity) in
          add_lines rest (<[OrderItemInput.product_id item := product']> products)
                    order'
      end
  end.

(** What the flush writes for the loaded products:
    [UPDATE products SET stock = ? WHERE id = ?]. *)
Definition write_stock (loaded : gmap Z Product.t) (row : Product.t)
  : Product.t :=
  match loaded !! Product.id row with
  | Some p => Product.set_stock row (Product.stock p)
  | None => row
  end.

(** The unique index [ux_orders_idempotency_key] and the NOT NULL column
    [order_lines.reference_price_cents], checked by the database when the
    new order is flushed. *)
Definition key_taken (rows : list Order.t) (key : option string) : bool :=
  match key with
  | Some k => bool_decide (Exists (λ o, Order.idempotency_key o = Some k) rows)
  | None => false
  end.

Definition line_not_null (l : OrderLine.t) : bool :=
  match OrderLine.reference_price_cents l with
  | Some _ => true
  | None => false
  end.

(** [db.commit()] at the end of [create_order]: the order and its lines are
    inserted and the stock of the loaded products is written, in one
    transaction.  The integer columns are given no width here: a flush
    that the database refuses because a number is out of range is not
    described. *)
Definition commit_order (db : DB) (loaded : gmap Z Product.t)
    (order : Order.t) : DB * result unit :=
  if key_taken (orders db) (Order.idempotency_key order)
     || negb (forallb line_not_null (Order.lines order))
  then (db, Raise IntegrityError)
  else (mkDB (write_stock loaded <$> products db) (orders db ++ [order]),
        Return tt).

Definition placeholder_key : string := "{{$uuid}}".

(** [create_order].  [uuid4_hex] is the value [uuid4().hex] yields in this
    call and [now] the value of [datetime.now(timezone.utc)].  The primary
    key of the new order is fixed when the header is built; the database
    hands it out at the flush, and nothing else writes in between. *)
Definition create_order (db : DB) (uuid4_hex : string) (now : Z)
    (user : User.t) (order_in : OrderCreate.t) (idempotency_key : string)
    (payment_provider : option string)
  : DB * result (Order.t * bool) :=
  if negb (Py.str_truthy idempotency_key) then
    (db, Raise (OrderValidationError "Idempotency-Key header is required"))
  else if bool_decide (Py.strip idempotency_key = EmptyString) then
    (db, Raise (OrderValidationError "Idempotency-Key header is required"))
  else
    let idempotency_key :=
      if bool_decide (idempotency_key = placeholder_key)
      then uuid4_hex else idempotency_key in
    match scalar_one_or_none (existing_orders db user idempotency_key) with
    | Raise e => (db, Raise e)
    | Return (Some existing_order) => (db, Return (existing_order, false))
    | Return None =>
        let items := OrderCreate.items order_in in
        let product_ids : gset Z :=
          list_to_set (OrderItemInput.product_id <$> items) in
        if bool_decide (product_ids = ∅) then
          (db, Raise (OrderValidationError
                        "Order requires at least one product"))
        else
          let products := fetch_products db product_ids in
          let missing_ids := product_ids ∖ dom products in
          if negb (bool_decide (missing_ids = ∅)) then
            (db, Raise (ProductUnavailableError
                          ("Products not found: "
                           +:+ Py.repr_int_list (Py.sorted missing_ids))))
          else
            match check_items products items with
            | Raise e => (db, Raise e)
            | Return _ =>
                let order :=
                  Order.mk (next_order_id (orders db)) (User.id user)
                    OrderStatus.PENDING "EUR" 0 0 0 PyNone None
                    (Some idempotency_key) (Some now) None [] in
                let order :=
                  if Py.opt_str_truthy payment_provider
                  then Order.set_payment_provider order payment_provider
                  else order in
                match add_lines items products order with
                | Raise e => (db, Raise e)
                | Return (products', order) =>
                    let order :=
                      Order.set_notes order (OrderCreate.notes order_in) in
                    match commit_order db products' order with
                    | (db', Raise e) => (db', Raise e)
                    | (db', Return _) =>
                        match scalar_one
                                (filter (λ o, Order.id o = Order.id order)
                                        (orders db')) with
                        | Raise e => (db', Raise e)
                        | Return refreshed => (db', Return (refreshed, true))
                        end
                    end
                end
            end
    end.

(** *** The worked example of the specification *)

Definition product_A : Product.t :=
  Product.mk 1 "A" None 500 (Some 400) 10 ProductStatus.PUBLISHED true.
Definition product_B : Product.t :=
  Product.mk 2 "B" None 1000 None 4 ProductStatus.PUBLISHED true.
Definition example_db : DB := mkDB [product_A; product_B] [].
Definition example_request : OrderCreate.t :=
  OrderCreate.mk [OrderItemInput.mk 1 2; OrderItemInput.mk 2 1] None.
Definition alice : User.t := User.mk 7.

(** ** Dynamically typed values: the built-ins the payment service calls *)

Module PyObj.

(** [bool(v)] *)
Definition truthy (v : PyVal) : bool :=
  match v with
  | PyNone => false
  | PyBool b => b
  | PyInt z => negb (z =? 0)
  | PyStr s => Py.str_truthy s
  | PyList l => match l with [] => false | _ => true end
  | PyDict d => match d with [] => false | _ => true end
  end.

(** [a or b] *)
Definition or (a b : PyVal) : PyVal := if truthy a then a else b.

Fixpoint assoc (k : string) (d : list (string * PyVal)) : option PyVal :=
  match d with
  | [] => None
  | (k', v) :: d' => if bool_decide (k' = k) then Some v else assoc k d'
  end.

(** [d.get(k, dflt)] on a dict. *)
Definition dict_get (d : list (string * PyVal)) (k : string)
    (dflt : PyVal) : PyVal :=
  default dflt (assoc k d).

(** [v.get(k)] on any value: only a dict has the method. *)
Definition get (v : PyVal) (k : string) : result PyVal :=
  match v with
  | PyDict d => Return (dict_get d k PyNone)
  | _ => Raise AttributeError
  end.

Fixpoint str_contains (needle hay : string) : bool :=
  String.prefix needle hay
  || match hay with
     | EmptyString => false
     | String _ hay' => str_contains needle hay'
     end.

(** [k in v] for a string [k]. *)
Definition contains (k : string) (v : PyVal) : result bool :=
  match v with
  | PyDict d => Return (bool_decide (is_Some (assoc k d)))
  | PyStr s => Return (str_contains k s)
  | PyList l => Return (existsb (λ x, match x with
                                      | PyStr s => bool_decide (s = k)
                                      | _ => false
                                      end) l)
  | _ => Raise TypeError
  end.

(** [v[k]] for a string [k]. *)
Definition getitem (v : PyVal) (k : string) : result PyVal :=
  match v with
  | PyDict d => match assoc k d with
                | Some x => Return x
                | None => Raise KeyError
                end
  | _ => Raise TypeError
  end.

Definition is_digit (c : ascii) : bool :=
  ((48 <=? Py.code c) && (Py.code c <=? 57))%N.

(** Decimal digits with single underscores between them. *)
Fixpoint digits_value (acc : Z) (after_digit : bool) (s : string)
  : option Z :=
  match s with
  | EmptyString => if after_digit then Some acc else None
  | String c s' =>
      if is_digit c then
        digits_value (10 * acc + (Z.of_N (Py.code c) - 48)) true s'
      else if bool_decide (c = "_"%char) then
        if after_digit then digits_value acc false s' else None
      else None
  end.

(** [int(s)] for a string, base 10.  The interpreter's limit on the
    length of the digit string is not modelled. *)
Definition int_of_str (s : string) : option Z :=
  match Py.strip s with
  | String "+" r => digits_value 0 false r
  | String "-" r => Z.opp <$> digits_value 0 false r
  | r => digits_value 0 false r
  end.

(** [int(v)]; [None] stands for the exception. *)
Definition int (v : PyVal) : option Z :=
  match v with
  | PyInt z => Some z
  | PyBool b => Some (if b then 1 else 0)
  | PyStr s => int_of_str s
  | _ => None
  end.

(** Membership in a set of strings hashes the value first. *)
Definition hashable (v : PyVal) : bool :=
  match v with
  | PyList _ | PyDict _ => false
  | _ => true
  end.

Definition hex_digit (n : N) : ascii :=
  ascii_of_N (if (n <? 10)%N then 48 + n else 87 + n).

Definition backslash : ascii := ascii_of_N 92.
Definition double_quote : ascii := ascii_of_N 34.
Definition single_quote : ascii := ascii_of_N 39.

Definition escape (c : ascii) : string := String backslash (String c EmptyString).

(** One code point inside the quotes of [repr(str)]. *)
Definition repr_char (quote : ascii) (c : ascii) : string :=
  let n := Py.code c in
  if bool_decide (c = quote) || (n =? 92)%N then escape c
  else if (n =? 9)%N then escape "t"
  else if (n =? 10)%N then escape "n"
  else if (n =? 13)%N then escape "r"
  else if (n <? 32)%N || (n =? 127)%N
          || (128 <=? n)%N && (n <=? 160)%N || (n =? 173)%N
  then escape "x"
       +:+ String (hex_digit (n / 16)) (String (hex_digit (n mod 16)) EmptyString)
  else String c EmptyString.

Fixpoint repr_chars (quote : ascii) (s : string) : string :=
  match s with
  | EmptyString => EmptyString
  | String c s' => repr_char quote c +:+ repr_chars quote s'
  end.

Definition has_char (c : ascii) (s : string) : bool :=
  existsb (λ x, bool_decide (x = c)) (list_ascii_of_string s).

(** [repr(s)]: single quotes unless the string has one and no double
    quote. *)
Definition repr_str (s : string) : string :=
  let quote :=
    if has_char single_quote s && negb (has_char double_quote s)
    then double_quote else single_quote in
  String quote (repr_chars quote s) +:+ String quote EmptyString.

(** [repr(v)] *)
Fixpoint repr (v : PyVal) : string :=
  match v with
  | PyNone => "None"
  | PyBool b => if b then "True" else "False"
  | PyInt z => pretty z
  | PyStr s => repr_str s
  | PyList l => "[" +:+ String.concat ", " (map repr l) +:+ "]"
  | PyDict d =>
      "{" +:+ String.concat ", "
                (map (λ kv, repr_str kv.1 +:+ ": " +:+ repr kv.2) d)
      +:+ "}"
  end.

(** [str(v)] *)
Definition str (v : PyVal) : string :=
  match v with
  | PyStr s => s
  | _ => repr v
  end.

End PyObj.

(** ** [app/schemas.py]: payments *)

Module PaymentInitRequest.
Record t : Type := mk {
  order_id : Z;
  provider : string;
  success_url : string;
  cancel_url : string
}.
End PaymentInitRequest.

Module PaymentSession.
Record t : Type := mk { checkout_url : string; payment_reference : string }.
End PaymentSession.

Module PaymentWebhookPayload.
Record t : Type := mk {
  provider : string;
  order_id : Z;
  event : string;
  signature : string;
  payload : list (string * PyVal)
}.
End PaymentWebhookPayload.

(** The Stripe client library, as far as [init_payment_session] uses it. *)
Module Stripe.
Record LineItem : Type := mkLineItem {
  currency : string;
  product_name : string;
  unit_amount : Z;
  quantity : Z
}.

Record SessionParams : Type := mkParams {
  mode : string;
  payment_method_types : list string;
  line_items : list LineItem;
  success_url : string;
  cancel_url : string;
  client_reference_id : string;
  metadata : list (string * string)
}.

(** [stripe.checkout.Session.create]: the session object, or the text of
    the exception it raised. *)
Definition client : Type := SessionParams → string + list (string * PyVal).
End Stripe.

(** ** [app/services/orders.py]: reading and updating one order *)

Definition get_order_by_id (db : DB) (order_id : Z) : result (option Order.t) :=
  scalar_one_or_none (filter (λ o, Order.id o = order_id) (orders db)).

(** [UPDATE orders SET ... WHERE id = ?], the columns given by [write]. *)
Definition update_orders (db : DB) (order_id : Z) (write : Order.t → Order.t)
  : DB :=
  mkDB (products db)
       ((λ row, if bool_decide (Order.id row = order_id) then write row else row)
          <$> orders db).

(** [db.refresh(order)] *)
Definition refresh (db : DB) (order : Order.t) : result Order.t :=
  match filter (λ o, Order.id o = Order.id order) (orders db) with
  | [] => Raise StaleObjectError
  | [row] => Return row
  | _ => Raise MultipleResultsFound
  end.

(** What the flush makes of a value assigned to a [String] column
    ([payment_reference] is [String(255)]): text is stored as it is, a
    number that fits the driver's 64 bits as its decimal text, and a
    larger number, a list or a dict is no value the driver can bind, so
    that the flush raises. *)
Definition string_column (v : PyVal) : result PyVal :=
  match v with
  | PyNone => Return PyNone
  | PyStr s => Return (PyStr s)
  | PyBool b => Return (PyStr (if b then "1" else "0"))
  | PyInt z =>
      if (- 2 ^ 63 <=? z) && (z <? 2 ^ 63) then Return (PyStr (pretty z))
      else Raise OverflowError
  | PyList _ | PyDict _ => Raise ProgrammingError
  end.

(** [update_order_status]; [reference=None] is [PyNone].  When the flush
    of [db.commit()] raises, nothing is written. *)
Definition update_order_status (db : DB) (order : Order.t)
    (status : OrderStatus.t) (reference : PyVal) : DB * result Order.t :=
  match (if PyObj.truthy reference then string_column reference
         else Return reference) with
  | Raise e => (db, Raise e)
  | Return stored =>
      let write row :=
        let row := Order.set_status row status in
        if PyObj.truthy reference
        then Order.set_payment_reference row stored else row in
      let db' := update_orders db (Order.id order) write in
      (db', refresh db' order)
  end.

(** ** [app/services/payments.py] *)

Definition handle_webhook (db : DB) (data : PaymentWebhookPayload.t)
  : DB * result (Order.t * OrderStatus.t) :=
  match get_order_by_id db (PaymentWebhookPayload.order_id data) with
  | Raise e => (db, Raise e)
  | Return None => (db, Raise (PaymentProviderError "Order not found"))
  | Return (Some order) =>
      if negb (bool_decide (Order.payment_provider order
                            = Some (PaymentWebhookPayload.provider data)))
      then (db, Raise (PaymentProviderError "Provider mismatch"))
      else
        let event := PaymentWebhookPayload.event data in
        let updated :=
          if bool_decide (event = "payment_succeeded") then
            Some (update_order_status db order OrderStatus.PAID
                    (PyObj.dict_get (PaymentWebhookPayload.payload data)
                       "payment_intent" (Order.payment_reference order)))
          else if bool_decide (event = "payment_failed") then
            Some (update_order_status db order OrderStatus.CANCELLED PyNone)
          else if bool_decide (event = "payment_refunded") then
            Some (update_order_status db order OrderStatus.REFUNDED PyNone)
          else None in
        match updated with
        | None => (db, Raise (PaymentProviderError "Unknown event"))
        | Some (db', Raise e) => (db', Raise e)
        | Some (db', Return order) => (db', Return (order, Order.status order))
        end
  end.

(** Lines 118 to 133 of [handle_stripe_event]: the event object and the
    order id read from its metadata or client reference. *)
Definition stripe_order_reference (event : list (string * PyVal))
  : result (list (string * PyVal) * option Z) :=
  data ← Return (PyObj.or (PyObj.dict_get event "data" PyNone) (PyDict []));
  obj ← PyObj.get data "object";
  let obj := PyObj.or obj (PyDict []) in
  metadata ← PyObj.get obj "metadata";
  let metadata := PyObj.or metadata (PyDict []) in
  has_id ← PyObj.contains "order_id" metadata;
  let order_id :=
    if has_id : bool then
      match PyObj.getitem metadata "order_id" with
      | Return v => PyObj.int v
      | Raise _ => None
      end
    else None in
  match obj with
  | PyDict obj =>
      let order_id :=
        match order_id with
        | Some i => Some i
        | None =>
            let ref := PyObj.dict_get obj "client_reference_id" PyNone in
            if PyObj.truthy ref then PyObj.int ref else None
        end in
      Return (obj, order_id)
  | _ => Raise AttributeError
  end.

Definition is_str (v : PyVal) (s : string) : bool :=
  match v with
  | PyStr s' => bool_decide (s' = s)
  | _ => false
  end.

Definition handle_stripe_event (db : DB) (event : list (string * PyVal))
  : DB * result (Order.t * OrderStatus.t) :=
  let event_type := PyObj.dict_get event "type" PyNone in
  match stripe_order_reference event with
  | Raise e => (db, Raise e)
  | Return (obj, None) =>
      (db, Raise (PaymentProviderError "Stripe webhook missing order reference"))
  | Return (obj, Some order_id) =>
      match get_order_by_id db order_id with
      | Raise e => (db, Raise e)
      | Return None => (db, Raise (PaymentProviderError "Order not found"))
      | Return (Some order) =>
          let finish (r : DB * result Order.t) :=
            match r with
            | (db', Raise e) => (db', Raise e)
            | (db', Return updated) =>
                (db', Return (updated, Order.status updated))
            end in
          if is_str event_type "checkout.session.completed" then
            let reference :=
              PyObj.or (PyObj.dict_get obj "payment_intent" PyNone)
                       (PyObj.dict_get obj "id" PyNone) in
            finish (update_order_status db order OrderStatus.PAID
                      (if PyObj.truthy reference
                       then PyStr (PyObj.str reference) else PyNone))
          else if negb (PyObj.hashable event_type) then (db, Raise TypeError)
          else if is_str event_type "charge.refunded"
                  || is_str event_type "payment_intent.canceled" then
            finish (update_order_status db order OrderStatus.REFUNDED PyNone)
          else if is_str event_type "checkout.session.expired"
                  || is_str event_type "payment_intent.payment_failed" then
            finish (update_order_status db order OrderStatus.CANCELLED PyNone)
          else
            (db, Raise (PaymentProviderError
                          ("Unhandled Stripe event: " +:+ PyObj.str event_type)))
      end
  end.

Section InitPaymentSession.

(** The [stripe] module ([None] when its import failed),
    [settings.stripe_secret_key], and pydantic's [AnyHttpUrl] check. *)
Variable stripe : option Stripe.client.
Variable stripe_secret_key : option string.
Variable is_http_url : string → bool.

(** [PaymentSession(checkout_url=..., payment_reference=...)].  The
    address is kept as it is written, which is how [AnyHttpUrl] renders a
    lower-case ASCII address with a path, such as the sandbox address of
    the providers the request schema admits; what it does to any other
    address is not described here. *)
Definition make_payment_session (checkout_url payment_reference : PyVal)
  : result PaymentSession.t :=
  match checkout_url, payment_reference with
  | PyStr url, PyStr ref =>
      if is_http_url url then Return (PaymentSession.mk url ref)
      else Raise ValidationError
  | _, _ => Raise ValidationError
  end.

Definition stripe_line_item (order : Order.t) (line : OrderLine.t)
  : Stripe.LineItem :=
  Stripe.mkLineItem
    (Py.lower (if Py.str_truthy (Order.currency order)
               then Order.currency order else "EUR"))
    (OrderLine.product_title line)
    (OrderLine.unit_price_cents line)
    (OrderLine.quantity line).

Definition stripe_params (order : Order.t) (request : PaymentInitRequest.t)
  : Stripe.SessionParams :=
  Stripe.mkParams "payment" ["card"]
    (stripe_line_item order <$> Order.lines order)
    (PaymentInitRequest.success_url request +:+ "?order="
       +:+ pretty (Order.id order) +:+ "&session_id={CHECKOUT_SESSION_ID}")
    (PaymentInitRequest.cancel_url request +:+ "?order="
       +:+ pretty (Order.id order))
    (pretty (Order.id order))
    [("order_id", pretty (Order.id order))].

(** The two assignments, [db.commit()] and [db.refresh(order)]. *)
Definition save_payment (db : DB) (order : Order.t) (provider : string)
    (reference : PyVal) : DB * result Order.t :=
  let write row :=
    Order.set_payment_reference
      (Order.set_payment_provider row (Some provider)) reference in
  let db' := update_orders db (Order.id order) write in
  (db', refresh db' order).

Definition init_payment_session (db : DB) (order : Order.t)
    (request : PaymentInitRequest.t) : DB * result PaymentSession.t :=
  if negb (bool_decide (Order.status order = OrderStatus.PENDING)
           || bool_decide (Order.status order = OrderStatus.DRAFT))
  then (db, Raise (PaymentProviderError "Order already processed"))
  else
    let provider := Py.lower (PaymentInitRequest.provider request) in
    if bool_decide (provider = "stripe") then
      match stripe with
      | None => (db, Raise (PaymentProviderError "Stripe not configured"))
      | Some session_create =>
          if negb (Py.opt_str_truthy stripe_secret_key) then
            (db, Raise (PaymentProviderError "Stripe not configured"))
          else
            match session_create (stripe_params order request) with
            | inl exc =>
                (db, Raise (PaymentProviderError ("Stripe error: " +:+ exc)))
            | inr session =>
                match save_payment db order provider
                        (PyObj.dict_get session "id" PyNone) with
                | (db', Raise e) => (db', Raise e)
                | (db', Return order) =>
                    let checkout_url := PyObj.dict_get session "url" PyNone in
                    if negb (PyObj.truthy checkout_url) then
                      (db', Raise (PaymentProviderError
                                     "Stripe session missing URL"))
                    else
                      (db', make_payment_session checkout_url
                              (Order.payment_reference order))
                end
            end
      end
    else
      match save_payment db order provider
              (PyStr (provider +:+ "_session_" +:+ pretty (Order.id order)))
      with
      | (db', Raise e) => (db', Raise e)
      | (db', Return order) =>
          let checkout_url :=
            "https://checkout." +:+ provider +:+ ".sandbox/session/"
            +:+ PyObj.str (Order.payment_reference order) in
          (db', make_payment_session (PyStr checkout_url)
                  (Order.payment_reference order))
      end.

End InitPaymentSession.

(** * Predicates used in the statements *)

Definition sumZ (l : list Z) : Z := foldr Z.add 0 l.

(** The invariant of an order: its totals are the sums over its lines. *)
Definition totals_ok (o : Order.t) : Prop :=
  Order.total_amount_cents o = sumZ (OrderLine.subtotal_cents <$> Order.lines o)
  ∧ Order.total_items o = sumZ (OrderLine.quantity <$> Order.lines o).

(** [line] is the snapshot of [item] priced from a row of [products]. *)
Definition priced_from (db : DB) (item : OrderItemInput.t)
    (line : OrderLine.t) : Prop :=
  ∃ p, p ∈ products db
    ∧ Product.id p = OrderItemInput.product_id item
    ∧ OrderLine.quantity line = OrderItemInput.quantity item
    ∧ OrderLine.unit_price_cents line
      = match Product.promo_price_cents p with
        | Some promo => promo
        | None => Product.price_cents p
        end
    ∧ OrderLine.subtotal_cents line
      = OrderLine.unit_price_cents line * OrderLine.quantity line
    ∧ line = make_line p item.

(** The key under which [create_order] looks up and stores the order. *)
Definition effective_key (idempotency_key uuid4_hex : string) : string :=
  if bool_decide (idempotency_key = placeholder_key)
  then uuid4_hex else idempotency_key.

(** The header [create_order] starts the line loop with. *)
Definition new_header (db : DB) (now : Z) (user : User.t) (key : string)
    (payment_provider : option string) : Order.t :=
  let order :=
    Order.mk (next_order_id (orders db)) (User.id user)
      OrderStatus.PENDING "EUR" 0 0 0 PyNone None (Some key) (Some now)
      None [] in
  if Py.opt_str_truthy payment_provider
  then Order.set_payment_provider order payment_provider else order.

Definition requested_ids (order_in : OrderCreate.t) : gset Z :=
  list_to_set (OrderItemInput.product_id <$> OrderCreate.items order_in).

(** Two product objects that differ at most in [stock]. *)
Definition same_but_stock (p q : Product.t) : Prop :=
  Product.set_stock p (Product.stock q) = q.

(** One call of a service of the order and payment code, whatever it is
    given and however it ends, takes the database from [db] to [db']. *)
Inductive service_step : DB → DB → Prop :=
| step_create_order db uuid now user order_in key provider db' r :
    create_order db uuid now user order_in key provider = (db', r) →
    service_step db db'
| step_handle_webhook db data db' r :
    handle_webhook db data = (db', r) → service_step db db'
| step_handle_stripe_event db event db' r :
    handle_stripe_event db event = (db', r) → service_step db db'
| step_init_payment_session stripe stripe_secret_key is_http_url
    db order request db' r :
    init_payment_session stripe stripe_secret_key is_http_url db order request
      = (db', r) →
    service_step db db'.

(** [db'] is [db] after any number of such calls. *)
Definition later : DB → DB → Prop := rtc service_step.

(** The same order at a later time: every column but [status],
    [payment_reference] and [payment_provider] is as it was. *)
Definition same_order (o o' : Order.t) : Prop :=
  o' = Order.set_payment_provider
         (Order.set_payment_reference
            (Order.set_status o (Order.status o'))
            (Order.payment_reference o'))
         (Order.payment_provider o').

(** The claim of C2 for one key: once a call of [user] with [key] has
    created an order, every further call of [user] with [key], made at
    once or after any number of calls of the services, returns that order
    as it is stored by then, with [created = False], and leaves the
    database as it is. *)
Definition retry_returns_same_order (key : string) : Prop :=
  ∀ db uuid now user order_in provider db1 o,
    create_order db uuid now user order_in key provider
      = (db1, Return (o, true)) →
    ∀ db2, later db1 db2 →
      ∃ o2,
        o2 ∈ orders db2 ∧ same_order o o2
        ∧ ∀ uuid' now' order_in' provider',
            create_order db2 uuid' now' user order_in' key provider'
              = (db2, Return (o2, false)).

Definition bob : User.t := User.mk 8.

Definition uuid_1 : string := "0123456789abcdef0123456789abcdef".
Definition uuid_2 : string := "fedcba9876543210fedcba9876543210".

(** The example database after Alice's first order under ["key-1"], and
    that order. *)
Definition first_call : DB * result (Order.t * bool) :=
  Eval vm_compute in
    create_order example_db uuid_1 0 alice example_request "key-1"
      (Some "manual").

Definition db_after_first : DB := first_call.1.

Definition first_order : Order.t :=
  Eval vm_compute in
    match first_call.2 with
    | Return (o, _) => o
    | Raise _ => new_header example_db 0 alice "key-1" None
    end.

(** A line that passes the first loop: its product is for sale and has
    the stock. *)
Definition line_passes (db : DB) (item : OrderItemInput.t) : Prop :=
  ∃ p, p ∈ products db
    ∧ Product.id p = OrderItemInput.product_id item
    ∧ available p = true
    ∧ OrderItemInput.quantity item ≤ Product.stock p.

(** A requested id with no row in [products]. *)
Definition is_missing (db : DB) (order_in : OrderCreate.t) (i : Z) : Prop :=
  i ∈ OrderItemInput.product_id <$> OrderCreate.items order_in
  ∧ ∀ p, p ∈ products db → Product.id p ≠ i.

Definition not_found_message (ids : list Z) : string :=
  "Products not found: " +:+ Py.repr_int_list ids.

Definition not_available_message (product_id : Z) : string :=
  "Product " +:+ pretty product_id +:+ " is not available for purchase".

Definition insufficient_stock_message (product_id : Z) : string :=
  "Product " +:+ pretty product_id +:+ " has insufficient stock".

(** A request whose second line asks for more of B than is in stock. *)
Definition request_too_many_B : OrderCreate.t :=
  OrderCreate.mk [OrderItemInput.mk 1 2; OrderItemInput.mk 2 5] None.

(** A request with two lines for B, 3 units each; B has 4 in stock. *)
Definition request_B_twice : OrderCreate.t :=
  OrderCreate.mk [OrderItemInput.mk 2 3; OrderItemInput.mk 2 3] None.

(** The claim of C5: the line of a created order carries a reference price
    exactly when its product has a promo price, and then the regular
    price. *)
Definition reference_only_with_promo : Prop :=
  ∀ db uuid now user order_in key provider db' o,
    create_order db uuid now user order_in key provider
      = (db', Return (o, true)) →
    Forall2 (λ item line,
               ∃ p, p ∈ products db
                 ∧ Product.id p = OrderItemInput.product_id item
                 ∧ OrderLine.reference_price_cents line = reference_price p)
            (OrderCreate.items order_in) (Order.lines o).

(** The event table of the generic webhook. *)
Definition target_status (event : string) : option OrderStatus.t :=
  if bool_decide (event = "payment_succeeded") then Some OrderStatus.PAID
  else if bool_decide (event = "payment_failed") then Some OrderStatus.CANCELLED
  else if bool_decide (event = "payment_refunded") then Some OrderStatus.REFUNDED
  else None.

(** The event table of the Stripe webhook, as [handle_stripe_event] has
    it. *)
Definition stripe_target_status (event_type : string)
  : option OrderStatus.t :=
  if bool_decide (event_type = "checkout.session.completed")
  then Some OrderStatus.PAID
  else if bool_decide (event_type = "charge.refunded")
          || bool_decide (event_type = "payment_intent.canceled")
  then Some OrderStatus.REFUNDED
  else if bool_decide (event_type = "checkout.session.expired")
          || bool_decide (event_type = "payment_intent.payment_failed")
  then Some OrderStatus.CANCELLED
  else None.

(** The event table of the Stripe webhook in the words of C7:
    cancellation goes with failure and expiry. *)
Definition stripe_target_status_claimed (event_type : string)
  : option OrderStatus.t :=
  if bool_decide (event_type = "checkout.session.completed")
  then Some OrderStatus.PAID
  else if bool_decide (event_type = "charge.refunded")
  then Some OrderStatus.REFUNDED
  else if bool_decide (event_type = "checkout.session.expired")
          || bool_decide (event_type = "payment_intent.payment_failed")
          || bool_decide (event_type = "payment_intent.canceled")
  then Some OrderStatus.CANCELLED
  else None.

(** What a Stripe event does to a resolved order, for a given table. *)
Definition stripe_follows
    (table : string → option OrderStatus.t) : Prop :=
  ∀ db event event_type obj order_id order,
    PyObj.dict_get event "type" PyNone = PyStr event_type →
    stripe_order_reference event = Return (obj, Some order_id) →
    get_order_by_id db order_id = Return (Some order) →
    match table event_type with
    | Some status =>
        ∃ db' order',
          handle_stripe_event db event = (db', Return (order', status))
          ∧ Order.status order' = status
          ∧ get_order_by_id db' order_id = Return (Some order')
    | None =>
        handle_stripe_event db event
        = (db, Raise (PaymentProviderError
                        ("Unhandled Stripe event: " +:+ event_type)))
    end.

(** Two rows that agree on every column but [payment_provider] and
    [payment_reference]. *)
Definition same_but_payment (o o' : Order.t) : Prop :=
  o' = Order.set_payment_reference
         (Order.set_payment_provider o (Order.payment_provider o'))
         (Order.payment_reference o').

(** Alice's order as [create_order] left it (id 1, PENDING, provider
    ["manual"]), its database, and the events used as examples. *)
Definition pending_order : Order.t := first_order.

Definition pending_db : DB := db_after_first.

Definition succeeded_event : PaymentWebhookPayload.t :=
  PaymentWebhookPayload.mk "manual" 1 "payment_succeeded" "signature"
    [("payment_intent", PyStr "pi_123")].

Definition unknown_order_event : PaymentWebhookPayload.t :=
  PaymentWebhookPayload.mk "manual" 2 "payment_succeeded" "signature" [].

Definition other_provider_event : PaymentWebhookPayload.t :=
  PaymentWebhookPayload.mk "stripe" 1 "payment_succeeded" "signature" [].

Definition stripe_event (event_type : string) : list (string * PyVal) :=
  [("type", PyStr event_type);
   ("data", PyDict [("object",
                     PyDict [("id", PyStr "cs_1");
                             ("metadata",
                              PyDict [("order_id", PyStr "1")])])])].

Definition sandbox_request : PaymentInitRequest.t :=
  PaymentInitRequest.mk 1 "Manual" "https://shop.example/ok"
    "https://shop.example/cancel".

(** * The rest of the order and payment code *)

(** ** [app/services/orders.py]: [get_order] *)

(** [Order.id == order_id, Order.user_id == user.id] *)
Definition get_order (db : DB) (user : User.t) (order_id : Z)
  : result (option Order.t) :=
  scalar_one_or_none
    (filter (λ o, Order.id o = order_id ∧ Order.user_id o = User.id user)
            (orders db)).

(** ** [app/models.py]: the values of [OrderStatus] *)

Definition order_status_value (s : OrderStatus.t) : string :=
  match s with
  | OrderStatus.DRAFT => "draft"
  | OrderStatus.PENDING => "pending"
  | OrderStatus.PAID => "paid"
  | OrderStatus.SHIPPED => "shipped"
  | OrderStatus.COMPLETED => "completed"
  | OrderStatus.CANCELLED => "cancelled"
  | OrderStatus.REFUNDED => "refunded"
  end.

(** ** [app/schemas.py]: what the request models accept *)

(** [OrderItemInput]: [quantity: int = Field(ge=1, le=100)] *)
Definition order_item_valid (item : OrderItemInput.t) : bool :=
  (1 <=? OrderItemInput.quantity item) && (OrderItemInput.quantity item <=? 100).

(** [OrderCreate]: every item valid, [notes] of at most 500 characters,
    and [ensure_items]: at least one item. *)
Definition order_create_valid (order_in : OrderCreate.t) : bool :=
  forallb order_item_valid (OrderCreate.items order_in)
  && match OrderCreate.notes order_in with
     | Some notes => (String.length notes <=? 500)%nat
     | None => true
     end
  && match OrderCreate.items order_in with
     | [] => false
     | _ => true
     end.

(** [PaymentWebhookPayload]: [event] is one of the three names and
    [signature] has at least 8 characters. *)
Definition webhook_payload_valid (data : PaymentWebhookPayload.t) : bool :=
  (bool_decide (PaymentWebhookPayload.event data = "payment_succeeded")
   || bool_decide (PaymentWebhookPayload.event data = "payment_failed")
   || bool_decide (PaymentWebhookPayload.event data = "payment_refunded"))
  && (8 <=? String.length (PaymentWebhookPayload.signature data))%nat.

(** ** [app/services/cart.py]: the cart table and [clear_cart] *)

Module CartItem.
Record t : Type := mk {
  id : Z;
  user_id : Z;
  product_id : Z;
  quantity : Z;
  unit_price_cents : Z;
  product_title : string
}.
End CartItem.

(** The database of the services above together with the cart table. *)
Record Store : Type := mkStore {
  store_db : DB;
  store_cart : list CartItem.t
}.

(** [clear_cart]: every cart item of the user is deleted. *)
Definition clear_cart (st : Store) (user : User.t) : Store :=
  mkStore (store_db st)
          (filter (λ item, CartItem.user_id item ≠ User.id user)
                  (store_cart st)).

(** ** [app/api/v1/endpoints/orders.py] and [payments.py] *)

(** What an endpoint answers: a response with its status code, an
    [HTTPException], or an exception that no handler of the endpoint
    catches ([None] when it comes from the mail code). *)
Inductive Response (A : Type) : Type :=
| Respond (status_code : Z) (body : A)
| HTTPException (status_code : Z) (detail : string)
| Unhandled (e : option Exception).
Arguments Respond {A} status_code body.
Arguments HTTPException {A} status_code detail.
Arguments Unhandled {A} e.

(** How sending the confirmation mail ends: sent (or skipped for lack of
    configuration), [EmailSendError], or any other exception. *)
Inductive EmailOutcome : Type := EmailSent | EmailSendError | EmailCrash.

(** [OrderRead.model_validate(order)]: [payment_reference] is declared
    [Optional[str]]. *)
Definition order_read (status_code : Z) (order : Order.t) : Response Order.t :=
  match Order.payment_reference order with
  | PyNone | PyStr _ => Respond status_code order
  | _ => Unhandled (Some ValidationError)
  end.

Module Endpoints.

(** [POST /orders].  [idempotency_key] is the [Idempotency-Key] header and
    [send_order_confirmation_email] the outcome of building and sending
    the mail for the order. *)
Definition create_order
    (send_order_confirmation_email : User.t → Order.t → EmailOutcome)
    (st : Store) (uuid4_hex : string) (now : Z) (current_consumer : User.t)
    (payload : OrderCreate.t) (idempotency_key : option string)
  : Store * Response Order.t :=
  match idempotency_key with
  | None => (st, HTTPException 400 "Idempotency-Key header is required")
  | Some key =>
      if negb (Py.str_truthy key) then
        (st, HTTPException 400 "Idempotency-Key header is required")
      else
        match create_order (store_db st) uuid4_hex now current_consumer
                payload key (Some "manual") with
        | (db', Raise (ProductUnavailableError msg)) =>
            (mkStore db' (store_cart st), HTTPException 404 msg)
        | (db', Raise (OutOfStockError msg)) =>
            (mkStore db' (store_cart st), HTTPException 400 msg)
        | (db', Raise (OrderValidationError msg)) =>
            (mkStore db' (store_cart st), HTTPException 400 msg)
        | (db', Raise e) => (mkStore db' (store_cart st), Unhandled (Some e))
        | (db', Return (order, created)) =>
            let st' := mkStore db' (store_cart st) in
            if negb created then (st', order_read 200 order)
            else
              let st'' := clear_cart st' current_consumer in
              match send_order_confirmation_email current_consumer order with
              | EmailCrash => (st'', Unhandled None)
              | EmailSent | EmailSendError => (st'', order_read 201 order)
              end
        end
  end.

(** [POST /payments/init] *)
Definition init_payment (stripe : option Stripe.client)
    (stripe_secret_key : option string) (is_http_url : string → bool)
    (db : DB) (current_user : User.t) (payload : PaymentInitRequest.t)
  : DB * Response PaymentSession.t :=
  match get_order db current_user (PaymentInitRequest.order_id payload) with
  | Raise e => (db, Unhandled (Some e))
  | Return None => (db, HTTPException 404 "Order not found")
  | Return (Some order) =>
      match init_payment_session stripe stripe_secret_key is_http_url
              db order payload with
      | (db', Raise (PaymentProviderError msg)) => (db', HTTPException 400 msg)
      | (db', Raise e) => (db', Unhandled (Some e))
      | (db', Return session) => (db', Respond 200 session)
      end
  end.

(** [POST /payments/webhook].  [signature] is the [X-Payment-Signature]
    header; the body of the answer is the pair of ["status"] and
    ["order_id"]. *)
Definition payment_webhook (db : DB) (payload : PaymentWebhookPayload.t)
    (signature : option string) : DB * Response (string * string) :=
  if negb (Py.opt_str_truthy signature)
     || negb (bool_decide
                (signature = Some (PaymentWebhookPayload.signature payload)))
  then (db, HTTPException 400 "Invalid signature")
  else
    match handle_webhook db payload with
    | (db', Raise (PaymentProviderError msg)) => (db', HTTPException 400 msg)
    | (db', Raise e) => (db', Unhandled (Some e))
    | (db', Return (order, status_updated)) =>
        (db', Respond 202 (order_status_value status_updated,
                           pretty (Order.id order)))
    end.

(** [POST /payments/stripe/webhook].  [construct_event] is
    [stripe.Webhook.construct_event] ([None] when the module is missing):
    from the body, the signature header and the secret it gives the event
    or the text of the exception it raised. *)
Definition stripe_webhook
    (construct_event :
       option (string → string → string → string + list (string * PyVal)))
    (stripe_webhook_secret : option string)
    (db : DB) (body : string) (signature : option string)
  : DB * Response (string * string) :=
  match construct_event, stripe_webhook_secret with
  | Some construct, Some secret =>
      if negb (Py.str_truthy secret) then
        (db, HTTPException 400 "Stripe not configured")
      else
        match signature with
        | None => (db, HTTPException 400 "Missing Stripe signature")
        | Some sig =>
            if negb (Py.str_truthy sig) then
              (db, HTTPException 400 "Missing Stripe signature")
            else
              match construct body sig secret with
              | inl exc => (db, HTTPException 400 ("Invalid webhook: " +:+ exc))
              | inr event =>
                  match handle_stripe_event db event with
                  | (db', Raise (PaymentProviderError msg)) =>
                      (db', HTTPException 400 msg)
                  | (db', Raise e) => (db', Unhandled (Some e))
                  | (db', Return (order, status_updated)) =>
                      (db', Respond 202 (order_status_value status_updated,
                                         pretty (Order.id order)))
                  end
              end
        end
  | _, _ => (db, HTTPException 400 "Stripe not configured")
  end.

End Endpoints.

(** ** Predicates of the further statements *)

(** The total quantity a request asks of one product. *)
Definition quantity_of (product_id : Z) (items : list OrderItemInput.t) : Z :=
  sumZ (OrderItemInput.quantity
          <$> filter (λ item, OrderItemInput.product_id item = product_id)
                     items).

(** The constraints the schema puts on [orders]: the primary key, and the
    unique index on [idempotency_key] (which does not compare NULLs). *)
Definition orders_wf (db : DB) : Prop :=
  NoDup (Order.id <$> orders db)
  ∧ NoDup (omap Order.idempotency_key (orders db)).

(** Two rows that agree on every column but [status] and
    [payment_reference]. *)
Definition same_but_status (o o' : Order.t) : Prop :=
  o' = Order.set_payment_reference (Order.set_status o (Order.status o'))
         (Order.payment_reference o').

(** The sandbox reference and checkout address of an order. *)
Definition sandbox_reference (provider : string) (order : Order.t) : string :=
  provider +:+ "_session_" +:+ pretty (Order.id order).

Definition sandbox_url (provider : string) (order : Order.t) : string :=
  "https://checkout." +:+ provider +:+ ".sandbox/session/"
  +:+ sandbox_reference provider order.



Definition failed_event : PaymentWebhookPayload.t :=
  PaymentWebhookPayload.mk "manual" 1 "payment_failed" "signature" [].

(** The columns of an order that the line loop does not touch. *)
Definition header_of (o : Order.t) : Order.t :=
  Order.mk (Order.id o) (Order.user_id o) (Order.status o) (Order.currency o)
    0 0 0 (Order.payment_reference o) (Order.payment_provider o)
    (Order.idempotency_key o) (Order.placed_at o) (Order.notes o) [].

(** The CO2 figure of a line, [None] counting for nothing. *)
Definition line_co2 (l : OrderLine.t) : Z := default 0 (OrderLine.impact_co2_g l).

(** A product with a CO2 figure, for the examples. *)
Definition product_C : Product.t :=
  Product.mk 3 "C" (Some 120) 250 None 9 ProductStatus.PUBLISHED true.

Definition co2_db : DB := mkDB [product_A; product_C] [].

Definition co2_request : OrderCreate.t :=
  OrderCreate.mk [OrderItemInput.mk 3 2; OrderItemInput.mk 1 1] (Some "merci").

Definition request_with_notes : OrderCreate.t :=
  OrderCreate.mk [OrderItemInput.mk 1 1] (Some "merci").

Definition key_required : string := "Idempotency-Key header is required".

(** A Stripe request for Alice's order, and a client whose session has an
    [id] and no [url]. *)
Definition stripe_request : PaymentInitRequest.t :=
  PaymentInitRequest.mk 1 "stripe" "https://shop.example/ok"
    "https://shop.example/cancel".

Definition client_without_url : Stripe.client :=
  λ _, inr [("id", PyStr "cs_test_9")].

(** The metadata of a session as Stripe hands it back in an event. *)
Definition metadata_object (metadata : list (string * string)) : PyVal :=
  PyDict ((λ kv, (kv.1, PyStr kv.2)) <$> metadata).

(** A string without white space. *)
Definition no_space (s : string) : Prop :=
  Forall (λ c, Py.isspace c = false) (list_ascii_of_string s).

(** A reference that [update_order_status] can take as it is: text, or
    a value it does not record at all. *)
Definition text_or_nothing (v : PyVal) : Prop :=
  PyObj.truthy v = false ∨ ∃ s, v = PyStr s.

(** The [reference] that [handle_webhook] hands to [update_order_status]
    for the event of a payload on an order. *)
Definition webhook_reference (data : PaymentWebhookPayload.t)
    (order : Order.t) : PyVal :=
  if bool_decide (PaymentWebhookPayload.event data = "payment_succeeded")
  then PyObj.dict_get (PaymentWebhookPayload.payload data) "payment_intent"
         (Order.payment_reference order)
  else PyNone.

(** A request for a sandbox session of Alice's order with the provider
    as the schema spells it. *)
Definition manual_request : PaymentInitRequest.t :=
  PaymentInitRequest.mk 1 "manual" "https://shop.example/ok"
    "https://shop.example/cancel".

(** The example database after Bob's order under ["key-2"] and, after
    that, the payment of Alice's order. *)
Definition bob_call : DB * result (Order.t * bool) :=
  Eval vm_compute in
    create_order db_after_first uuid_2 5 bob request_with_notes "key-2"
      (Some "manual").

Definition db_after_bob : DB := bob_call.1.

Definition paid_call : DB * result (Order.t * OrderStatus.t) :=
  Eval vm_compute in handle_webhook db_after_bob succeeded_event.

Definition db_later : DB := paid_call.1.

(** * Order creation: the line loop *)

Lemma same_but_stock_refl p : same_but_stock p p.
Proof. by destruct p. Qed.

Lemma make_line_same_but_stock p q item :
  same_but_stock p q → make_line p item = make_line q item.
Proof.
  unfold same_but_stock. intros <-. by destruct p.
Qed.

Lemma sumZ_app l1 l2 : sumZ (l1 ++ l2) = sumZ l1 + sumZ l2.
Proof.
  unfold sumZ. induction l1 as [|x l1 IH]; simpl; [done | lia].
Qed.

Lemma sumZ_cons x l : sumZ (x :: l) = x + sumZ l.
Proof. reflexivity. Qed.

(** What the loop does to the header: it appends one snapshot per item,
    each built from the product as first loaded, and adds their subtotals
    and quantities to the running totals. *)
Lemma add_lines_spec items :
  ∀ (init cur cur' : gmap Z Product.t) (order order' : Order.t),
    (∀ k p, cur !! k = Some p →
            ∃ q, init !! k = Some q ∧ same_but_stock p q) →
    add_lines items cur order = Return (cur', order') →
    ∃ new_lines,
      Order.lines order' = Order.lines order ++ new_lines
      ∧ Forall2 (λ item line, ∃ q, init !! OrderItemInput.product_id item = Some q
                                   ∧ line = make_line q item) items new_lines
      ∧ Order.total_amount_cents order'
        = Order.total_amount_cents order
          + sumZ (OrderLine.subtotal_cents <$> new_lines)
      ∧ Order.total_items order'
        = Order.total_items order + sumZ (OrderLine.quantity <$> new_lines)
      ∧ Order.id order' = Order.id order
      ∧ Order.user_id order' = Order.user_id order
      ∧ Order.idempotency_key order' = Order.idempotency_key order
      ∧ Order.status order' = Order.status order
      ∧ Order.payment_reference order' = Order.payment_reference order.
Proof.
  induction items as [|item rest IH]; intros init cur cur' order order' Hinv Hrun.
  - simpl in Hrun. injection Hrun as <- <-.
    exists []. rewrite app_nil_r. simpl. repeat split; try done; lia.
  - simpl in Hrun.
    destruct (cur !! OrderItemInput.product_id item) as [p|] eqn:Hp; [|done].
    destruct (Hinv _ _ Hp) as (q & Hq & Hpq).
    apply (IH init) in Hrun as (new & Hlines & Hall & Hamount & Hitems & Hrest).
    + exists (make_line p item :: new).
      rewrite !fmap_cons, !sumZ_cons.
      simpl in Hlines, Hamount, Hitems, Hrest.
      rewrite Hlines, <- app_assoc. split; [done|].
      split.
      { constructor; [|done]. exists q. by rewrite (make_line_same_but_stock p q). }
      split; [simpl; lia|]. split; [simpl; lia|]. done.
    + intros k p' Hk.
      destruct (decide (OrderItemInput.product_id item = k)) as [<-|Hne].
      * rewrite lookup_insert_eq in Hk. injection Hk as <-.
        exists q. split; [done|].
        unfold same_but_stock in *. rewrite <- Hpq. by destruct p.
      * rewrite lookup_insert_ne in Hk by done. by apply Hinv.
Qed.

(** The dictionary built from the fetched rows holds rows of the table,
    each under its own id. *)
Lemma dict_by_id_lookup rows :
  ∀ (acc : gmap Z Product.t) k p,
    foldl (λ d p, <[Product.id p := p]> d) acc rows !! k = Some p →
    (p ∈ rows ∧ Product.id p = k) ∨ acc !! k = Some p.
Proof.
  induction rows as [|r rows IH]; intros acc k p H; simpl in H; [by right|].
  apply IH in H as [[Hin Hid]|H].
  - left. split; [by apply elem_of_cons; right | done].
  - destruct (decide (Product.id r = k)) as [Heq|Hne].
    + rewrite <- Heq, lookup_insert_eq in H. injection H as <-.
      left. split; [apply elem_of_cons; by left | done].
    + rewrite lookup_insert_ne in H by done. by right.
Qed.

Lemma fetch_products_lookup db ids k p :
  fetch_products db ids !! k = Some p →
  p ∈ products db ∧ Product.id p = k ∧ k ∈ ids.
Proof.
  unfold fetch_products, dict_by_id. intros H.
  apply dict_by_id_lookup in H as [[Hin Hid]|H]; [|by rewrite lookup_empty in H].
  apply list_elem_of_filter in Hin as [Hids Hin]. subst k. done.
Qed.

(** Every row of the table with a requested id is in the dictionary's
    domain. *)
Lemma dict_by_id_dom rows :
  ∀ (acc : gmap Z Product.t) k,
    (k ∈ dom acc ∨ ∃ p, p ∈ rows ∧ Product.id p = k) →
    k ∈ dom (foldl (λ d p, <[Product.id p := p]> d) acc rows).
Proof.
  induction rows as [|r rows IH]; intros acc k H; simpl.
  - destruct H as [H|(p & Hin & _)]; [done|]. by apply elem_of_nil in Hin.
  - apply IH. destruct H as [H|(p & Hin & Hid)].
    + left. rewrite dom_insert_L. set_solver.
    + apply elem_of_cons in Hin as [->|Hin].
      * left. rewrite dom_insert_L. set_solver.
      * right. eauto.
Qed.

Lemma fetch_products_dom db ids k :
  k ∈ dom (fetch_products db ids)
  ↔ k ∈ ids ∧ ∃ p, p ∈ products db ∧ Product.id p = k.
Proof.
  split.
  - intros [p Hp]%elem_of_dom.
    apply fetch_products_lookup in Hp as (? & ? & ?). eauto.
  - intros (Hids & p & Hin & Hid).
    unfold fetch_products, dict_by_id. apply dict_by_id_dom. right.
    exists p. split; [|done]. apply list_elem_of_filter. by subst k.
Qed.

(** * Order creation: the shape of a successful call *)

Lemma next_order_id_fresh rows o :
  o ∈ rows → Order.id o < next_order_id rows.
Proof.
  unfold next_order_id. induction rows as [|r rows IH]; intros Hin.
  - by apply elem_of_nil in Hin.
  - rewrite fmap_cons. cbn [foldr].
    apply elem_of_cons in Hin as [->|Hin]; [lia|].
    specialize (IH Hin). lia.
Qed.

Lemma filter_none {A} (P : A → Prop) `{∀ x, Decision (P x)} (l : list A) :
  (∀ x, x ∈ l → ¬ P x) → filter P l = [].
Proof.
  induction l as [|a l IH]; intros Hall; [done|].
  rewrite filter_cons_False by (apply Hall; apply elem_of_cons; by left).
  apply IH. intros x Hx. apply Hall. apply elem_of_cons. by right.
Qed.

Lemma filter_fresh_id rows o :
  Order.id o = next_order_id rows →
  filter (λ r, Order.id r = Order.id o) (rows ++ [o]) = [o].
Proof.
  intros Hid. rewrite filter_app.
  replace (filter _ rows) with (@nil Order.t).
  - simpl. rewrite filter_cons_True by done. done.
  - symmetry. apply filter_none. intros r Hr Heq.
    apply next_order_id_fresh in Hr. lia.
Qed.

Lemma scalar_one_or_none_Some {A} (l : list A) x :
  scalar_one_or_none l = Return (Some x) ↔ l = [x].
Proof.
  split; [|by intros ->].
  destruct l as [|? [|? ?]]; simpl; intros; by simplify_eq.
Qed.

Lemma scalar_one_or_none_None {A} (l : list A) :
  scalar_one_or_none l = Return None ↔ l = [].
Proof.
  split; [|by intros ->].
  destruct l as [|? [|? ?]]; simpl; intros; by simplify_eq.
Qed.

Lemma scalar_one_Return {A} (l : list A) x :
  scalar_one l = Return x ↔ l = [x].
Proof.
  split; [|by intros ->].
  destruct l as [|? [|? ?]]; simpl; intros; by simplify_eq.
Qed.

(** A call that answers [created = False] found exactly one stored order
    of this user under the key, returns it, and leaves the database
    alone. *)
Lemma create_order_found db uuid now user order_in key provider db' o :
  create_order db uuid now user order_in key provider
    = (db', Return (o, false)) →
  db' = db ∧ existing_orders db user (effective_key key uuid) = [o].
Proof.
  unfold create_order, effective_key. intros H.
  repeat case_match; simplify_eq; try done.
  all: split; [done|]; by apply scalar_one_or_none_Some.
Qed.

(** A call that answers [created = True] found no order under the key,
    passed both validation steps, ran the line loop from the fresh header
    and appended the resulting order to the table. *)
Lemma create_order_created db uuid now user order_in key provider db' o :
  create_order db uuid now user order_in key provider
    = (db', Return (o, true)) →
  let k := effective_key key uuid in
  let loaded0 := fetch_products db (requested_ids order_in) in
  ∃ loaded o1,
    existing_orders db user k = []
    ∧ requested_ids order_in ∖ dom loaded0 = ∅
    ∧ check_items loaded0 (OrderCreate.items order_in) = Return tt
    ∧ add_lines (OrderCreate.items order_in) loaded0
        (new_header db now user k provider) = Return (loaded, o1)
    ∧ o = Order.set_notes o1 (OrderCreate.notes order_in)
    ∧ key_taken (orders db) (Some k) = false
    ∧ db' = mkDB (write_stock loaded <$> products db) (orders db ++ [o]).
Proof.
  intros H k loaded0. unfold create_order in H.
  destruct (negb (Py.str_truthy key)); [done|].
  destruct (bool_decide (Py.strip key = EmptyString)); [done|].
  cbv zeta in H.
  change (if bool_decide (key = placeholder_key) then uuid else key)
    with k in H.
  change (list_to_set (OrderItemInput.product_id <$> OrderCreate.items order_in))
    with (requested_ids order_in) in H.
  change (fetch_products db (requested_ids order_in)) with loaded0 in H.
  change (if Py.opt_str_truthy provider then _ else _)
    with (new_header db now user k provider) in H.
  destruct (scalar_one_or_none (existing_orders db user k))
    as [[?|]|] eqn:Hnone; [done| |done].
  apply scalar_one_or_none_None in Hnone.
  destruct (bool_decide (requested_ids order_in = ∅)); [done|].
  destruct (negb (bool_decide (requested_ids order_in ∖ dom loaded0 = ∅)))
    eqn:Hmiss; [done|].
  apply negb_false_iff, bool_decide_eq_true in Hmiss.
  destruct (check_items loaded0 (OrderCreate.items order_in))
    as [[]|] eqn:Hcheck; [|done].
  destruct (add_lines _ loaded0 _) as [[loaded o1]|] eqn:Hrun; [|done].
  exists loaded, o1.
  destruct (add_lines_spec _ loaded0 loaded0 loaded _ o1
              (λ k p Hk, ex_intro _ p (conj Hk (same_but_stock_refl p))) Hrun)
    as (new & _ & _ & _ & _ & Hid & _ & Hkey & _).
  unfold commit_order in H.
  destruct (key_taken _ _ || _) eqn:Hchk in H; [done|].
  apply orb_false_iff in Hchk as [Hchk _].
  cbn [orders] in H.
  assert (Hfresh : Order.id (Order.set_notes o1 (OrderCreate.notes order_in))
                   = next_order_id (orders db)).
  { simpl. rewrite Hid. unfold new_header. by destruct (Py.opt_str_truthy _). }
  rewrite (filter_fresh_id _ _ Hfresh) in H. simpl in H.
  injection H as <- <-.
  repeat split; try done.
  simpl in Hchk. rewrite Hkey in Hchk. unfold new_header in Hchk.
  by destruct (Py.opt_str_truthy _).
Qed.

Lemma new_header_fields db now user k provider :
  let h := new_header db now user k provider in
  Order.lines h = [] ∧ Order.total_amount_cents h = 0
  ∧ Order.total_items h = 0 ∧ Order.id h = next_order_id (orders db)
  ∧ Order.user_id h = User.id user ∧ Order.idempotency_key h = Some k
  ∧ Order.status h = OrderStatus.PENDING
  ∧ Order.payment_reference h = PyNone.
Proof. unfold new_header. by destruct (Py.opt_str_truthy provider). Qed.

Lemma make_line_priced db item q :
  q ∈ products db →
  Product.id q = OrderItemInput.product_id item →
  priced_from db item (make_line q item).
Proof.
  intros Hin Hid. exists q. repeat split; try done.
Qed.

(** The lines and totals of an order that [create_order] has just
    created. *)
Lemma created_order_lines db uuid now user order_in key provider db' o :
  create_order db uuid now user order_in key provider
    = (db', Return (o, true)) →
  totals_ok o
  ∧ Forall2 (priced_from db) (OrderCreate.items order_in) (Order.lines o).
Proof.
  intros H. apply create_order_created in H
    as (loaded & o1 & _ & _ & _ & Hrun & -> & _ & _).
  destruct (new_header_fields db now user (effective_key key uuid) provider)
    as (Hl & Ha & Hi & _).
  eapply add_lines_spec in Hrun
    as (new & Hlines & Hall & Hamount & Hitems & _);
    [|intros k p Hk; exists p; split; [exact Hk | apply same_but_stock_refl]].
  rewrite Hl in Hlines. rewrite Ha in Hamount. rewrite Hi in Hitems.
  simpl in Hlines. unfold totals_ok. simpl. rewrite Hlines.
  split; [split; lia|].
  eapply Forall2_impl; [exact Hall|].
  intros item line (q & Hq & ->).
  apply fetch_products_lookup in Hq as (Hin & Hid & _).
  by apply make_line_priced.
Qed.

(** C1. Every successful [create_order] call returns an order whose
    [total_amount_cents] is the sum of its lines' subtotals and whose
    [total_items] is the sum of their quantities (for an order answered
    from the idempotency lookup this is the invariant of the stored
    orders, which the call preserves); each line it creates charges the
    promo price when one is set and the regular price otherwise, with
    [subtotal_cents = unit_price_cents * quantity].  On the request of the
    specification (A: price 500, promo 400, quantity 2; B: price 1000,
    quantity 1) the subtotals are 800 and 1000, the total is 1800 and
    [total_items] is 3. *)
Theorem create_order_totals :
  (∀ db uuid now user order_in key provider db' o created,
     Forall totals_ok (orders db) →
     create_order db uuid now user order_in key provider
       = (db', Return (o, created)) →
     totals_ok o
     ∧ Forall totals_ok (orders db')
     ∧ (created = true →
        Forall2 (priced_from db) (OrderCreate.items order_in) (Order.lines o)))
  ∧ (∃ db' o line_A line_B,
       create_order example_db "0123456789abcdef0123456789abcdef" 0 alice
         example_request "key-1" (Some "manual") = (db', Return (o, true))
       ∧ Order.lines o = [line_A; line_B]
       ∧ OrderLine.unit_price_cents line_A = 400
       ∧ OrderLine.subtotal_cents line_A = 800
       ∧ OrderLine.subtotal_cents line_B = 1000
       ∧ Order.total_amount_cents o = 1800
       ∧ Order.total_items o = 3).
Proof.
  split.
  - intros db uuid now user order_in key provider db' o created Hinv H.
    destruct created.
    + pose proof (created_order_lines _ _ _ _ _ _ _ _ _ H) as [Htot Hlines].
      apply create_order_created in H as (? & ? & _ & _ & _ & _ & _ & _ & ->).
      split; [done|]. split; [|done].
      apply Forall_app. split; [done|]. by constructor.
    + apply create_order_found in H as [-> Hfound].
      assert (o ∈ orders db) as Hin.
      { eapply (list_elem_of_filter _ (orders db)).
        unfold existing_orders in Hfound. rewrite Hfound. by left. }
      split; [|split; [done|done]].
      by eapply (proj1 (Forall_forall _ _) Hinv).
  - vm_compute. do 4 eexists. repeat split.
Qed.

(** C1 on a stored order and a retried key. *)
Lemma create_order_totals_witness :
  ∃ db' o,
    create_order example_db "0123456789abcdef0123456789abcdef" 0 alice
      example_request "key-1" (Some "manual") = (db', Return (o, true))
    ∧ totals_ok o ∧ Forall totals_ok (orders db').
Proof.
  eexists _, _. split; [vm_compute; reflexivity|].
  refine (let H := proj1 create_order_totals example_db
                     "0123456789abcdef0123456789abcdef" 0 alice example_request
                     "key-1" (Some "manual") _ _ true _ _ in
          conj (proj1 H) (proj1 (proj2 H))).
  - constructor.
  - vm_compute. reflexivity.
Defined.

(** * Idempotency *)

(** The header fields of a created order. *)
Lemma created_order_header db uuid now user order_in key provider db' o :
  create_order db uuid now user order_in key provider
    = (db', Return (o, true)) →
  Order.id o = next_order_id (orders db)
  ∧ Order.user_id o = User.id user
  ∧ Order.idempotency_key o = Some (effective_key key uuid)
  ∧ Order.status o = OrderStatus.PENDING
  ∧ Order.payment_reference o = PyNone.
Proof.
  intros H. apply create_order_created in H
    as (loaded & o1 & _ & _ & _ & Hrun & -> & _ & _).
  destruct (new_header_fields db now user (effective_key key uuid) provider)
    as (_ & _ & _ & Hid & Huser & Hkey & Hstatus & Hpref).
  eapply add_lines_spec in Hrun
    as (new & _ & _ & _ & _ & Hid' & Huser' & Hkey' & Hstatus' & Hpref');
    [|intros k p Hk; exists p; split; [exact Hk | apply same_but_stock_refl]].
  simpl. by rewrite Hid', Huser', Hkey', Hstatus', Hpref'.
Qed.

(** A call that returns at all was given a key that is neither empty nor
    blank. *)
Lemma create_order_key_checked db uuid now user order_in key provider db' r :
  create_order db uuid now user order_in key provider = (db', Return r) →
  negb (Py.str_truthy key) = false
  ∧ bool_decide (Py.strip key = EmptyString) = false.
Proof.
  unfold create_order. intros H.
  destruct (negb (Py.str_truthy key)); [done|].
  by destruct (bool_decide (Py.strip key = EmptyString)).
Qed.

(** * Validation *)

Lemma add_lines_not_null items loaded0 hdr loaded o1 :
  Order.lines hdr = [] →
  add_lines items loaded0 hdr = Return (loaded, o1) →
  forallb line_not_null (Order.lines o1) = true.
Proof.
  intros Hnil Hrun.
  eapply add_lines_spec in Hrun as (new & Hlines & Hall & _);
    [|intros k p Hk; exists p; split; [exact Hk | apply same_but_stock_refl]].
  rewrite Hlines, Hnil. simpl. clear Hlines.
  induction Hall as [|item line ? ? (q & _ & ->) _ IH]; [done|].
  simpl. rewrite IH.
  unfold make_line, line_not_null. simpl. by destruct (reference_price q).
Qed.

(** [create_order] once the key has been accepted and no order is stored
    under it: the two validation steps, the line loop and the commit. *)
Lemma create_order_after_lookup db uuid now user order_in key provider :
  let k := effective_key key uuid in
  let loaded0 := fetch_products db (requested_ids order_in) in
  Py.str_truthy key = true →
  Py.strip key ≠ EmptyString →
  existing_orders db user k = [] →
  create_order db uuid now user order_in key provider =
    if bool_decide (requested_ids order_in = ∅) then
      (db, Raise (OrderValidationError "Order requires at least one product"))
    else if negb (bool_decide (requested_ids order_in ∖ dom loaded0 = ∅)) then
      (db, Raise (ProductUnavailableError
                    (not_found_message
                       (Py.sorted (requested_ids order_in ∖ dom loaded0)))))
    else
      match check_items loaded0 (OrderCreate.items order_in) with
      | Raise e => (db, Raise e)
      | Return _ =>
          match add_lines (OrderCreate.items order_in) loaded0
                  (new_header db now user k provider) with
          | Raise e => (db, Raise e)
          | Return (loaded, o1) =>
              let o := Order.set_notes o1 (OrderCreate.notes order_in) in
              if key_taken (orders db) (Some k) then (db, Raise IntegrityError)
              else (mkDB (write_stock loaded <$> products db)
                         (orders db ++ [o]),
                    Return (o, true))
          end
      end.
Proof.
  intros k loaded0 Ht Hs Hnone. unfold create_order.
  rewrite Ht, (bool_decide_eq_false_2 _ Hs). cbn [negb]. cbv zeta.
  change (if bool_decide (key = placeholder_key) then uuid else key) with k.
  change (list_to_set (OrderItemInput.product_id <$> OrderCreate.items order_in))
    with (requested_ids order_in).
  change (fetch_products db (requested_ids order_in)) with loaded0.
  change (if Py.opt_str_truthy provider then _ else _)
    with (new_header db now user k provider).
  rewrite Hnone. cbn [scalar_one_or_none].
  destruct (bool_decide (requested_ids order_in = ∅)); [done|].
  destruct (negb _); [done|].
  destruct (check_items _ _) as [[]|]; [|done].
  destruct (add_lines _ _ _) as [[loaded o1]|] eqn:Hrun; [|done].
  destruct (new_header_fields db now user k provider)
    as (Hl & _ & _ & Hid & _ & Hkey & _).
  pose proof (add_lines_not_null _ _ _ _ _ Hl Hrun) as Hnn.
  eapply add_lines_spec in Hrun
    as (new & _ & _ & _ & _ & Hid' & _ & Hkey' & _);
    [|intros i p Hi; exists p; split; [exact Hi | apply same_but_stock_refl]].
  unfold commit_order. cbn [Order.set_notes Order.idempotency_key Order.lines].
  rewrite Hkey', Hkey, Hnn. cbn [negb]. rewrite orb_false_r.
  destruct (key_taken _ _); [done|].
  cbn [orders]. rewrite filter_fresh_id; [done|].
  simpl. by rewrite Hid'.
Qed.

(** Whatever exception [create_order] raises, the database is the one it
    was given. *)
Lemma create_order_raise_unchanged db uuid now user order_in key provider
    db' e :
  create_order db uuid now user order_in key provider = (db', Raise e) →
  db' = db.
Proof.
  destruct (Py.str_truthy key) eqn:Ht;
    [|unfold create_order; rewrite Ht; simpl; by intros [= <-]].
  destruct (decide (Py.strip key = EmptyString)) as [Hs|Hs];
    [unfold create_order; rewrite Ht, (bool_decide_eq_true_2 _ Hs); simpl;
     by intros [= <-]|].
  destruct (existing_orders db user (effective_key key uuid))
    as [|x [|y rest]] eqn:Hex.
  - rewrite create_order_after_lookup by done.
    repeat case_match; by intros [= <-].
  - unfold create_order.
    rewrite Ht, (bool_decide_eq_false_2 _ Hs). cbn [negb]. cbv zeta.
    unfold effective_key in Hex. rewrite Hex. simpl. by intros [=].
  - unfold create_order.
    rewrite Ht, (bool_decide_eq_false_2 _ Hs). cbn [negb]. cbv zeta.
    unfold effective_key in Hex. rewrite Hex. simpl. by intros [= <-].
Qed.

Lemma dict_by_id_other rows :
  ∀ (acc : gmap Z Product.t) k,
    k ∉ Product.id <$> rows →
    foldl (λ d p, <[Product.id p := p]> d) acc rows !! k = acc !! k.
Proof.
  induction rows as [|r rows IH]; intros acc k Hk; [done|].
  rewrite fmap_cons in Hk. apply not_elem_of_cons in Hk as [Hne Hk].
  simpl. rewrite IH by done. by rewrite lookup_insert_ne.
Qed.

Lemma dict_by_id_row rows :
  ∀ (acc : gmap Z Product.t) p,
    NoDup (Product.id <$> rows) →
    p ∈ rows →
    foldl (λ d p, <[Product.id p := p]> d) acc rows !! Product.id p = Some p.
Proof.
  induction rows as [|r rows IH]; intros acc p Hnd Hin.
  - by apply elem_of_nil in Hin.
  - rewrite fmap_cons in Hnd. apply NoDup_cons in Hnd as [Hr Hnd].
    apply elem_of_cons in Hin as [->|Hin]; simpl.
    + rewrite dict_by_id_other by done. apply lookup_insert_eq.
    + by apply IH.
Qed.

(** With a primary key on [products.id], the dictionary maps a requested id
    to its row. *)
Lemma fetch_products_row db ids p :
  NoDup (Product.id <$> products db) →
  p ∈ products db →
  Product.id p ∈ ids →
  fetch_products db ids !! Product.id p = Some p.
Proof.
  intros Hnd Hin Hid. unfold fetch_products, dict_by_id.
  apply dict_by_id_row.
  - eapply sublist_NoDup; [exact Hnd|].
    apply fmap_sublist, sublist_filter.
  - by apply list_elem_of_filter.
Qed.

Lemma requested_ids_elem order_in i :
  i ∈ requested_ids order_in
  ↔ i ∈ OrderItemInput.product_id <$> OrderCreate.items order_in.
Proof. unfold requested_ids. apply elem_of_list_to_set. Qed.

(** The set the code calls [missing_ids] holds the requested ids that have
    no row. *)
Lemma missing_ids_elem db order_in i :
  i ∈ requested_ids order_in
      ∖ dom (fetch_products db (requested_ids order_in))
  ↔ is_missing db order_in i.
Proof.
  rewrite elem_of_difference, fetch_products_dom.
  unfold is_missing. split.
  - intros [Hreq Hno]. split; [by apply requested_ids_elem|].
    intros p Hin Hid. apply Hno. eauto.
  - intros [Hreq Hno]. split; [by apply requested_ids_elem|].
    intros [_ (p & Hin & Hid)]. by apply (Hno p).
Qed.

Lemma sorted_elem (X : gset Z) i : i ∈ Py.sorted X ↔ i ∈ X.
Proof.
  unfold Py.sorted. rewrite merge_sort_Permutation. apply elem_of_elements.
Qed.

Lemma sorted_increasing (X : gset Z) : StronglySorted Z.lt (Py.sorted X).
Proof.
  unfold Py.sorted.
  assert (StronglySorted Z.le (merge_sort Z.le (elements X))) as Hle
    by (apply StronglySorted_merge_sort; apply _).
  assert (NoDup (merge_sort Z.le (elements X))) as Hnd
    by (rewrite merge_sort_Permutation; apply NoDup_elements).
  induction Hle as [|x l Hl IH Hx]; [constructor|].
  apply NoDup_cons in Hnd as [Hnotin Hnd].
  constructor; [by apply IH|].
  apply Forall_forall. intros y Hy.
  pose proof (proj1 (Forall_forall _ _) Hx y Hy).
  assert (x ≠ y) by (intros ->; done). lia.
Qed.

(** The first loop stops at the first line whose product is not for sale
    or lacks the stock, and looks at availability first. *)
Lemma check_items_first_failure loaded good bad rest p :
  Forall (λ item, ∃ q, loaded !! OrderItemInput.product_id item = Some q
                       ∧ available q = true
                       ∧ OrderItemInput.quantity item ≤ Product.stock q) good →
  loaded !! OrderItemInput.product_id bad = Some p →
  check_items loaded (good ++ bad :: rest) =
    if negb (available p) then
      Raise (ProductUnavailableError (not_available_message (Product.id p)))
    else if Product.stock p <? OrderItemInput.quantity bad then
      Raise (OutOfStockError (insufficient_stock_message (Product.id p)))
    else check_items loaded rest.
Proof.
  intros Hgood Hbad. induction Hgood as [|item good (q & Hq & Hav & Hst) _ IH].
  - simpl. by rewrite Hbad.
  - simpl. rewrite Hq, Hav. simpl.
    destruct (Product.stock q <? OrderItemInput.quantity item) eqn:Hlt;
      [apply Z.ltb_lt in Hlt; lia | done].
Qed.

Lemma line_passes_loaded db order_in item :
  NoDup (Product.id <$> products db) →
  item ∈ OrderCreate.items order_in →
  line_passes db item →
  ∃ q, fetch_products db (requested_ids order_in)
         !! OrderItemInput.product_id item = Some q
       ∧ available q = true
       ∧ OrderItemInput.quantity item ≤ Product.stock q.
Proof.
  intros Hnd Hitem (p & Hin & Hid & Hav & Hst).
  exists p. split; [|done]. rewrite <- Hid.
  apply fetch_products_row; [done..|].
  rewrite Hid. apply requested_ids_elem. by apply list_elem_of_fmap_2.
Qed.

(** C3. Once the key is accepted and no order is stored under it:
    (1) if some requested product id has no row, [create_order] raises
    [ProductUnavailableError] whose message lists, in increasing order,
    exactly the requested ids without a row; (2) otherwise, at the first
    line (in request order) that does not pass, it raises
    [ProductUnavailableError] when the product is not for sale, whatever
    its stock, and [OutOfStockError] when it is for sale but has less
    stock than asked; (3) whatever exception the call raises, the database
    it leaves is the database it was given, so no stock and no order has
    changed, also when other lines could have been served. *)
Theorem create_order_validation db uuid now user order_in key provider :
  Py.str_truthy key = true →
  Py.strip key ≠ EmptyString →
  existing_orders db user (effective_key key uuid) = [] →
  let r := create_order db uuid now user order_in key provider in
  ((∃ i, is_missing db order_in i) →
   ∃ ids,
     r = (db, Raise (ProductUnavailableError (not_found_message ids)))
     ∧ StronglySorted Z.lt ids
     ∧ ∀ i, i ∈ ids ↔ is_missing db order_in i)
  ∧ ((∀ i, ¬ is_missing db order_in i) →
     NoDup (Product.id <$> products db) →
     ∀ good bad rest p,
       OrderCreate.items order_in = good ++ bad :: rest →
       Forall (line_passes db) good →
       p ∈ products db →
       Product.id p = OrderItemInput.product_id bad →
       (available p = false →
        r = (db, Raise (ProductUnavailableError
                          (not_available_message (Product.id p)))))
       ∧ (available p = true →
          Product.stock p < OrderItemInput.quantity bad →
          r = (db, Raise (OutOfStockError
                            (insufficient_stock_message (Product.id p))))))
  ∧ (∀ db' e, r = (db', Raise e) → db' = db).
Proof.
  intros Ht Hs Hnone r. subst r.
  split; [|split].
  - intros [i Hi].
    rewrite create_order_after_lookup by done.
    pose proof (proj2 (missing_ids_elem db order_in i) Hi) as Hmiss.
    rewrite bool_decide_eq_false_2; cycle 1.
    { intros Heq. apply elem_of_difference in Hmiss as [Hreq _].
      rewrite Heq in Hreq. by apply not_elem_of_empty in Hreq. }
    rewrite bool_decide_eq_false_2; cycle 1.
    { intros Heq. rewrite Heq in Hmiss. by apply not_elem_of_empty in Hmiss. }
    cbn [negb]. eexists. split; [reflexivity|].
    split; [apply sorted_increasing|].
    intros j. rewrite sorted_elem. apply missing_ids_elem.
  - intros Hall Hnd good bad rest p Hitems Hgood Hin Hid.
    rewrite create_order_after_lookup by done.
    assert (OrderItemInput.product_id bad ∈ requested_ids order_in) as Hreq.
    { apply requested_ids_elem. rewrite Hitems, fmap_app, fmap_cons.
      apply elem_of_app. right. by left. }
    rewrite bool_decide_eq_false_2; cycle 1.
    { intros Heq. rewrite Heq in Hreq. by apply not_elem_of_empty in Hreq. }
    rewrite bool_decide_eq_true_2; cycle 1.
    { apply elem_of_equiv_empty_L. intros i Hi.
      by apply missing_ids_elem, Hall in Hi. }
    cbn [negb]. rewrite Hitems.
    rewrite (check_items_first_failure _ good bad rest p); cycle 1.
    { apply Forall_forall. intros item Hitem.
      apply line_passes_loaded; [done| |].
      - rewrite Hitems. apply elem_of_app. by left.
      - by apply (proj1 (Forall_forall _ _) Hgood). }
    { rewrite <- Hid. apply fetch_products_row; [done..|]. by rewrite Hid. }
    split.
    + by intros ->.
    + intros -> Hlt. apply Z.ltb_lt in Hlt. by rewrite Hlt.
  - intros db' e. apply create_order_raise_unchanged.
Qed.

(** C3 on the example: the second line asks for 5 of B, of which 4 are in
    stock; the call raises [OutOfStockError] and the stock of A, whose
    line could have been served, is untouched. *)
Lemma create_order_validation_witness :
  create_order example_db uuid_1 0 alice request_too_many_B "key-1"
    (Some "manual")
  = (example_db, Raise (OutOfStockError (insufficient_stock_message 2))).
Proof.
  refine (proj2 (proj1 (proj2
            (create_order_validation example_db uuid_1 0 alice
               request_too_many_B "key-1" (Some "manual") eq_refl _ eq_refl)
            ) _ _ [OrderItemInput.mk 1 2] (OrderItemInput.mk 2 5) [] product_B
              eq_refl _ _ eq_refl) eq_refl _).
  - done.
  - intros i [Hreq Hno]. simpl in Hreq.
    apply elem_of_cons in Hreq as [->|Hreq].
    + apply (Hno product_A); [by left | done].
    + apply elem_of_cons in Hreq as [->|Hreq];
        [|by apply elem_of_nil in Hreq].
      apply (Hno product_B); [right; by left | done].
  - apply (bool_decide_unpack _). vm_compute. exact I.
  - constructor; [|constructor]. exists product_A.
    repeat split; [by left | done].
  - right. by left.
  - simpl. lia.
Defined.

(** * Stock *)

(** C4, on the input where the code departs from it. B has 4 units; the
    request has two lines of 3 units of B. Each line passes the stock
    check against the 4 units, the order is created, and B is left with
    a stock of -2. *)
Theorem create_order_same_product_twice :
  ∃ db' o,
    create_order example_db uuid_1 0 alice request_B_twice "key-1"
      (Some "manual") = (db', Return (o, true))
    ∧ Product.stock product_B = 4
    ∧ Product.stock <$> filter (λ p, Product.id p = 2) (products db') = [-2]
    ∧ Order.total_items o = 6.
Proof.
  eexists _, _. split; [vm_compute; reflexivity|].
  vm_compute. done.
Qed.

(** * Reference price *)

(** C5, as amended. Every line of a created order records the product's
    regular price as [reference_price_cents], with or without a promo:
    next to the promo price when one is set, and equal to the unit price
    when none is. *)
Theorem create_order_reference_price db uuid now user order_in key provider
    db' o :
  create_order db uuid now user order_in key provider
    = (db', Return (o, true)) →
  Forall2 (λ item line,
             ∃ p, p ∈ products db
               ∧ Product.id p = OrderItemInput.product_id item
               ∧ OrderLine.reference_price_cents line
                 = Some (Product.price_cents p)
               ∧ (Product.promo_price_cents p = None →
                  OrderLine.unit_price_cents line = Product.price_cents p))
          (OrderCreate.items order_in) (Order.lines o).
Proof.
  intros H. apply created_order_lines in H as [_ Hall].
  eapply Forall2_impl; [exact Hall|].
  intros item line (p & Hin & Hid & _ & _ & _ & ->).
  exists p. repeat split; try done.
  - unfold make_line, reference_price. simpl.
    by destruct (Product.promo_price_cents p).
  - intros Hnone. unfold make_line, sale_price. simpl. by rewrite Hnone.
Qed.

(** C5 on the example: both lines of Alice's order carry the regular
    price. *)
Lemma create_order_reference_price_witness :
  Forall2 (λ item line,
             ∃ p, p ∈ products example_db
               ∧ Product.id p = OrderItemInput.product_id item
               ∧ OrderLine.reference_price_cents line
                 = Some (Product.price_cents p)
               ∧ (Product.promo_price_cents p = None →
                  OrderLine.unit_price_cents line = Product.price_cents p))
          (OrderCreate.items example_request) (Order.lines first_order).
Proof.
  apply (create_order_reference_price example_db uuid_1 0 alice
           example_request "key-1" (Some "manual") db_after_first).
  vm_compute. reflexivity.
Defined.

(** C5 as stated fails: B has no promo price, and its line records 1000 as
    reference price. *)
Lemma reference_price_without_promo : ¬ reference_only_with_promo.
Proof.
  intros Hclaim.
  assert (Hcall : create_order example_db uuid_1 0 alice example_request
                    "key-1" (Some "manual")
                  = (db_after_first, Return (first_order, true)))
    by (vm_compute; reflexivity).
  apply Hclaim in Hcall.
  unfold first_order, example_request, example_db in Hcall. simpl in Hcall.
  apply Forall2_cons_1 in Hcall as [_ Hcall].
  apply Forall2_cons_1 in Hcall as [(p & Hin & Hid & Href) _].
  apply elem_of_cons in Hin as [->|Hin]; [discriminate Hid|].
  apply elem_of_cons in Hin as [->|Hin]; [discriminate Href|].
  by apply elem_of_nil in Hin.
Qed.

(** * Ownership of the returned order *)

(** C10. The order [create_order] returns belongs to the calling user,
    whether it was just created or found by the idempotency lookup; so it
    is never an order that another user has stored, under the same key or
    any other. *)
Theorem create_order_owner db uuid now user order_in key provider db' o
    created :
  create_order db uuid now user order_in key provider
    = (db', Return (o, created)) →
  Order.user_id o = User.id user
  ∧ ∀ o1, o1 ∈ orders db → Order.user_id o1 ≠ User.id user → o ≠ o1.
Proof.
  intros H.
  assert (Order.user_id o = User.id user) as Howner.
  { destruct created.
    - by apply created_order_header in H as (_ & ? & _).
    - apply create_order_found in H as [_ Hfound].
      assert (o ∈ existing_orders db user (effective_key key uuid)) as Hin
        by (rewrite Hfound; by left).
      by apply list_elem_of_filter in Hin as [[? _] _]. }
  split; [done|]. intros o1 _ Hother ->. done.
Qed.

(** The unique index on [idempotency_key] spans all users: Bob's call with
    the key of Alice's stored order finds no order of his, goes on to
    create one, and the flush is refused. *)
Lemma create_order_key_of_other_user :
  create_order db_after_first uuid_2 1 bob example_request "key-1" None
  = (db_after_first, Raise IntegrityError).
Proof. vm_compute. reflexivity. Qed.

(** C10 on the example: Bob's first order under ["key-2"], placed after
    Alice's, is his and is not Alice's. *)
Lemma create_order_owner_witness :
  ∃ db' o,
    create_order db_after_first uuid_2 1 bob example_request "key-2" None
      = (db', Return (o, true))
    ∧ Order.user_id o = 8
    ∧ o ≠ first_order.
Proof.
  eexists _, _.
  assert (Hcall : create_order db_after_first uuid_2 1 bob example_request
                    "key-2" None = (_, Return (_, true)))
    by (vm_compute; reflexivity).
  split; [exact Hcall|].
  destruct (create_order_owner _ _ _ _ _ _ _ _ _ _ Hcall) as [Howner Hother].
  split; [exact Howner|].
  apply Hother; [by left | done].
Defined.

(** * Reading and updating one order *)

Lemma filter_one_elem {A} (P : A → Prop) `{∀ x, Decision (P x)}
    (l : list A) x r :
  filter P l = [x] → r ∈ l → P r → r = x.
Proof.
  intros Hf Hin HP.
  assert (r ∈ filter P l) as Hr by by apply list_elem_of_filter.
  rewrite Hf in Hr. apply elem_of_cons in Hr as [->|Hr]; [done|].
  by apply elem_of_nil in Hr.
Qed.

Lemma get_order_by_id_Some db order_id order :
  get_order_by_id db order_id = Return (Some order) →
  filter (λ o, Order.id o = order_id) (orders db) = [order]
  ∧ Order.id order = order_id ∧ order ∈ orders db.
Proof.
  unfold get_order_by_id. intros H%scalar_one_or_none_Some.
  split; [done|].
  assert (order ∈ filter (λ o, Order.id o = order_id) (orders db)) as Hin
    by (rewrite H; by left).
  by apply list_elem_of_filter in Hin.
Qed.

(** With a primary key on [orders.id], a stored order is found by its
    id. *)
Lemma get_order_by_id_row db order :
  NoDup (Order.id <$> orders db) →
  order ∈ orders db →
  get_order_by_id db (Order.id order) = Return (Some order).
Proof.
  unfold get_order_by_id. intros Hnd Hin. apply scalar_one_or_none_Some.
  induction (orders db) as [|r rows IH]; [by apply elem_of_nil in Hin|].
  rewrite fmap_cons in Hnd. apply NoDup_cons in Hnd as [Hr Hnd].
  apply elem_of_cons in Hin as [->|Hin].
  - rewrite filter_cons_True by done. f_equal.
    apply filter_none. intros x Hx Heq. apply Hr. rewrite <- Heq.
    by apply list_elem_of_fmap_2.
  - rewrite filter_cons_False; [by apply IH|].
    intros Heq. apply Hr. rewrite Heq. by apply list_elem_of_fmap_2.
Qed.

(** A column update that keeps the id rewrites the one row found under
    that id and no other. *)
Lemma update_orders_found db order write :
  (∀ r, Order.id (write r) = Order.id r) →
  filter (λ o, Order.id o = Order.id order) (orders db) = [order] →
  filter (λ o, Order.id o = Order.id order)
         (orders (update_orders db (Order.id order) write))
  = [write order].
Proof.
  intros Hid. unfold update_orders. cbn [orders].
  generalize (orders db) as rows. intros rows.
  revert order. induction rows as [|r rows IH]; intros order Hf; [done|].
  rewrite fmap_cons.
  destruct (decide (Order.id r = Order.id order)) as [Heq|Hne].
  - rewrite filter_cons_True in Hf by done. injection Hf as -> Hrest.
    rewrite bool_decide_eq_true_2 by done.
    rewrite filter_cons_True by (by rewrite Hid). f_equal.
    apply filter_none. intros x Hx Hxid.
    apply list_elem_of_fmap in Hx as (y & -> & Hy).
    assert (Order.id y = Order.id order) as Hyid.
    { destruct (bool_decide (Order.id y = Order.id order)) eqn:Hb.
      - by apply bool_decide_eq_true in Hb.
      - done. }
    by apply (filter_nil_not_elem_of _ _ y Hrest Hyid).
  - rewrite filter_cons_False in Hf by done.
    rewrite bool_decide_eq_false_2 by done.
    rewrite filter_cons_False by done. by apply IH.
Qed.

(** A column update that changes nothing on the rows it reaches leaves the
    table as it is. *)
Lemma update_orders_same db order_id write :
  (∀ r, r ∈ orders db → Order.id r = order_id → write r = r) →
  update_orders db order_id write = db.
Proof.
  intros Hsame. unfold update_orders. destruct db as [ps rows].
  cbn [products orders] in *. f_equal.
  induction rows as [|r rows IH]; [done|].
  rewrite fmap_cons. f_equal.
  - destruct (bool_decide (Order.id r = order_id)) eqn:Hb; [|done].
    apply bool_decide_eq_true in Hb. apply Hsame; [by left | done].
  - apply IH. intros x Hx. apply Hsame. by right.
Qed.

(** Text is stored as it is. *)
Lemma string_column_text v :
  PyObj.truthy v = true → text_or_nothing v → string_column v = Return v.
Proof. intros Ht [Hf|[s ->]]; [congruence | done]. Qed.


(** What [update_order_status] does on the stored row of an order, for any
    reference: the flush raises and nothing is written, or the status and
    the text of a truthy reference are stored. *)
Lemma update_order_status_outcome db order status reference :
  filter (λ o, Order.id o = Order.id order) (orders db) = [order] →
  (∃ e, update_order_status db order status reference = (db, Raise e)
        ∧ (e = ProgrammingError ∨ e = OverflowError)
        ∧ ¬ text_or_nothing reference
        ∧ PyObj.truthy reference = true
        ∧ string_column reference = Raise e)
  ∨ (∃ stored,
       (PyObj.truthy reference = true →
        string_column reference = Return stored)
       ∧ (text_or_nothing reference → stored = reference)
       ∧ let write row :=
           let row := Order.set_status row status in
           if PyObj.truthy reference
           then Order.set_payment_reference row stored else row in
         let db' := update_orders db (Order.id order) write in
         update_order_status db order status reference
           = (db', Return (write order))
         ∧ filter (λ o, Order.id o = Order.id order) (orders db')
           = [write order]
         ∧ products db' = products db).
Proof.
  intros Hf.
  assert (∀ stored,
            (PyObj.truthy reference = true →
             string_column reference = Return stored) →
            (PyObj.truthy reference = false → stored = reference) →
            let write row :=
              let row := Order.set_status row status in
              if PyObj.truthy reference
              then Order.set_payment_reference row stored else row in
            let db' := update_orders db (Order.id order) write in
            update_order_status db order status reference
              = (db', Return (write order))
            ∧ filter (λ o, Order.id o = Order.id order) (orders db')
              = [write order]
            ∧ products db' = products db) as Hstored.
  { intros stored Hcol Hnot write db'.
    assert (∀ r, Order.id (write r) = Order.id r) as Hid
      by (intros r; unfold write; by destruct (PyObj.truthy reference)).
    pose proof (update_orders_found db order write Hid Hf) as Hf'.
    split; [|by split].
    unfold update_order_status.
    destruct (PyObj.truthy reference) eqn:Ht.
    - rewrite (Hcol eq_refl).
      change ((update_orders db (Order.id order) write,
               refresh (update_orders db (Order.id order) write) order)
              = (db', Return (write order))).
      unfold refresh, db'. by rewrite Hf'.
    - change ((update_orders db (Order.id order) write,
               refresh (update_orders db (Order.id order) write) order)
              = (db', Return (write order))).
      unfold refresh, db'. by rewrite Hf'. }
  destruct (PyObj.truthy reference) eqn:Ht; cycle 1.
  { right. exists reference. split; [done|]. split; [done|].
    apply (Hstored reference); [intros Hc; congruence | done]. }
  destruct (string_column reference) as [stored|e] eqn:Hcol.
  - right. exists stored. split; [done|]. split.
    + intros Htext. rewrite (string_column_text _ Ht Htext) in Hcol.
      by injection Hcol.
    + apply (Hstored stored); [done | intros Hfalse; congruence].
  - left. exists e. split; [|split; [|split; [|done]]].
    + unfold update_order_status. by rewrite Ht, Hcol.
    + destruct reference as [|b|z|s|l|d]; cbn [string_column] in Hcol;
        try done; try (injection Hcol as <-; by left).
      destruct (_ && _); [done|]. injection Hcol as <-. by right.
    + intros Htext. by rewrite (string_column_text _ Ht Htext) in Hcol.
Qed.

(** The columns [update_order_status] writes for a reference that is text
    or nothing. *)
Lemma update_order_status_found db order status reference :
  text_or_nothing reference →
  filter (λ o, Order.id o = Order.id order) (orders db) = [order] →
  let write row :=
    let row := Order.set_status row status in
    if PyObj.truthy reference
    then Order.set_payment_reference row reference else row in
  let db' := update_orders db (Order.id order) write in
  update_order_status db order status reference = (db', Return (write order))
  ∧ filter (λ o, Order.id o = Order.id order) (orders db') = [write order]
  ∧ products db' = products db.
Proof.
  intros Htext Hf.
  destruct (update_order_status_outcome db order status reference Hf)
    as [(e & _ & _ & Hno & _)|(stored & _ & Hsame & Hrun)]; [done|].
  by rewrite (Hsame Htext) in Hrun.
Qed.


(** * The generic webhook *)

(** [handle_webhook] on an order that is found and whose provider
    matches. *)
Lemma handle_webhook_resolved db data order :
  get_order_by_id db (PaymentWebhookPayload.order_id data)
    = Return (Some order) →
  Order.payment_provider order = Some (PaymentWebhookPayload.provider data) →
  handle_webhook db data =
    let event := PaymentWebhookPayload.event data in
    let finish (r : DB * result Order.t) :=
      match r with
      | (db', Raise e) => (db', Raise e)
      | (db', Return order) => (db', Return (order, Order.status order))
      end in
    if bool_decide (event = "payment_succeeded") then
      finish (update_order_status db order OrderStatus.PAID
                (PyObj.dict_get (PaymentWebhookPayload.payload data)
                   "payment_intent" (Order.payment_reference order)))
    else if bool_decide (event = "payment_failed") then
      finish (update_order_status db order OrderStatus.CANCELLED PyNone)
    else if bool_decide (event = "payment_refunded") then
      finish (update_order_status db order OrderStatus.REFUNDED PyNone)
    else (db, Raise (PaymentProviderError "Unknown event")).
Proof.
  intros Hget Hprov. unfold handle_webhook.
  rewrite Hget, (bool_decide_eq_true_2 _ Hprov). cbn [negb]. cbv zeta.
  by repeat case_bool_decide.
Qed.

(** [update_order_status] on an order just read by its id, for any
    reference: the flush raises on a truthy reference that is no text and
    nothing is written, or the status and the text of a truthy reference
    are stored on the order. *)
Lemma update_order_status_resolved db order_id order status reference :
  get_order_by_id db order_id = Return (Some order) →
  (∃ e, update_order_status db order status reference = (db, Raise e)
        ∧ (e = ProgrammingError ∨ e = OverflowError)
        ∧ ¬ text_or_nothing reference)
  ∨ (∃ db' order',
       update_order_status db order status reference = (db', Return order')
       ∧ Order.status order' = status
       ∧ Order.id order' = order_id
       ∧ get_order_by_id db' order_id = Return (Some order')
       ∧ Order.payment_provider order' = Order.payment_provider order
       ∧ (PyObj.truthy reference = true →
          string_column reference = Return (Order.payment_reference order'))
       ∧ (PyObj.truthy reference = false →
          Order.payment_reference order' = Order.payment_reference order)).
Proof.
  intros Hget.
  pose proof (get_order_by_id_Some _ _ _ Hget) as (Hf & Hid & _).
  rewrite <- Hid in Hf.
  destruct (update_order_status_outcome db order status reference Hf)
    as [(e & Hrun & He & Hno & _)|(stored & Hcol & _ & Hrun & Hf' & _)].
  { left. by exists e. }
  right. cbv zeta in Hrun, Hf'. eexists _, _. split; [exact Hrun|].
  unfold get_order_by_id. rewrite <- Hid, Hf'.
  destruct (PyObj.truthy reference); repeat split; done.
Qed.

(** [handle_webhook] on a resolved order, for an event of the table. *)
Lemma handle_webhook_known db data order status :
  get_order_by_id db (PaymentWebhookPayload.order_id data)
    = Return (Some order) →
  Order.payment_provider order = Some (PaymentWebhookPayload.provider data) →
  target_status (PaymentWebhookPayload.event data) = Some status →
  handle_webhook db data =
    match update_order_status db order status (webhook_reference data order)
    with
    | (db', Raise e) => (db', Raise e)
    | (db', Return order') => (db', Return (order', Order.status order'))
    end.
Proof.
  intros Hget Hprov Hstatus.
  rewrite (handle_webhook_resolved _ _ _ Hget Hprov). cbv zeta.
  unfold target_status in Hstatus. unfold webhook_reference.
  repeat case_bool_decide; by simplify_eq.
Qed.




(** C9. When no stored order has the id of the payload, and when the
    order found has another [payment_provider] than the payload names (or
    none), [handle_webhook] raises [PaymentProviderError] and the database
    after the call is the database before it. *)
Theorem handle_webhook_rejects db data :
  ((∀ o, o ∈ orders db → Order.id o ≠ PaymentWebhookPayload.order_id data) →
   handle_webhook db data
   = (db, Raise (PaymentProviderError "Order not found")))
  ∧ (∀ order,
       get_order_by_id db (PaymentWebhookPayload.order_id data)
         = Return (Some order) →
       Order.payment_provider order
         ≠ Some (PaymentWebhookPayload.provider data) →
       handle_webhook db data
       = (db, Raise (PaymentProviderError "Provider mismatch"))).
Proof.
  split.
  - intros Hnone. unfold handle_webhook, get_order_by_id.
    by rewrite (filter_none _ _ Hnone).
  - intros order Hget Hprov. unfold handle_webhook.
    by rewrite Hget, (bool_decide_eq_false_2 _ Hprov).
Qed.

(** C9 on the example: an event for order 2, which does not exist, and an
    event naming Stripe for an order placed with the sandbox provider. *)
Lemma handle_webhook_rejects_witness :
  handle_webhook pending_db unknown_order_event
    = (pending_db, Raise (PaymentProviderError "Order not found"))
  ∧ handle_webhook pending_db other_provider_event
    = (pending_db, Raise (PaymentProviderError "Provider mismatch")).
Proof.
  split.
  - apply (proj1 (handle_webhook_rejects pending_db unknown_order_event)).
    intros o Hin. apply elem_of_cons in Hin as [->|Hin]; [done|].
    by apply elem_of_nil in Hin.
  - apply (proj2 (handle_webhook_rejects pending_db other_provider_event)
             pending_order); [reflexivity | done].
Defined.

(** * The Stripe webhook *)

(** The references of the Stripe handler are text or nothing. *)
Lemma text_or_nothing_None : text_or_nothing PyNone.
Proof. by left. Qed.

Lemma text_or_nothing_str v :
  text_or_nothing (if PyObj.truthy v then PyStr (PyObj.str v) else PyNone).
Proof. destruct (PyObj.truthy v); [right; eauto | by left]. Qed.

(** [update_order_status] on an order just read by its id stores and
    returns it with the new status. *)
Lemma update_order_status_sets db order_id order status reference :
  text_or_nothing reference →
  get_order_by_id db order_id = Return (Some order) →
  ∃ db' order',
    update_order_status db order status reference = (db', Return order')
    ∧ Order.status order' = status
    ∧ get_order_by_id db' order_id = Return (Some order').
Proof.
  intros Htext Hget.
  pose proof (get_order_by_id_Some _ _ _ Hget) as (Hf & Hid & _).
  rewrite <- Hid in Hf.
  destruct (update_order_status_found db order status reference Htext Hf)
    as (Hrun & Hf' & _).
  eexists _, _. split; [exact Hrun|].
  unfold get_order_by_id. rewrite <- Hid. cbv zeta in Hf' |- *.
  rewrite Hf'. split; [|done].
  by destruct (PyObj.truthy reference).
Qed.

(** C7, as amended. On a resolved order, the Stripe handler sets PAID on
    [checkout.session.completed], REFUNDED on [charge.refunded] and on
    [payment_intent.canceled], CANCELLED on [checkout.session.expired] and
    on [payment_intent.payment_failed]; for any other event type string it
    raises [PaymentProviderError] and changes nothing. *)
Theorem handle_stripe_event_table : stripe_follows stripe_target_status.
Proof.
  intros db event event_type obj order_id order Htype Href Hget.
  unfold handle_stripe_event. rewrite Htype, Href, Hget.
  unfold is_str, stripe_target_status. cbn [PyObj.hashable negb PyObj.str].
  repeat case_bool_decide; cbn [orb].
  all: try match goal with
       | |- context [update_order_status ?d ?o ?s ?r] =>
           assert (text_or_nothing r) as Htext
             by (first [apply text_or_nothing_None
                       | apply text_or_nothing_str]);
           destruct (update_order_status_sets d order_id o s r Htext Hget)
             as (db' & order' & Hrun & Hst & Hget');
           exists db', order'; rewrite Hrun, Hst; done
       end.
  done.
Qed.

(** C7 on the example: [charge.refunded] for the stored order. *)
Lemma handle_stripe_event_table_witness :
  ∃ db' order',
    handle_stripe_event pending_db (stripe_event "charge.refunded")
      = (db', Return (order', OrderStatus.REFUNDED))
    ∧ Order.status order' = OrderStatus.REFUNDED
    ∧ get_order_by_id db' 1 = Return (Some order').
Proof.
  exact (handle_stripe_event_table pending_db
           (stripe_event "charge.refunded") "charge.refunded"
           _ 1 pending_order eq_refl eq_refl eq_refl).
Defined.

(** C7 as stated fails at [payment_intent.canceled]: the handler sets
    REFUNDED, not CANCELLED. *)
Lemma handle_stripe_event_canceled :
  ¬ stripe_follows stripe_target_status_claimed.
Proof.
  intros Hclaim.
  specialize (Hclaim pending_db (stripe_event "payment_intent.canceled")
                "payment_intent.canceled" _ 1 pending_order
                eq_refl eq_refl eq_refl).
  change (stripe_target_status_claimed "payment_intent.canceled")
    with (Some OrderStatus.CANCELLED) in Hclaim.
  destruct Hclaim as (db' & order' & Hrun & _).
  vm_compute in Hrun. discriminate Hrun.
Qed.

(** * Payment session *)

Lemma same_but_payment_refl o : same_but_payment o o.
Proof. by destruct o. Qed.

Lemma same_but_payment_status o o' :
  same_but_payment o o' → Order.status o' = Order.status o.
Proof. by intros ->. Qed.

(** The only write of [init_payment_session]: the two payment columns of the
    rows with the order's id. *)
Lemma save_payment_rows db order provider reference :
  let db' := (save_payment db order provider reference).1 in
  products db' = products db
  ∧ Forall2 same_but_payment (orders db) (orders db').
Proof.
  unfold save_payment, update_orders. cbn [fst products orders].
  split; [done|].
  induction (orders db) as [|r rows IH]; [constructor|].
  rewrite fmap_cons. constructor; [|done].
  destruct (bool_decide _); [|apply same_but_payment_refl].
  by destruct r.
Qed.

(** Every execution of [init_payment_session] ends in the database it was
    given or in that database with the payment columns written. *)
Lemma init_payment_session_db stripe stripe_secret_key is_http_url
    db order request db' r :
  init_payment_session stripe stripe_secret_key is_http_url db order request
    = (db', r) →
  db' = db
  ∨ ∃ provider reference,
      db' = (save_payment db order provider reference).1.
Proof.
  unfold init_payment_session. intros H.
  repeat case_match; simplify_eq; try (by left).
  all: right; eexists _, _;
    match goal with
    | E : save_payment _ _ _ _ = _ |- _ => by rewrite E
    end.
Qed.

Lemma Forall2_same_refl rows : Forall2 same_but_payment rows rows.
Proof.
  induction rows; constructor; [apply same_but_payment_refl | done].
Qed.

(** C8. [init_payment_session] raises [PaymentProviderError] and writes
    nothing when the order is neither PENDING nor DRAFT; and in every
    execution, whatever the provider, the Stripe client's answer and the
    outcome, each stored order keeps every column but [payment_provider]
    and [payment_reference], its status among them, and no product
    changes. *)
Theorem init_payment_session_status stripe stripe_secret_key is_http_url
    db order request db' r :
  init_payment_session stripe stripe_secret_key is_http_url db order request
    = (db', r) →
  (Order.status order ≠ OrderStatus.PENDING →
   Order.status order ≠ OrderStatus.DRAFT →
   db' = db ∧ r = Raise (PaymentProviderError "Order already processed"))
  ∧ products db' = products db
  ∧ Forall2 same_but_payment (orders db) (orders db')
  ∧ Order.status <$> orders db' = Order.status <$> orders db.
Proof.
  intros H. split.
  - intros Hp Hd. unfold init_payment_session in H.
    rewrite !bool_decide_eq_false_2 in H by done. simpl in H.
    by injection H as <- <-.
  - assert (products db' = products db
            ∧ Forall2 same_but_payment (orders db) (orders db'))
      as [Hprod Hrows].
    { apply init_payment_session_db in H as [->|(p & ref & ->)].
      - split; [done | apply Forall2_same_refl].
      - apply save_payment_rows. }
    split; [done|]. split; [done|].
    clear H. induction Hrows as [|o o' rows rows' Ho _ IH]; [done|].
    rewrite !fmap_cons, IH. f_equal. by apply same_but_payment_status.
Qed.

(** C8 on the example: the sandbox session for the pending order writes the
    provider and the reference and leaves the status PENDING; the same
    order once PAID is refused. *)
Lemma init_payment_session_status_witness :
  ∃ db' session,
    init_payment_session None None (λ _, true) pending_db pending_order
      sandbox_request = (db', Return session)
    ∧ PaymentSession.payment_reference session = "manual_session_1"
    ∧ Order.status <$> orders db' = [OrderStatus.PENDING]
    ∧ init_payment_session None None (λ _, true) pending_db
        (Order.set_status pending_order OrderStatus.PAID) sandbox_request
      = (pending_db, Raise (PaymentProviderError "Order already processed")).
Proof.
  eexists _, _.
  assert (Hrun : init_payment_session None None (λ _, true) pending_db
                   pending_order sandbox_request = (_, Return _))
    by (vm_compute; reflexivity).
  split; [exact Hrun|]. split; [reflexivity|].
  split.
  - exact (proj2 (proj2 (proj2
             (init_payment_session_status _ _ _ _ _ _ _ _ Hrun)))).
  - destruct (init_payment_session None None (λ _, true) pending_db
                (Order.set_status pending_order OrderStatus.PAID)
                sandbox_request) as [db2 r2] eqn:Hrun2.
    destruct (proj1 (init_payment_session_status _ _ _ _ _ _ _ _ Hrun2))
      as [-> ->]; done.
Defined.

(** * The totals invariant under the payment operations *)

Lemma totals_ok_update_orders db order_id write :
  (∀ r, totals_ok r → totals_ok (write r)) →
  Forall totals_ok (orders db) →
  Forall totals_ok (orders (update_orders db order_id write)).
Proof.
  intros Hw Hall. unfold update_orders. cbn [orders].
  induction Hall as [|r rows Hr _ IH]; [constructor|].
  rewrite fmap_cons. constructor; [|done].
  destruct (bool_decide _); [by apply Hw | done].
Qed.

Lemma totals_ok_update_order_status db order status reference :
  Forall totals_ok (orders db) →
  Forall totals_ok (orders (update_order_status db order status reference).1).
Proof.
  intros Hall. unfold update_order_status.
  destruct (if PyObj.truthy reference then string_column reference
            else Return reference) as [stored|e]; [|done].
  cbn [fst].
  apply totals_ok_update_orders; [|done].
  intros r Hr. by destruct (PyObj.truthy reference).
Qed.

(** The webhooks and the session initiator never touch a total or a line. *)
Lemma totals_ok_handle_webhook db data :
  Forall totals_ok (orders db) →
  Forall totals_ok (orders (handle_webhook db data).1).
Proof.
  intros Hall. unfold handle_webhook.
  repeat case_match; simplify_eq; cbn [fst]; try done.
  all: match goal with
       | E : update_order_status ?d ?o ?s ?r = (?d', _) |- _ =>
           pose proof (totals_ok_update_order_status d o s r Hall) as Hd;
           by rewrite E in Hd
       end.
Qed.

Lemma totals_ok_handle_stripe_event db event :
  Forall totals_ok (orders db) →
  Forall totals_ok (orders (handle_stripe_event db event).1).
Proof.
  intros Hall. unfold handle_stripe_event.
  repeat case_match; simplify_eq; cbn [fst]; try done.
  all: match goal with
       | E : update_order_status ?d ?o ?s ?r = (?d', _) |- _ =>
           pose proof (totals_ok_update_order_status d o s r Hall) as Hd;
           by rewrite E in Hd
       end.
Qed.

Lemma totals_ok_init_payment_session stripe stripe_secret_key is_http_url
    db order request :
  Forall totals_ok (orders db) →
  Forall totals_ok
    (orders (init_payment_session stripe stripe_secret_key is_http_url
               db order request).1).
Proof.
  intros Hall.
  destruct (init_payment_session _ _ _ db order request) as [db' r] eqn:H.
  apply init_payment_session_db in H as [->|(p & ref & ->)]; [done|].
  unfold save_payment. cbn [fst].
  by apply totals_ok_update_orders.
Qed.

(** * Stock when every product is on one line *)

(** A request that passes the first loop has, for every line, a loaded
    product that is for sale and has the stock. *)
Lemma check_items_passed loaded items :
  check_items loaded items = Return tt →
  Forall (λ item, ∃ p, loaded !! OrderItemInput.product_id item = Some p
                       ∧ available p = true
                       ∧ OrderItemInput.quantity item ≤ Product.stock p) items.
Proof.
  induction items as [|item rest IH]; intros H; [constructor|].
  simpl in H.
  destruct (loaded !! OrderItemInput.product_id item) as [p|] eqn:Hp; [|done].
  destruct (available p) eqn:Hav; [|done]. simpl in H.
  destruct (Product.stock p <? OrderItemInput.quantity item) eqn:Hlt; [done|].
  apply Z.ltb_ge in Hlt.
  constructor; [by exists p | by apply IH].
Qed.

(** With pairwise distinct product ids the second loop takes each line's
    quantity once from its product and leaves the other products alone. *)
Lemma add_lines_stock items :
  ∀ (cur cur' : gmap Z Product.t) (order order' : Order.t),
    NoDup (OrderItemInput.product_id <$> items) →
    add_lines items cur order = Return (cur', order') →
    (∀ k, k ∉ OrderItemInput.product_id <$> items → cur' !! k = cur !! k)
    ∧ Forall (λ item,
                ∃ p, cur !! OrderItemInput.product_id item = Some p
                  ∧ cur' !! OrderItemInput.product_id item
                    = Some (Product.set_stock p
                              (Product.stock p - OrderItemInput.quantity item)))
             items.
Proof.
  induction items as [|item rest IH]; intros cur cur' order order' Hnd Hrun.
  - simpl in Hrun. injection Hrun as <- <-. split; [done | constructor].
  - rewrite fmap_cons in Hnd. apply NoDup_cons in Hnd as [Hfresh Hnd].
    simpl in Hrun.
    destruct (cur !! OrderItemInput.product_id item) as [p|] eqn:Hp; [|done].
    apply IH in Hrun as [Hother Hrest]; [|done].
    split.
    + intros k Hk. rewrite fmap_cons in Hk.
      apply not_elem_of_cons in Hk as [Hne Hk].
      rewrite Hother by done. by rewrite lookup_insert_ne.
    + constructor.
      * exists p. split; [done|].
        rewrite Hother by done. apply lookup_insert_eq.
      * apply Forall_forall. intros it Hit.
        destruct (proj1 (Forall_forall _ _) Hrest it Hit) as (q & Hq & Hq').
        assert (OrderItemInput.product_id item
                ≠ OrderItemInput.product_id it) as Hne.
        { intros Heq. apply Hfresh. rewrite Heq.
          by apply list_elem_of_fmap_2. }
        rewrite lookup_insert_ne in Hq by done. by exists q.
Qed.

(** For a request that names each product once, on a table with a primary
    key: a successful [create_order] leaves every requested product with
    its stock minus the ordered quantity, which is not negative, and every
    other product as it was. *)
Lemma create_order_stock_distinct db uuid now user order_in key provider
    db' o :
  NoDup (Product.id <$> products db) →
  NoDup (OrderItemInput.product_id <$> OrderCreate.items order_in) →
  create_order db uuid now user order_in key provider
    = (db', Return (o, true)) →
  Forall2 (λ p p',
             (∀ item, item ∈ OrderCreate.items order_in →
                      OrderItemInput.product_id item = Product.id p →
                      p' = Product.set_stock p
                             (Product.stock p - OrderItemInput.quantity item)
                      ∧ 0 ≤ Product.stock p')
             ∧ (Product.id p ∉ OrderItemInput.product_id
                                <$> OrderCreate.items order_in → p' = p))
          (products db) (products db').
Proof.
  intros Hpk Hnd H.
  apply create_order_created in H
    as (loaded & o1 & _ & _ & Hcheck & Hrun & _ & _ & ->).
  apply check_items_passed in Hcheck.
  apply add_lines_stock in Hrun as [Hother Hrows]; [|done].
  cbn [products].
  apply Forall2_fmap_r, Forall_Forall2_diag, Forall_forall.
  intros p Hp. split.
  - intros item Hitem Hid.
    destruct (proj1 (Forall_forall _ _) Hcheck item Hitem)
      as (q & Hq & _ & Hstock).
    destruct (proj1 (Forall_forall _ _) Hrows item Hitem)
      as (q' & Hq' & Hloaded).
    assert (fetch_products db (requested_ids order_in)
              !! OrderItemInput.product_id item = Some p) as Hrow.
    { rewrite Hid. apply fetch_products_row; [done..|].
      rewrite <- Hid. apply requested_ids_elem.
      by apply list_elem_of_fmap_2. }
    rewrite Hrow in Hq, Hq'. injection Hq as <-. injection Hq' as <-.
    unfold write_stock. rewrite <- Hid, Hloaded. simpl. split; [done | lia].
  - intros Hnot. unfold write_stock. rewrite Hother by done.
    destruct (fetch_products db (requested_ids order_in) !! Product.id p)
      as [q|] eqn:Hq; [|done].
    apply fetch_products_lookup in Hq as (_ & _ & Hreq).
    by apply requested_ids_elem in Hreq.
Qed.

(** * Stock taken by an order, line by line *)

Lemma quantity_of_cons k item rest :
  quantity_of k (item :: rest)
  = (if bool_decide (OrderItemInput.product_id item = k)
     then OrderItemInput.quantity item else 0)
    + quantity_of k rest.
Proof.
  unfold quantity_of. case_bool_decide.
  - rewrite filter_cons_True by done. by rewrite fmap_cons, sumZ_cons.
  - rewrite filter_cons_False by done. lia.
Qed.

Lemma set_stock_same p : Product.set_stock p (Product.stock p - 0) = p.
Proof. rewrite Z.sub_0_r. by destruct p. Qed.

(** The second loop leaves every loaded product with its stock minus the
    quantities of all the lines that name it. *)
Lemma add_lines_taken items :
  ∀ (cur cur' : gmap Z Product.t) (order order' : Order.t),
    add_lines items cur order = Return (cur', order') →
    ∀ k, cur' !! k
         = (λ p, Product.set_stock p (Product.stock p - quantity_of k items))
             <$> cur !! k.
Proof.
  induction items as [|item rest IH]; intros cur cur' order order' Hrun k.
  - simpl in Hrun. injection Hrun as <- <-.
    destruct (cur !! k) as [p|]; [|done]. simpl. f_equal.
    symmetry. apply set_stock_same.
  - simpl in Hrun.
    destruct (cur !! OrderItemInput.product_id item) as [p|] eqn:Hp; [|done].
    rewrite (IH _ _ _ _ Hrun k), quantity_of_cons.
    case_bool_decide as Hk.
    + subst k. rewrite lookup_insert_eq, Hp. simpl. f_equal.
      destruct p. unfold Product.set_stock. simpl. f_equal. lia.
    + rewrite lookup_insert_ne by done.
      by destruct (cur !! k) as [q|].
Qed.

(** X1. On a table with a primary key, a call that creates an order leaves
    every product row as it was except for [stock], which has gone down by
    the total quantity of the request's lines that name the product (by
    nothing for a product the request does not name). *)
Theorem create_order_stock db uuid now user order_in key provider db' o :
  NoDup (Product.id <$> products db) →
  create_order db uuid now user order_in key provider
    = (db', Return (o, true)) →
  products db'
  = (λ p, Product.set_stock p
            (Product.stock p
             - quantity_of (Product.id p) (OrderCreate.items order_in)))
      <$> products db.
Proof.
  intros Hpk H.
  apply create_order_created in H
    as (loaded & o1 & _ & _ & _ & Hrun & _ & _ & ->).
  cbn [products]. apply list_fmap_ext. intros i p Hp.
  apply list_elem_of_lookup_2 in Hp.
  unfold write_stock. rewrite (add_lines_taken _ _ _ _ _ Hrun).
  destruct (decide (Product.id p ∈ requested_ids order_in)) as [Hreq|Hreq].
  - rewrite fetch_products_row by done. simpl. by destruct p.
  - destruct (fetch_products db (requested_ids order_in) !! Product.id p)
      as [q|] eqn:Hq.
    { by apply fetch_products_lookup in Hq as (_ & _ & ?). }
    simpl. unfold quantity_of. rewrite filter_none; [by rewrite set_stock_same|].
    intros item Hitem Hid. apply Hreq, requested_ids_elem.
    rewrite <- Hid. by apply list_elem_of_fmap_2.
Qed.

(** X1 on the example: two lines of 3 units of B take 6 from its stock of
    4, and A is left alone. *)
Lemma create_order_stock_witness :
  ∃ db' o,
    create_order example_db uuid_1 0 alice request_B_twice "key-1"
      (Some "manual") = (db', Return (o, true))
    ∧ Product.stock <$> products db' = [10; -2].
Proof.
  eexists _, _.
  assert (Hcall : create_order example_db uuid_1 0 alice request_B_twice
                    "key-1" (Some "manual") = (_, Return (_, true)))
    by (vm_compute; reflexivity).
  split; [exact Hcall|].
  assert (Hpk : NoDup (Product.id <$> products example_db))
    by (apply (bool_decide_unpack _); vm_compute; exact I).
  exact (f_equal (fmap Product.stock)
           (create_order_stock _ _ _ _ _ _ _ _ _ Hpk Hcall)).
Defined.

(** * The order that a call creates *)

Lemma add_lines_header items :
  ∀ (cur cur' : gmap Z Product.t) (order order' : Order.t),
    add_lines items cur order = Return (cur', order') →
    header_of order' = header_of order.
Proof.
  induction items as [|item rest IH]; intros cur cur' order order' Hrun.
  - simpl in Hrun. by injection Hrun as <- <-.
  - simpl in Hrun.
    destruct (cur !! OrderItemInput.product_id item) as [p|]; [|done].
    by rewrite (IH _ _ _ _ Hrun).
Qed.

Lemma add_lines_co2 items :
  ∀ (cur cur' : gmap Z Product.t) (order order' : Order.t),
    add_lines items cur order = Return (cur', order') →
    Order.total_impact_co2_g order' - sumZ (line_co2 <$> Order.lines order')
    = Order.total_impact_co2_g order - sumZ (line_co2 <$> Order.lines order).
Proof.
  induction items as [|item rest IH]; intros cur cur' order order' Hrun.
  - simpl in Hrun. by injection Hrun as <- <-.
  - simpl in Hrun.
    destruct (cur !! OrderItemInput.product_id item) as [p|]; [|done].
    rewrite (IH _ _ _ _ Hrun).
    cbn [Order.add_line Order.total_impact_co2_g Order.lines].
    rewrite fmap_app, sumZ_app, fmap_cons, sumZ_cons.
    unfold line_co2 at 2. cbn [make_line OrderLine.impact_co2_g].
    destruct (_ =? 0) eqn:Hz; simpl.
    + apply Z.eqb_eq in Hz. lia.
    + lia.
Qed.

(** X2. A call that creates an order appends it to the order table and
    keeps every stored order in place and unchanged. The new order has an
    id no stored order has, belongs to the caller, is PENDING in EUR,
    carries the key the lookup used, the notes of the request, the time
    of the call, no payment reference, and the payment provider given
    when that is a non-empty string. *)
Theorem create_order_appends db uuid now user order_in key provider db' o :
  create_order db uuid now user order_in key provider
    = (db', Return (o, true)) →
  orders db' = orders db ++ [o]
  ∧ ¬ (Order.id o ∈ (Order.id <$> orders db))
  ∧ Order.user_id o = User.id user
  ∧ Order.status o = OrderStatus.PENDING
  ∧ Order.currency o = "EUR"
  ∧ Order.idempotency_key o = Some (effective_key key uuid)
  ∧ Order.notes o = OrderCreate.notes order_in
  ∧ Order.placed_at o = Some now
  ∧ Order.payment_reference o = PyNone
  ∧ Order.payment_provider o
    = (if Py.opt_str_truthy provider then provider else None).
Proof.
  intros H.
  apply create_order_created in H
    as (loaded & o1 & _ & _ & _ & Hrun & -> & _ & ->).
  apply add_lines_header in Hrun.
  assert (header_of o1 = header_of (new_header db now user
                                      (effective_key key uuid) provider))
    as Hhdr by done.
  unfold new_header in Hhdr.
  split; [done|]. split.
  - intros Hin. apply list_elem_of_fmap in Hin as (r & Hid & Hr).
    apply next_order_id_fresh in Hr. rewrite <- Hid in Hr.
    assert (Order.id o1 = next_order_id (orders db)) as Hfresh
      by (destruct (Py.opt_str_truthy provider); by injection Hhdr).
    simpl in Hr. lia.
  - destruct (Py.opt_str_truthy provider); injection Hhdr; intros;
      repeat split; done.
Qed.

(** X2 on the example: Bob's order is appended after Alice's. *)
Lemma create_order_appends_witness :
  ∃ db' o,
    create_order db_after_first uuid_2 5 bob request_with_notes "key-2"
      (Some EmptyString) = (db', Return (o, true))
    ∧ orders db' = orders db_after_first ++ [o]
    ∧ Order.notes o = Some "merci"
    ∧ Order.placed_at o = Some 5
    ∧ Order.payment_provider o = None.
Proof.
  eexists _, _.
  assert (Hcall : create_order db_after_first uuid_2 5 bob request_with_notes
                    "key-2" (Some EmptyString) = (_, Return (_, true)))
    by (vm_compute; reflexivity).
  destruct (create_order_appends _ _ _ _ _ _ _ _ _ Hcall)
    as (Happ & _ & _ & _ & _ & _ & Hnotes & Hplaced & _ & Hprov).
  exact (conj Hcall (conj Happ (conj Hnotes (conj Hplaced Hprov)))).
Defined.

(** X3. The CO2 total of a created order is the sum of the CO2 figures of
    its lines, and the figure of a line is the product's [impact_co2_g]
    (nothing when the product has none) times the quantity; a line whose
    figure is zero stores no figure. *)
Theorem create_order_co2 db uuid now user order_in key provider db' o :
  create_order db uuid now user order_in key provider
    = (db', Return (o, true)) →
  Order.total_impact_co2_g o = sumZ (line_co2 <$> Order.lines o)
  ∧ Forall2 (λ item line,
               ∃ p, p ∈ products db
                 ∧ Product.id p = OrderItemInput.product_id item
                 ∧ line_co2 line
                   = default 0 (Product.impact_co2_g p)
                     * OrderItemInput.quantity item
                 ∧ (line_co2 line = 0 → OrderLine.impact_co2_g line = None))
            (OrderCreate.items order_in) (Order.lines o).
Proof.
  intros H. split.
  - apply create_order_created in H
      as (loaded & o1 & _ & _ & _ & Hrun & -> & _ & _).
    apply add_lines_co2 in Hrun. cbn [Order.set_notes Order.lines
      Order.total_impact_co2_g].
    destruct (new_header_fields db now user (effective_key key uuid) provider)
      as (Hl & _).
    rewrite Hl in Hrun. simpl in Hrun.
    assert (Order.total_impact_co2_g
              (new_header db now user (effective_key key uuid) provider) = 0)
      as Hz by (unfold new_header; by destruct (Py.opt_str_truthy provider)).
    lia.
  - apply created_order_lines in H as [_ Hall].
    eapply Forall2_impl; [exact Hall|].
    intros item line (p & Hin & Hid & _ & _ & _ & ->).
    exists p. split; [done|]. split; [done|].
    unfold line_co2, make_line. cbn [OrderLine.impact_co2_g].
    destruct (_ =? 0) eqn:Hz; simpl.
    + apply Z.eqb_eq in Hz. by rewrite Hz.
    + split; [done|]. intros Hzero. apply Z.eqb_neq in Hz. done.
Qed.

(** X3 on the example: two units of C at 120 g and one of A without a
    figure give 240 g. *)
Lemma create_order_co2_witness :
  ∃ db' o,
    create_order co2_db uuid_1 0 alice co2_request "key-1" None
      = (db', Return (o, true))
    ∧ Order.total_impact_co2_g o = 240
    ∧ OrderLine.impact_co2_g <$> Order.lines o = [Some 240; None].
Proof.
  eexists _, _.
  assert (Hcall : create_order co2_db uuid_1 0 alice co2_request "key-1" None
                  = (_, Return (_, true)))
    by (vm_compute; reflexivity).
  split; [exact Hcall|].
  split; [exact (proj1 (create_order_co2 _ _ _ _ _ _ _ _ _ Hcall))|].
  reflexivity.
Defined.

(** * The constraints on [orders] *)

Lemma key_taken_false rows k :
  key_taken rows (Some k) = false →
  k ∉ omap Order.idempotency_key rows.
Proof.
  unfold key_taken. intros H%bool_decide_eq_false Hin.
  apply H, Exists_exists.
  apply list_elem_of_omap in Hin as (o & Ho & Hk). eauto.
Qed.

(** * When the request itself is refused *)

Lemma lstrip_all_space s :
  Forall (λ c, Py.isspace c = true) (list_ascii_of_string s) →
  Py.lstrip s = EmptyString.
Proof.
  induction s as [|c s IH]; intros Hall; [done|].
  simpl in Hall. apply Forall_cons in Hall as [Hc Hall].
  simpl. rewrite Hc. by apply IH.
Qed.

Lemma check_items_not_validation loaded items msg :
  check_items loaded items ≠ Raise (OrderValidationError msg).
Proof.
  induction items as [|item rest IH]; [done|]. simpl.
  destruct (loaded !! _) as [p|]; [|done].
  destruct (negb _); [done|]. by destruct (_ <? _).
Qed.

Lemma add_lines_not_validation items :
  ∀ (cur : gmap Z Product.t) (order : Order.t) msg,
    add_lines items cur order ≠ Raise (OrderValidationError msg).
Proof.
  induction items as [|item rest IH]; intros cur order msg; [done|]. simpl.
  destruct (cur !! _) as [p|]; [apply IH | done].
Qed.

(** X5. [create_order] raises [OrderValidationError] for a key that is
    empty or made of white space only, whatever the request and the
    database, and leaves the database alone; and when it raises
    [OrderValidationError] the key is blank or the request has no item. *)
Theorem create_order_validation_error db uuid now user order_in key provider :
  (Forall (λ c, Py.isspace c = true) (list_ascii_of_string key) →
   create_order db uuid now user order_in key provider
   = (db, Raise (OrderValidationError key_required)))
  ∧ (∀ db' msg,
       create_order db uuid now user order_in key provider
         = (db', Raise (OrderValidationError msg)) →
       Py.strip key = EmptyString ∨ OrderCreate.items order_in = []).
Proof.
  split.
  - intros Hall. unfold create_order.
    destruct (negb (Py.str_truthy key)); [done|].
    rewrite bool_decide_eq_true_2; [done|].
    unfold Py.strip. by rewrite (lstrip_all_space _ Hall).
  - intros db' msg H.
    destruct (decide (Py.strip key = EmptyString)) as [Hs|Hs]; [by left|].
    right.
    destruct (Py.str_truthy key) eqn:Ht; cycle 1.
    { unfold Py.str_truthy in Ht. apply negb_false_iff in Ht.
      apply bool_decide_eq_true in Ht. by subst key. }
    destruct (existing_orders db user (effective_key key uuid))
      as [|x [|y rest]] eqn:Hex.
    + rewrite create_order_after_lookup in H by done.
      destruct (bool_decide (requested_ids order_in = ∅)) eqn:Hreq.
      * apply bool_decide_eq_true in Hreq.
        destruct (OrderCreate.items order_in) as [|item rest] eqn:Hitems;
          [done|].
        assert (OrderItemInput.product_id item ∈ requested_ids order_in)
          as Hin by (apply requested_ids_elem; rewrite Hitems; by left).
        rewrite Hreq in Hin. by apply not_elem_of_empty in Hin.
      * destruct (negb _); [done|].
        destruct (check_items _ _) as [[]|e] eqn:Hcheck.
        -- destruct (add_lines _ _ _) as [[loaded o1]|e] eqn:Hrun.
           ++ cbv zeta in H. by destruct (key_taken _ _).
           ++ injection H as _ ->. by apply add_lines_not_validation in Hrun.
        -- injection H as _ ->. by apply check_items_not_validation in Hcheck.
    + unfold create_order in H.
      rewrite Ht, (bool_decide_eq_false_2 _ Hs) in H. cbn [negb] in H.
      cbv zeta in H. unfold effective_key in Hex. by rewrite Hex in H.
    + unfold create_order in H.
      rewrite Ht, (bool_decide_eq_false_2 _ Hs) in H. cbn [negb] in H.
      cbv zeta in H. unfold effective_key in Hex. by rewrite Hex in H.
Qed.

(** X5 on the example: a key of a space and a tab. *)
Lemma create_order_validation_error_witness :
  create_order example_db uuid_1 0 alice example_request
    (String " " (String (ascii_of_N 9) EmptyString)) (Some "manual")
  = (example_db, Raise (OrderValidationError key_required)).
Proof.
  apply (proj1 (create_order_validation_error example_db uuid_1 0 alice
                  example_request _ (Some "manual"))).
  repeat constructor.
Defined.

(** * Reading an order as its owner *)

Lemma filter_and {A} (P Q : A → Prop)
    `{∀ x, Decision (P x), ∀ x, Decision (Q x)} (l : list A) :
  filter (λ a, P a ∧ Q a) l = filter Q (filter P l).
Proof.
  induction l as [|x l IH]; [done|].
  destruct (decide (P x)) as [HP|HP].
  - rewrite (filter_cons_True P) by done.
    destruct (decide (Q x)) as [HQ|HQ].
    + rewrite !filter_cons_True by done. by rewrite IH.
    + rewrite !filter_cons_False by (done || by intros [_ ?]). done.
  - rewrite (filter_cons_False P) by done.
    rewrite filter_cons_False by (by intros [? _]). done.
Qed.

(** X6. [get_order] only ever returns an order of the calling user with
    the id asked for; on a table with a primary key, asking for a stored
    order gives that order to its owner and [None] to anyone else, exactly
    as if it did not exist. *)
Theorem get_order_owner db user order_id :
  (∀ o, get_order db user order_id = Return (Some o) →
        o ∈ orders db ∧ Order.id o = order_id
        ∧ Order.user_id o = User.id user)
  ∧ (NoDup (Order.id <$> orders db) →
     ∀ o, o ∈ orders db → Order.id o = order_id →
          get_order db user order_id
          = Return (if bool_decide (Order.user_id o = User.id user)
                    then Some o else None))
  ∧ ((∀ o, o ∈ orders db → Order.id o ≠ order_id) →
     get_order db user order_id = Return None).
Proof.
  unfold get_order. split; [|split].
  - intros o H%scalar_one_or_none_Some.
    assert (o ∈ filter (λ o, Order.id o = order_id
                             ∧ Order.user_id o = User.id user) (orders db))
      as Hin by (rewrite H; by left).
    apply list_elem_of_filter in Hin as [[? ?] ?]. done.
  - intros Hnd o Hin Hid.
    pose proof (get_order_by_id_row db o Hnd Hin) as Hget.
    apply get_order_by_id_Some in Hget as (Hf & _ & _). rewrite Hid in Hf.
    rewrite filter_and, Hf.
    case_bool_decide.
    + by rewrite filter_cons_True.
    + by rewrite filter_cons_False.
  - intros Hnone. rewrite filter_none; [done|].
    intros o Ho [Hid _]. by apply (Hnone o).
Qed.

(** X6 on the example: Alice's order, asked for by Alice and by Bob. *)
Lemma get_order_owner_witness :
  get_order db_after_first alice 1 = Return (Some first_order)
  ∧ get_order db_after_first bob 1 = Return None.
Proof.
  assert (Hpk : NoDup (Order.id <$> orders db_after_first))
    by (apply (bool_decide_unpack _); vm_compute; exact I).
  assert (Hin : first_order ∈ orders db_after_first) by (by left).
  split.
  - exact (proj1 (proj2 (get_order_owner db_after_first alice 1))
             Hpk first_order Hin eq_refl).
  - exact (proj1 (proj2 (get_order_owner db_after_first bob 1))
             Hpk first_order Hin eq_refl).
Defined.

(** * What the webhooks leave alone *)

Lemma same_but_status_refl o : same_but_status o o.
Proof. by destruct o. Qed.

Lemma Forall2_unchanged {A} (R : A → A → Prop) (l : list A) :
  (∀ x, R x x) → Forall2 R l l.
Proof. intros HR. induction l; constructor; auto. Qed.

Lemma update_order_status_rows db order status reference :
  let db' := (update_order_status db order status reference).1 in
  products db' = products db
  ∧ Forall2 (λ o o',
               o' = o
               ∨ (Order.id o = Order.id order
                  ∧ same_but_status o o'
                  ∧ (PyObj.truthy reference = false →
                     Order.payment_reference o' = Order.payment_reference o)))
            (orders db) (orders db').
Proof.
  unfold update_order_status.
  destruct (if PyObj.truthy reference then string_column reference
            else Return reference) as [stored|e]; cycle 1.
  { cbn [fst]. split; [done|]. apply Forall2_unchanged. by left. }
  unfold update_orders. cbn [fst products orders].
  split; [done|].
  induction (orders db) as [|r rows IH]; [constructor|].
  rewrite fmap_cons. constructor; [|done].
  case_bool_decide; [|by left]. right. split; [done|].
  destruct (PyObj.truthy reference); by destruct r.
Qed.

Lemma update_order_status_raises db order status reference db' e :
  update_order_status db order status reference = (db', Raise e) →
  e = StaleObjectError ∨ e = MultipleResultsFound
  ∨ e = ProgrammingError ∨ e = OverflowError.
Proof.
  unfold update_order_status. intros H.
  destruct (if PyObj.truthy reference then string_column reference
            else Return reference) as [stored|e0] eqn:Hcol.
  - cbv zeta in H. unfold refresh in H. injection H as _ H.
    destruct (filter _ _) as [|? [|? ?]]; simplify_eq; auto.
  - injection H as _ <-. destruct (PyObj.truthy reference); [|done].
    destruct reference as [|b|z|s|l|d]; cbn [string_column] in Hcol;
      try destruct (_ && _); simplify_eq; auto.
Qed.

Lemma Forall2_same_column {A B} (f : A → B) (l l' : list A) :
  Forall2 (λ x y, f y = f x) l l' → f <$> l' = f <$> l.
Proof.
  induction 1 as [|x y l l' Hxy _ IH]; [done|].
  by rewrite !fmap_cons, IH, Hxy.
Qed.

(** X7. Whatever [handle_webhook] answers, it leaves the products alone
    and changes no order but the ones with the id of the payload, and of
    those only [status] and [payment_reference]; [payment_failed] and
    [payment_refunded] leave every [payment_reference] as it is. When it
    raises [PaymentProviderError] the database is the one it was given. *)
Theorem handle_webhook_frame db data db' r :
  handle_webhook db data = (db', r) →
  products db' = products db
  ∧ Forall2 (λ o o',
               o' = o
               ∨ (Order.id o = PaymentWebhookPayload.order_id data
                  ∧ same_but_status o o'))
            (orders db) (orders db')
  ∧ (PaymentWebhookPayload.event data ≠ "payment_succeeded" →
     Order.payment_reference <$> orders db'
     = Order.payment_reference <$> orders db)
  ∧ (∀ msg, r = Raise (PaymentProviderError msg) → db' = db).
Proof.
  intros H. unfold handle_webhook in H.
  assert (∀ R : Order.t → Order.t → Prop,
            (∀ x, R x x) → Forall2 R (orders db) (orders db)) as Hsame
    by (intros R HR; by apply Forall2_unchanged).
  destruct (get_order_by_id db _) as [[order|]|e] eqn:Hget;
    [|injection H as <- <-; repeat split; try done; apply Hsame; by left..].
  apply get_order_by_id_Some in Hget as (_ & Hid & _).
  destruct (negb _);
    [injection H as <- <-; repeat split; try done; apply Hsame; by left|].
  cbv zeta in H.
  assert (∀ status reference,
            (PaymentWebhookPayload.event data ≠ "payment_succeeded" →
             PyObj.truthy reference = false) →
            (let (db0, r0) := update_order_status db order status reference in
             match r0 with
             | Return o => (db0, Return (o, Order.status o))
             | Raise e => (db0, Raise e)
             end) = (db', r) →
            products db' = products db
            ∧ Forall2 (λ o o',
                         o' = o
                         ∨ (Order.id o = PaymentWebhookPayload.order_id data
                            ∧ same_but_status o o'))
                      (orders db) (orders db')
            ∧ (PaymentWebhookPayload.event data ≠ "payment_succeeded" →
               Order.payment_reference <$> orders db'
               = Order.payment_reference <$> orders db)
            ∧ (∀ msg, r = Raise (PaymentProviderError msg) → db' = db))
    as Hstep.
  { intros status reference Href Hrun.
    pose proof (update_order_status_rows db order status reference)
      as [Hprod Hrows].
    destruct (update_order_status db order status reference)
      as [db0 r0] eqn:Hupd. cbn [fst] in Hprod, Hrows.
    assert (db0 = db') as ->
      by (destruct r0; by injection Hrun as <- _).
    split; [done|]. split; [|split].
    - eapply Forall2_impl; [exact Hrows|].
      intros o o' [->|(Ho & Hs & _)]; [by left|]. right.
      by rewrite <- Hid.
    - intros Hev. specialize (Href Hev).
      apply Forall2_same_column.
      eapply Forall2_impl; [exact Hrows|].
      intros o o' [->|(_ & _ & Ho)]; [done | by apply Ho].
    - intros msg ->. destruct r0 as [o|e]; [done|].
      injection Hrun as ->.
      by destruct (update_order_status_raises _ _ _ _ _ _ Hupd)
        as [?|[?|[?|?]]]. }
  repeat case_bool_decide.
  - eapply Hstep; [|exact H]. by intros ?.
  - apply (Hstep OrderStatus.CANCELLED PyNone); [done | exact H].
  - apply (Hstep OrderStatus.REFUNDED PyNone); [done | exact H].
  - injection H as <- <-. repeat split; try done. apply Hsame. by left.
Qed.

(** X7 on the example: [payment_failed] for Alice's order. *)
Lemma handle_webhook_frame_witness :
  ∃ db' r,
    handle_webhook pending_db failed_event = (db', r)
    ∧ products db' = products pending_db
    ∧ Order.status <$> orders db' = [OrderStatus.CANCELLED]
    ∧ Order.payment_reference <$> orders db'
      = Order.payment_reference <$> orders pending_db.
Proof.
  eexists _, _.
  assert (Hrun : handle_webhook pending_db failed_event = (_, _))
    by (vm_compute; reflexivity).
  destruct (handle_webhook_frame _ _ _ _ Hrun) as (Hprod & _ & Href & _).
  split; [exact Hrun|]. split; [exact Hprod|]. split; [reflexivity|].
  apply Href. done.
Defined.

(** X8. Whatever [handle_stripe_event] answers, it leaves the products
    alone and changes no order but the ones with one id, and of those
    only [status] and [payment_reference]; an event other than
    [checkout.session.completed] leaves every [payment_reference] as it
    is. When it raises [PaymentProviderError] (no order reference, unknown
    order, unhandled event type) the database is the one it was given. *)
Theorem handle_stripe_event_frame db event db' r :
  handle_stripe_event db event = (db', r) →
  products db' = products db
  ∧ (∃ order_id,
       Forall2 (λ o o',
                  o' = o ∨ (Order.id o = order_id ∧ same_but_status o o'))
               (orders db) (orders db'))
  ∧ (is_str (PyObj.dict_get event "type" PyNone) "checkout.session.completed"
       = false →
     Order.payment_reference <$> orders db'
     = Order.payment_reference <$> orders db)
  ∧ (∀ msg, r = Raise (PaymentProviderError msg) → db' = db).
Proof.
  intros H. unfold handle_stripe_event in H.
  assert (products db = products db
          ∧ (∃ order_id : Z,
               Forall2 (λ o o',
                          o' = o
                          ∨ (Order.id o = order_id ∧ same_but_status o o'))
                       (orders db) (orders db))
          ∧ (is_str (PyObj.dict_get event "type" PyNone)
               "checkout.session.completed" = false →
             Order.payment_reference <$> orders db
             = Order.payment_reference <$> orders db)
          ∧ (∀ msg, @Raise (Order.t * OrderStatus.t)
                      (PaymentProviderError msg)
                    = Raise (PaymentProviderError msg) → db = db)) as Hsame.
  { repeat split; try done. exists 0. apply Forall2_unchanged. by left. }
  destruct (stripe_order_reference event) as [[obj [order_id|]]|e];
    [|injection H as <- <-..]; try (destruct Hsame as (?&?&?&?); done).
  destruct (get_order_by_id db order_id) as [[order|]|e] eqn:Hget;
    [|injection H as <- <-..]; try (destruct Hsame as (?&?&?&?); done).
  apply get_order_by_id_Some in Hget as (_ & Hid & _).
  assert (∀ status reference,
            (is_str (PyObj.dict_get event "type" PyNone)
               "checkout.session.completed" = false →
             PyObj.truthy reference = false) →
            (let (db0, r0) := update_order_status db order status reference in
             match r0 with
             | Return o => (db0, Return (o, Order.status o))
             | Raise e => (db0, Raise e)
             end) = (db', r) →
            products db' = products db
            ∧ (∃ order_id,
                 Forall2 (λ o o',
                            o' = o
                            ∨ (Order.id o = order_id ∧ same_but_status o o'))
                         (orders db) (orders db'))
            ∧ (is_str (PyObj.dict_get event "type" PyNone)
                 "checkout.session.completed" = false →
               Order.payment_reference <$> orders db'
               = Order.payment_reference <$> orders db)
            ∧ (∀ msg, r = Raise (PaymentProviderError msg) → db' = db))
    as Hstep.
  { intros status reference Href Hrun.
    pose proof (update_order_status_rows db order status reference)
      as [Hprod Hrows].
    destruct (update_order_status db order status reference)
      as [db0 r0] eqn:Hupd. cbn [fst] in Hprod, Hrows.
    assert (db0 = db') as ->
      by (destruct r0; by injection Hrun as <- _).
    split; [done|]. split; [|split].
    - exists (Order.id order). eapply Forall2_impl; [exact Hrows|].
      intros o o' [->|(Ho & Hs & _)]; [by left | by right].
    - intros Hev. specialize (Href Hev).
      apply Forall2_same_column.
      eapply Forall2_impl; [exact Hrows|].
      intros o o' [->|(_ & _ & Ho)]; [done | by apply Ho].
    - intros msg ->. destruct r0 as [o|e]; [done|].
      injection Hrun as ->.
      by destruct (update_order_status_raises _ _ _ _ _ _ Hupd)
        as [?|[?|[?|?]]]. }
  destruct (is_str _ "checkout.session.completed") eqn:Hcompleted.
  { eapply Hstep; [|exact H]. by intros ?. }
  destruct (negb _);
    [injection H as <- <-; destruct Hsame as (?&?&?&?); done|].
  destruct (_ || _); [apply (Hstep OrderStatus.REFUNDED PyNone); done|].
  destruct (_ || _); [apply (Hstep OrderStatus.CANCELLED PyNone); done|].
  injection H as <- <-. destruct Hsame as (?&?&?&?). done.
Qed.

(** X8 on the example: [payment_intent.canceled] for Alice's order. *)
Lemma handle_stripe_event_frame_witness :
  ∃ db' r,
    handle_stripe_event pending_db (stripe_event "payment_intent.canceled")
      = (db', r)
    ∧ products db' = products pending_db
    ∧ Order.payment_reference <$> orders db'
      = Order.payment_reference <$> orders pending_db.
Proof.
  eexists _, _.
  assert (Hrun : handle_stripe_event pending_db
                   (stripe_event "payment_intent.canceled") = (_, _))
    by (vm_compute; reflexivity).
  destruct (handle_stripe_event_frame _ _ _ _ Hrun) as (Hprod & _ & Href & _).
  split; [exact Hrun|]. split; [exact Hprod|].
  apply Href. reflexivity.
Defined.

(** * Opening a payment session *)

(** [save_payment] on an order that is the one row with its id. *)
Lemma save_payment_found db order provider reference :
  filter (λ o, Order.id o = Order.id order) (orders db) = [order] →
  let order' :=
    Order.set_payment_reference
      (Order.set_payment_provider order (Some provider)) reference in
  ∃ db',
    save_payment db order provider reference = (db', Return order')
    ∧ filter (λ o, Order.id o = Order.id order) (orders db') = [order'].
Proof.
  intros Hf order'.
  pose proof (update_orders_found db order
                (λ row, Order.set_payment_reference
                          (Order.set_payment_provider row (Some provider))
                          reference) (λ r, eq_refl) Hf) as Hf'.
  eexists. split; [|exact Hf'].
  unfold save_payment, refresh. by rewrite Hf'.
Qed.

(** Saving the provider and reference an order already has changes
    nothing. *)
Lemma save_payment_again db order provider reference :
  filter (λ o, Order.id o = Order.id order) (orders db) = [order] →
  Order.payment_provider order = Some provider →
  Order.payment_reference order = reference →
  save_payment db order provider reference = (db, Return order).
Proof.
  intros Hf Hp Hr.
  destruct (save_payment_found db order provider reference Hf)
    as (db' & Hrun & _).
  rewrite Hrun. f_equal.
  - injection Hrun as Hdb _. rewrite <- Hdb. apply update_orders_same.
    intros r Hin Hid. rewrite (filter_one_elem _ _ _ r Hf Hin Hid).
    rewrite <- Hp, <- Hr. by destruct order.
  - f_equal. rewrite <- Hp, <- Hr. by destruct order.
Qed.

(** X9. The sandbox session. For a request that names one of the two
    sandbox providers of the schema, ["manual"] or ["paygreen"], and an
    order that is the stored row of its id, PENDING or DRAFT,
    [init_payment_session] answers with the reference
    [<provider>_session_<id>] and the sandbox address built on it
    (provided pydantic accepts that address), stores the provider and the
    reference on the order and leaves its status; asking again gives the
    same session and changes nothing more. *)
Theorem init_payment_session_sandbox stripe stripe_secret_key is_http_url
    db order request :
  let provider := PaymentInitRequest.provider request in
  let session :=
    PaymentSession.mk (sandbox_url provider order)
                      (sandbox_reference provider order) in
  provider = "manual" ∨ provider = "paygreen" →
  filter (λ o, Order.id o = Order.id order) (orders db) = [order] →
  Order.status order = OrderStatus.PENDING
  ∨ Order.status order = OrderStatus.DRAFT →
  is_http_url (sandbox_url provider order) = true →
  ∃ db' order',
    init_payment_session stripe stripe_secret_key is_http_url db order request
      = (db', Return session)
    ∧ get_order_by_id db' (Order.id order) = Return (Some order')
    ∧ Order.payment_provider order' = Some provider
    ∧ Order.payment_reference order'
      = PyStr (sandbox_reference provider order)
    ∧ Order.status order' = Order.status order
    ∧ init_payment_session stripe stripe_secret_key is_http_url
        db' order' request
      = (db', Return session).
Proof.
  intros provider session Hname Hf Hst Hurl.
  assert (Py.lower (PaymentInitRequest.provider request) = provider
          ∧ provider ≠ "stripe") as [Hlower Hne].
  { fold provider. by destruct Hname as [-> | ->]. }
  destruct (save_payment_found db order provider
              (PyStr (sandbox_reference provider order)) Hf)
    as (db' & Hsave & Hf').
  set (order' := Order.set_payment_reference
                   (Order.set_payment_provider order (Some provider))
                   (PyStr (sandbox_reference provider order))) in *.
  assert (∀ d o,
            Order.status o = Order.status order →
            Order.id o = Order.id order →
            save_payment d o provider
              (PyStr (sandbox_reference provider order)) = (db', Return order') →
            init_payment_session stripe stripe_secret_key is_http_url
              d o request = (db', Return session)) as Hinit.
  { intros d o Hso Hido Hs. unfold init_payment_session.
    rewrite Hso.
    assert (negb (bool_decide (Order.status order = OrderStatus.PENDING)
                  || bool_decide (Order.status order = OrderStatus.DRAFT))
            = false) as ->.
    { destruct Hst as [-> | ->]; by vm_compute. }
    rewrite Hlower. rewrite (bool_decide_eq_false_2 _ Hne).
    unfold sandbox_reference in Hs. rewrite Hido, Hs.
    change ((db', make_payment_session is_http_url
                    (PyStr (sandbox_url provider order))
                    (PyStr (sandbox_reference provider order)))
            = (db', Return session)).
    unfold make_payment_session. by rewrite Hurl. }
  exists db', order'. split; [by apply Hinit|].
  split; [unfold get_order_by_id; by rewrite Hf'|].
  split; [done|]. split; [done|]. split; [done|].
  apply Hinit; [done..|].
  replace (sandbox_reference provider order)
    with (sandbox_reference provider order') by done.
  assert (save_payment db' order' provider
            (PyStr (sandbox_reference provider order)) = (db', Return order'))
    as Hagain by (apply save_payment_again; done).
  exact Hagain.
Qed.

(** X9 on the example: the sandbox session of Alice's order. *)
Lemma init_payment_session_sandbox_witness :
  ∃ db' order',
    init_payment_session None None (λ _, true) pending_db pending_order
      manual_request
    = (db', Return (PaymentSession.mk
                      "https://checkout.manual.sandbox/session/manual_session_1"
                      "manual_session_1"))
    ∧ get_order_by_id db' 1 = Return (Some order')
    ∧ Order.payment_provider order' = Some "manual"
    ∧ Order.payment_reference order' = PyStr "manual_session_1".
Proof.
  destruct (init_payment_session_sandbox None None (λ _, true) pending_db
              pending_order manual_request (or_introl eq_refl) eq_refl
              (or_introl eq_refl))
    as (db' & order' & Hrun & Hget & Hprov & Href & _); [done..|].
  exists db', order'. repeat split; assumption.
Defined.

(** A session is only ever returned after [save_payment] has written the
    lower-case provider. *)
Lemma init_payment_session_saved stripe stripe_secret_key is_http_url
    db order request db' session :
  init_payment_session stripe stripe_secret_key is_http_url db order request
    = (db', Return session) →
  ∃ reference order',
    save_payment db order (Py.lower (PaymentInitRequest.provider request))
      reference = (db', Return order').
Proof.
  unfold init_payment_session. intros H.
  repeat case_match; simplify_eq; eauto.
Qed.

(** X10. After [init_payment_session] has returned a session for a stored
    order (sandbox or Stripe), the order is stored under the provider in
    lower case, and the generic webhook accepts for it exactly the
    payloads that name that provider: such a payload is never refused
    with "Order not found" or "Provider mismatch", and when its event is
    one of the table and its settlement reference is text (or there is
    none) the order is returned with the status of the event; a payload
    naming any other provider is refused with "Provider mismatch" and
    changes nothing. *)
Theorem init_then_webhook stripe stripe_secret_key is_http_url
    db order request db' session data :
  filter (λ o, Order.id o = Order.id order) (orders db) = [order] →
  init_payment_session stripe stripe_secret_key is_http_url db order request
    = (db', Return session) →
  PaymentWebhookPayload.order_id data = Order.id order →
  ∃ order',
    get_order_by_id db' (Order.id order) = Return (Some order')
    ∧ Order.payment_provider order'
      = Some (Py.lower (PaymentInitRequest.provider request))
    ∧ (PaymentWebhookPayload.provider data
         = Py.lower (PaymentInitRequest.provider request) →
       (∀ db'' r,
          handle_webhook db' data = (db'', r) →
          r ≠ Raise (PaymentProviderError "Order not found")
          ∧ r ≠ Raise (PaymentProviderError "Provider mismatch"))
       ∧ ∀ status,
           target_status (PaymentWebhookPayload.event data) = Some status →
           text_or_nothing (webhook_reference data order') →
           ∃ db'' order'',
             handle_webhook db' data = (db'', Return (order'', status))
             ∧ Order.status order'' = status)
    ∧ (PaymentWebhookPayload.provider data
         ≠ Py.lower (PaymentInitRequest.provider request) →
       handle_webhook db' data
       = (db', Raise (PaymentProviderError "Provider mismatch"))).
Proof.
  intros Hf Hinit Hid.
  apply init_payment_session_saved in Hinit as (reference & order' & Hsave).
  destruct (save_payment_found db order
              (Py.lower (PaymentInitRequest.provider request)) reference Hf)
    as (db0 & Hsave' & Hf').
  rewrite Hsave in Hsave'. injection Hsave' as <- ->.
  set (stored := Order.set_payment_reference
                   (Order.set_payment_provider order
                      (Some (Py.lower (PaymentInitRequest.provider request))))
                   reference) in *.
  assert (get_order_by_id db' (PaymentWebhookPayload.order_id data)
          = Return (Some stored)) as Hget
    by (unfold get_order_by_id; by rewrite Hid, Hf').
  exists stored. split; [by rewrite <- Hid|]. split; [done|]. split.
  - intros Hprov.
    assert (Order.payment_provider stored
            = Some (PaymentWebhookPayload.provider data)) as Hstored
      by (by rewrite Hprov).
    split.
    + intros db'' r Hrun.
      rewrite (handle_webhook_resolved _ _ _ Hget Hstored) in Hrun.
      cbv zeta in Hrun.
      assert (∀ status ref msg,
                msg ≠ "Unknown event" →
                (let (d, r0) := update_order_status db' stored status ref in
                 match r0 with
                 | Return o => (d, Return (o, Order.status o))
                 | Raise e => (d, Raise e)
                 end) = (db'', r) →
                r ≠ Raise (PaymentProviderError msg)) as Hstep.
      { intros status ref msg _ Hupd ->.
        destruct (update_order_status db' stored status ref)
          as [d [o|e]] eqn:Hu; [done|].
        injection Hupd as _ ->.
        by destruct (update_order_status_raises _ _ _ _ _ _ Hu)
          as [?|[?|[?|?]]]. }
      repeat case_bool_decide;
        try match type of Hrun with
            | context [update_order_status _ _ ?status ?ref] =>
                split; (apply (Hstep status ref); [done | exact Hrun])
            end.
      injection Hrun as _ <-. by split.
    + intros status Hstatus Htext.
      rewrite (handle_webhook_known _ _ _ _ Hget Hstored Hstatus).
      destruct (update_order_status_sets db' _ stored status
                  (webhook_reference data stored) Htext Hget)
        as (db'' & order'' & Hrun & Hst & _).
      exists db'', order''. by rewrite Hrun, Hst.
  - intros Hprov. unfold handle_webhook. rewrite Hget.
    rewrite bool_decide_eq_false_2; [done|].
    simpl. by intros [= Heq].
Qed.

(** X10 on the example: after the sandbox session of Alice's order under
    ["manual"], a [payment_succeeded] event of ["manual"] pays it. *)
Lemma init_then_webhook_witness :
  ∃ db' session db'' order'',
    init_payment_session None None (λ _, true) pending_db pending_order
      manual_request = (db', Return session)
    ∧ handle_webhook db' succeeded_event
      = (db'', Return (order'', OrderStatus.PAID))
    ∧ Order.status order'' = OrderStatus.PAID.
Proof.
  assert (Hinit : init_payment_session None None (λ _, true) pending_db
                    pending_order manual_request = (_, Return _))
    by (vm_compute; reflexivity).
  assert (Hf : filter (λ o, Order.id o = Order.id pending_order)
                      (orders pending_db) = [pending_order])
    by reflexivity.
  destruct (init_then_webhook None None (λ _, true) pending_db
              pending_order manual_request _ _ succeeded_event
              Hf Hinit eq_refl)
    as (order' & _ & _ & Haccept & _).
  destruct (proj2 (Haccept eq_refl) OrderStatus.PAID eq_refl
              (or_intror (ex_intro _ "pi_123" eq_refl)))
    as (db'' & order'' & Hrun & Hst).
  eexists _, _, db'', order''. split; [exact Hinit|]. by split.
Defined.

(** X11. Stripe sessions that fail. For an order that may be paid and a
    provider whose lower-case name is ["stripe"]: without the Stripe
    module or without a secret key the call raises "Stripe not
    configured", and when creating the session raises it raises "Stripe
    error: ..." with the text of that exception, in both cases without
    writing; when the session comes back without a usable [url] the call
    raises "Stripe session missing URL" after it has stored ["stripe"]
    and the session's [id] on the order. *)
Theorem init_payment_session_stripe_errors stripe stripe_secret_key
    is_http_url db order request :
  Order.status order = OrderStatus.PENDING
  ∨ Order.status order = OrderStatus.DRAFT →
  Py.lower (PaymentInitRequest.provider request) = "stripe" →
  let run :=
    init_payment_session stripe stripe_secret_key is_http_url db order request
  in
  (stripe = None ∨ Py.opt_str_truthy stripe_secret_key = false →
   run = (db, Raise (PaymentProviderError "Stripe not configured")))
  ∧ (∀ create exc,
       stripe = Some create →
       Py.opt_str_truthy stripe_secret_key = true →
       create (stripe_params order request) = inl exc →
       run = (db, Raise (PaymentProviderError ("Stripe error: " +:+ exc))))
  ∧ (∀ create session,
       stripe = Some create →
       Py.opt_str_truthy stripe_secret_key = true →
       create (stripe_params order request) = inr session →
       PyObj.truthy (PyObj.dict_get session "url" PyNone) = false →
       filter (λ o, Order.id o = Order.id order) (orders db) = [order] →
       ∃ db' order',
         run = (db', Raise (PaymentProviderError "Stripe session missing URL"))
         ∧ get_order_by_id db' (Order.id order) = Return (Some order')
         ∧ Order.payment_provider order' = Some "stripe"
         ∧ Order.payment_reference order'
           = PyObj.dict_get session "id" PyNone
         ∧ Order.status order' = Order.status order).
Proof.
  intros Hst Hstripe run. subst run. unfold init_payment_session.
  assert (negb (bool_decide (Order.status order = OrderStatus.PENDING)
                || bool_decide (Order.status order = OrderStatus.DRAFT))
          = false) as ->
    by (destruct Hst as [-> | ->]; by vm_compute).
  rewrite Hstripe. rewrite (bool_decide_eq_true_2 _ eq_refl).
  split; [|split].
  - intros [-> | Hkey]; [done|]. destruct stripe; [|done]. by rewrite Hkey.
  - intros create exc -> Hkey Hexc. by rewrite Hkey, Hexc.
  - intros create session -> Hkey Hsession Hurl Hf.
    rewrite Hkey, Hsession. cbn [negb].
    destruct (save_payment_found db order "stripe"
                (PyObj.dict_get session "id" PyNone) Hf)
      as (db' & Hsave & Hf').
    rewrite Hsave, Hurl. cbn [negb].
    eexists _, _. split; [reflexivity|].
    split; [unfold get_order_by_id; by rewrite Hf'|]. done.
Qed.

(** X11 on the example: a Stripe session without [url] for Alice's order. *)
Lemma init_payment_session_stripe_errors_witness :
  ∃ db' order',
    init_payment_session (Some client_without_url) (Some "sk_test")
      (λ _, true) pending_db pending_order stripe_request
    = (db', Raise (PaymentProviderError "Stripe session missing URL"))
    ∧ get_order_by_id db' 1 = Return (Some order')
    ∧ Order.payment_reference order' = PyStr "cs_test_9".
Proof.
  destruct (proj2 (proj2
              (init_payment_session_stripe_errors
                 (Some client_without_url) (Some "sk_test") (λ _, true)
                 pending_db pending_order stripe_request
                 (or_introl eq_refl) eq_refl))
              client_without_url [("id", PyStr "cs_test_9")]
              eq_refl eq_refl eq_refl eq_refl eq_refl)
    as (db' & order' & Hrun & Hget & _ & Href & _).
  exists db', order'. split; [exact Hrun|]. split; [exact Hget | exact Href].
Defined.

(** * The order reference sent to Stripe and read back *)

Lemma digit_char_value d acc b s :
  (d < 10)%N →
  PyObj.digits_value acc b (String (pretty_N_char d) s)
  = PyObj.digits_value (10 * acc + Z.of_N d) true s.
Proof.
  intros Hd.
  assert (d = 0 ∨ d = 1 ∨ d = 2 ∨ d = 3 ∨ d = 4 ∨ d = 5 ∨ d = 6 ∨ d = 7
          ∨ d = 8 ∨ d = 9)%N as Hcases by lia.
  destruct Hcases as [->|[->|[->|[->|[->|[->|[->|[->|[->| ->]]]]]]]]];
    reflexivity.
Qed.

(** Reading the digits that [pretty] wrote gives the number back. *)
Lemma digits_value_pretty_go x :
  (0 < x)%N →
  ∃ k : nat, ∀ acc b s,
    PyObj.digits_value acc b (pretty_N_go x s)
    = PyObj.digits_value (acc * 10 ^ Z.of_nat k + Z.of_N x) true s.
Proof.
  induction (N.lt_wf_0 x) as [x _ IH]. intros Hx.
  assert (x = 10 * (x `div` 10) + x `mod` 10)%N as Hdm
    by (apply N.div_mod; lia).
  assert (x `mod` 10 < 10)%N as Hmod by (apply N.mod_lt; lia).
  destruct (decide (x `div` 10 = 0)%N) as [Hsmall|Hbig].
  - exists 1%nat. intros acc b s.
    rewrite pretty_N_go_step, Hsmall, pretty_N_go_0 by done.
    rewrite digit_char_value by done.
    f_equal. rewrite Hsmall in Hdm. change (10 ^ Z.of_nat 1) with 10. lia.
  - destruct (IH (x `div` 10)%N) as [k Hk];
      [apply N.div_lt; lia | lia |].
    exists (S k). intros acc b s.
    rewrite pretty_N_go_step by done. rewrite Hk.
    rewrite digit_char_value by done.
    f_equal. rewrite Nat2Z.inj_succ, Z.pow_succ_r by lia.
    set (q := (x `div` 10)%N) in *. set (m := (x `mod` 10)%N) in *.
    rewrite Hdm. lia.
Qed.

Lemma digits_value_pretty_N x :
  (0 < x)%N → PyObj.digits_value 0 false (pretty x) = Some (Z.of_N x).
Proof.
  intros Hx. unfold pretty, pretty_N.
  rewrite decide_False by lia.
  destruct (digits_value_pretty_go x Hx) as [k Hk].
  rewrite Hk. simpl. f_equal.
Qed.

Lemma rev_app_rev_app s1 :
  ∀ s2 s3, String.rev_app (String.rev_app s1 s2) s3
           = String.rev_app s2 (s1 +:+ s3).
Proof.
  induction s1 as [|a s1 IH]; intros s2 s3; [done|].
  cbn [String.rev_app]. by rewrite IH.
Qed.

Lemma append_empty s : s +:+ EmptyString = s.
Proof.
  induction s as [|a s IH]; [done|].
  change (String a s +:+ EmptyString) with (String a (s +:+ EmptyString)).
  by rewrite IH.
Qed.

Lemma rev_rev s : String.rev (String.rev s) = s.
Proof.
  unfold String.rev. rewrite rev_app_rev_app.
  cbn [String.rev_app]. apply append_empty.
Qed.

Lemma no_space_rev_app s1 :
  ∀ s2, no_space s1 → no_space s2 → no_space (String.rev_app s1 s2).
Proof.
  unfold no_space. induction s1 as [|a s1 IH]; intros s2 H1 H2; [done|].
  simpl in *. apply Forall_cons in H1 as [Ha H1].
  apply IH; [done|]. simpl. by constructor.
Qed.

Lemma lstrip_no_space s : no_space s → Py.lstrip s = s.
Proof.
  unfold no_space. destruct s as [|c s]; [done|]. simpl.
  intros [Hc _]%Forall_cons. by rewrite Hc.
Qed.

(** [strip] leaves a string without white space as it is. *)
Lemma strip_no_space s : no_space s → Py.strip s = s.
Proof.
  intros Hs. unfold Py.strip.
  rewrite (lstrip_no_space s Hs).
  rewrite lstrip_no_space; [apply rev_rev|].
  apply no_space_rev_app; [done | constructor].
Qed.

Lemma no_space_digit d : Py.isspace (pretty_N_char d) = false.
Proof. unfold pretty_N_char. by repeat case_match. Qed.

Lemma no_space_pretty_go x : ∀ s, no_space s → no_space (pretty_N_go x s).
Proof.
  induction (N.lt_wf_0 x) as [x _ IH]. intros s Hs.
  destruct (decide (x = 0)%N) as [->|Hx]; [by rewrite pretty_N_go_0|].
  rewrite pretty_N_go_step by lia.
  apply IH; [apply N.div_lt; lia|].
  unfold no_space. simpl. constructor; [apply no_space_digit | done].
Qed.

Lemma no_space_pretty_N (x : N) : no_space (pretty x).
Proof.
  unfold pretty, pretty_N. case_decide; [by repeat constructor|].
  apply no_space_pretty_go. constructor.
Qed.

(** A string of digits is read by [int] as those digits. *)
Lemma int_of_str_digits s v :
  no_space s →
  PyObj.digits_value 0 false s = Some v →
  PyObj.int_of_str s = Some v.
Proof.
  intros Hs Hv. unfold PyObj.int_of_str. rewrite (strip_no_space s Hs).
  destruct s as [|c r]; [done|].
  destruct (decide (c = "+"%char)) as [->|Hplus]; [done|].
  destruct (decide (c = "-"%char)) as [->|Hminus]; [done|].
  destruct c as [[] [] [] [] [] [] [] []]; done.
Qed.

(** [int(str(z)) == z] *)
Lemma int_pretty (z : Z) : PyObj.int (PyStr (pretty z)) = Some z.
Proof.
  unfold PyObj.int. destruct z as [|p|p].
  - reflexivity.
  - change (pretty (Z.pos p)) with (pretty (N.pos p)).
    apply int_of_str_digits; [apply no_space_pretty_N|].
    by rewrite digits_value_pretty_N.
  - change (pretty (Z.neg p)) with (String "-" (pretty (N.pos p))).
    unfold PyObj.int_of_str. rewrite strip_no_space; cycle 1.
    { unfold no_space. simpl. constructor; [done|]. apply no_space_pretty_N. }
    by rewrite digits_value_pretty_N.
Qed.

Lemma pretty_Z_not_empty (z : Z) : pretty z ≠ EmptyString.
Proof.
  intros Hempty. pose proof (int_pretty z) as H.
  rewrite Hempty in H. discriminate H.
Qed.

(** X12. The order reference survives the trip through Stripe: an event
    whose object carries the metadata that [init_payment_session] sends
    for an order, or (without an [order_id] in its metadata) the
    [client_reference_id] it sends, is resolved by [handle_stripe_event]
    to the id of that order. *)
Theorem stripe_reference_round_trip order request event data obj :
  let params := stripe_params order request in
  PyObj.assoc "data" event = Some (PyDict data) →
  PyObj.assoc "object" data = Some (PyDict obj) →
  data ≠ [] → obj ≠ [] →
  PyObj.dict_get obj "metadata" PyNone
    = metadata_object (Stripe.metadata params)
  ∨ ((PyObj.dict_get obj "metadata" PyNone = PyNone
      ∨ ∃ md, PyObj.dict_get obj "metadata" PyNone = PyDict md
              ∧ PyObj.assoc "order_id" md = None)
     ∧ PyObj.dict_get obj "client_reference_id" PyNone
       = PyStr (Stripe.client_reference_id params)) →
  stripe_order_reference event = Return (obj, Some (Order.id order)).
Proof.
  intros params Hdata Hobj Hd Ho Href.
  assert (PyObj.dict_get event "data" PyNone = PyDict data) as Hdata'
    by (unfold PyObj.dict_get; by rewrite Hdata).
  assert (PyObj.dict_get data "object" PyNone = PyDict obj) as Hobj'
    by (unfold PyObj.dict_get; by rewrite Hobj).
  unfold stripe_order_reference. rewrite Hdata'.
  assert (PyObj.or (PyDict data) (PyDict []) = PyDict data) as ->
    by (by destruct data).
  cbn [mbind result_bind PyObj.get]. rewrite Hobj'.
  assert (PyObj.or (PyDict obj) (PyDict []) = PyDict obj) as ->
    by (by destruct obj).
  cbn [PyObj.get].
  destruct Href as [Hmeta|[Hmeta Hclient]].
  - rewrite Hmeta.
    change (metadata_object (Stripe.metadata params))
      with (PyDict [("order_id", PyStr (pretty (Order.id order)))]).
    cbn -[PyObj.int pretty].
    rewrite !(bool_decide_eq_true_2 ("order_id" = "order_id") eq_refl).
    rewrite (bool_decide_eq_true_2 (is_Some _)) by eauto.
    by rewrite int_pretty.
  - assert (PyObj.truthy (PyStr (Stripe.client_reference_id params)) = true)
      as Htruthy.
    { change (Stripe.client_reference_id params)
        with (pretty (Order.id order)).
      unfold PyObj.truthy, Py.str_truthy.
      rewrite bool_decide_eq_false_2; [done | apply pretty_Z_not_empty]. }
    assert (PyObj.int (PyStr (Stripe.client_reference_id params))
            = Some (Order.id order)) as Hint
      by (unfold params; cbn [stripe_params Stripe.client_reference_id];
          apply int_pretty).
    destruct Hmeta as [Hmeta|(md & Hmeta & Hno)]; rewrite Hmeta.
    + cbn -[PyObj.int PyObj.truthy PyObj.dict_get].
      by rewrite Hclient, Htruthy, Hint.
    + destruct md as [|kv md].
      * cbn -[PyObj.int PyObj.truthy PyObj.dict_get].
        by rewrite Hclient, Htruthy, Hint.
      * cbn [mbind result_bind].
        assert (PyObj.or (PyDict (kv :: md)) (PyDict []) = PyDict (kv :: md))
          as -> by done.
        cbn [PyObj.contains]. rewrite Hno.
        rewrite bool_decide_eq_false_2 by (by intros [? ?]).
        cbn [mbind result_bind].
        by rewrite Hclient, Htruthy, Hint.
Qed.

(** X12 on the example: the event built on the metadata of the Stripe
    request for Alice's order. *)
Lemma stripe_reference_round_trip_witness :
  stripe_order_reference (stripe_event "checkout.session.completed")
  = Return ([("id", PyStr "cs_1");
             ("metadata", PyDict [("order_id", PyStr "1")])], Some 1).
Proof.
  apply (stripe_reference_round_trip pending_order stripe_request
           (stripe_event "checkout.session.completed")
           [("object", PyDict [("id", PyStr "cs_1");
                               ("metadata",
                                PyDict [("order_id", PyStr "1")])])]);
    [reflexivity | reflexivity | done | done |].
  left. reflexivity.
Defined.

(** * The settlement reference of a Stripe checkout *)

(** The text of a truthy value is never empty. *)
Lemma str_of_truthy v :
  PyObj.truthy v = true → PyObj.truthy (PyStr (PyObj.str v)) = true.
Proof.
  intros Hv. cbn [PyObj.truthy]. unfold Py.str_truthy.
  apply negb_true_iff, bool_decide_eq_false.
  destruct v as [|b|z|s|l|d]; cbn [PyObj.str].
  - done.
  - by destruct b.
  - apply pretty_Z_not_empty.
  - simpl in Hv. unfold Py.str_truthy in Hv.
    by apply negb_true_iff, bool_decide_eq_false in Hv.
  - cbn [PyObj.repr].
    change ("[" +:+ ?x) with (String "["%char x). done.
  - cbn [PyObj.repr].
    change ("{" +:+ ?x) with (String "{"%char x). done.
Qed.

(** X13. On a resolved order, [checkout.session.completed] pays the order
    and stores as [payment_reference] the text of the object's
    [payment_intent] when that is truthy, otherwise the text of its [id]
    when that is truthy; when neither is, the order keeps the reference
    it had. *)
Theorem handle_stripe_completed_reference db event obj order_id order :
  is_str (PyObj.dict_get event "type" PyNone) "checkout.session.completed"
    = true →
  stripe_order_reference event = Return (obj, Some order_id) →
  get_order_by_id db order_id = Return (Some order) →
  let intent := PyObj.dict_get obj "payment_intent" PyNone in
  let session_id := PyObj.dict_get obj "id" PyNone in
  ∃ db' order',
    handle_stripe_event db event = (db', Return (order', OrderStatus.PAID))
    ∧ get_order_by_id db' order_id = Return (Some order')
    ∧ Order.status order' = OrderStatus.PAID
    ∧ Order.payment_reference order'
      = (if PyObj.truthy intent then PyStr (PyObj.str intent)
         else if PyObj.truthy session_id then PyStr (PyObj.str session_id)
         else Order.payment_reference order).
Proof.
  intros Htype Href Hget intent session_id.
  pose proof (get_order_by_id_Some _ _ _ Hget) as (Hf & Hid & _).
  rewrite <- Hid in Hf.
  unfold handle_stripe_event. rewrite Href, Hget, Htype.
  fold intent session_id.
  set (reference := if PyObj.truthy (PyObj.or intent session_id)
                    then PyStr (PyObj.str (PyObj.or intent session_id))
                    else PyNone).
  destruct (update_order_status_found db order OrderStatus.PAID reference
              (text_or_nothing_str _) Hf)
    as (Hrun & Hf' & _).
  rewrite Hrun. cbv zeta in Hf' |- *.
  exists (update_orders db (Order.id order)
            (λ row, if PyObj.truthy reference
                    then Order.set_payment_reference
                           (Order.set_status row OrderStatus.PAID) reference
                    else Order.set_status row OrderStatus.PAID)),
         (if PyObj.truthy reference
              then Order.set_payment_reference
                     (Order.set_status order OrderStatus.PAID) reference
              else Order.set_status order OrderStatus.PAID).
  split; [by destruct (PyObj.truthy reference)|].
  split; [unfold get_order_by_id; rewrite <- Hid; by rewrite Hf'|].
  split; [by destruct (PyObj.truthy reference)|].
  unfold reference, PyObj.or.
  destruct (PyObj.truthy intent) eqn:Hintent.
  - by rewrite Hintent, (str_of_truthy _ Hintent).
  - destruct (PyObj.truthy session_id) eqn:Hsession; [|done].
    by rewrite (str_of_truthy _ Hsession).
Qed.

Lemma handle_stripe_completed_reference_witness :
  ∃ db' order',
    handle_stripe_event pending_db (stripe_event "checkout.session.completed")
    = (db', Return (order', OrderStatus.PAID))
    ∧ get_order_by_id db' 1 = Return (Some order')
    ∧ Order.status order' = OrderStatus.PAID
    ∧ Order.payment_reference order' = PyStr "cs_1".
Proof.
  apply (handle_stripe_completed_reference pending_db
           (stripe_event "checkout.session.completed")
           [("id", PyStr "cs_1");
            ("metadata", PyDict [("order_id", PyStr "1")])]
           1 pending_order);
    vm_compute; reflexivity.
Defined.

(** * The endpoints *)








Lemma get_order_by_id_total db order_id :
  NoDup (Order.id <$> orders db) →
  ∃ r, get_order_by_id db order_id = Return r.
Proof.
  intros Hnd.
  destruct (filter (λ o, Order.id o = order_id) (orders db))
    as [|x rest] eqn:Hf.
  - exists None. unfold get_order_by_id. by rewrite Hf.
  - assert (x ∈ filter (λ o, Order.id o = order_id) (orders db)) as Hx
      by (rewrite Hf; by left).
    apply list_elem_of_filter in Hx as [Hid Hx].
    exists (Some x). rewrite <- Hid. by apply get_order_by_id_row.
Qed.

Lemma get_order_by_id_Raise db order_id e :
  get_order_by_id db order_id = Raise e →
  e = MultipleResultsFound ∧ ¬ NoDup (Order.id <$> orders db).
Proof.
  intros H. split.
  - unfold get_order_by_id, scalar_one_or_none in H.
    repeat case_match; by simplify_eq.
  - intros Hnd. destruct (get_order_by_id_total db order_id Hnd) as [r Hr].
    by rewrite Hr in H.
Qed.

Lemma update_order_status_returns db order_id order status reference :
  text_or_nothing reference →
  get_order_by_id db order_id = Return (Some order) →
  ∃ db' order',
    update_order_status db order status reference = (db', Return order')
    ∧ Order.status order' = status
    ∧ Order.id order' = order_id
    ∧ get_order_by_id db' order_id = Return (Some order').
Proof.
  intros Htext Hget.
  destruct (update_order_status_resolved db _ order status reference Hget)
    as [(e & _ & _ & Hno)
       |(db' & order' & Hrun & Hs & Hi & Hg & _)]; [done|].
  by exists db', order'.
Qed.

(** What [handle_webhook] can end in. *)
Lemma handle_webhook_inv db data db' r :
  handle_webhook db data = (db', r) →
  match r with
  | Return (order, status) =>
      target_status (PaymentWebhookPayload.event data) = Some status
      ∧ Order.status order = status
      ∧ Order.id order = PaymentWebhookPayload.order_id data
      ∧ get_order_by_id db' (PaymentWebhookPayload.order_id data)
        = Return (Some order)
  | Raise e =>
      db' = db
      ∧ ((e = MultipleResultsFound ∧ ¬ NoDup (Order.id <$> orders db))
         ∨ (∃ msg,
              e = PaymentProviderError msg
              ∧ (msg = "Order not found" ∨ msg = "Provider mismatch"
                 ∨ (msg = "Unknown event"
                    ∧ target_status (PaymentWebhookPayload.event data)
                      = None)))
         ∨ ((e = ProgrammingError ∨ e = OverflowError)
            ∧ ∃ order,
                get_order_by_id db (PaymentWebhookPayload.order_id data)
                  = Return (Some order)
                ∧ ¬ text_or_nothing (webhook_reference data order)))
  end.
Proof.
  intros H.
  destruct (get_order_by_id db (PaymentWebhookPayload.order_id data))
    as [[order|]|e] eqn:Hget.
  - destruct (decide (Order.payment_provider order
                      = Some (PaymentWebhookPayload.provider data)))
      as [Hprov|Hprov]; cycle 1.
    { unfold handle_webhook in H.
      rewrite Hget, (bool_decide_eq_false_2 _ Hprov) in H.
      cbn [negb] in H. injection H as <- <-. eauto 10. }
    destruct (target_status (PaymentWebhookPayload.event data))
      as [status|] eqn:Htarget; cycle 1.
    { rewrite (handle_webhook_resolved _ _ _ Hget Hprov) in H.
      cbv zeta in H. unfold target_status in Htarget.
      repeat case_bool_decide; try done. injection H as <- <-. eauto 10. }
    rewrite (handle_webhook_known _ _ _ _ Hget Hprov Htarget) in H.
    destruct (update_order_status_resolved db _ order status
                (webhook_reference data order) Hget)
      as [(e & Hrun & He & Hno)
         |(db1 & o1 & Hrun & Hs & Hi & Hg & _)];
      rewrite Hrun in H; injection H as <- <-.
    + split; [done|]. right. right. split; [done|]. by exists order.
    + by rewrite Hs.
  - unfold handle_webhook in H. rewrite Hget in H.
    injection H as <- <-. eauto 10.
  - unfold handle_webhook in H. rewrite Hget in H.
    apply get_order_by_id_Raise in Hget as [-> Hnd].
    injection H as <- <-. eauto.
Qed.

(** X15.  [POST /payments/webhook].  A request whose
    [X-Payment-Signature] header is missing, empty or different from the
    signature in the body is answered 400 "Invalid signature".  Every
    [HTTPException] has code 400 and leaves the database as it was.  An
    answer has code 202; its body names the status that belongs to the
    event and the order id of the request, and the order of that id now
    has that status.  The endpoint fails with an exception of its own
    only when the primary key of [orders] is broken or the settlement
    reference of the event is a truthy value that is no text, and then
    nothing is written. *)
Theorem endpoint_payment_webhook db payload signature db' resp :
  Endpoints.payment_webhook db payload signature = (db', resp) →
  (signature = None ∨ signature = Some EmptyString
   ∨ signature ≠ Some (PaymentWebhookPayload.signature payload) →
   resp = HTTPException 400 "Invalid signature" ∧ db' = db)
  ∧ (∀ code detail, resp = HTTPException code detail →
       code = 400 ∧ db' = db)
  ∧ (∀ code body, resp = Respond code body →
       code = 202
       ∧ signature = Some (PaymentWebhookPayload.signature payload)
       ∧ ∃ order status,
           target_status (PaymentWebhookPayload.event payload) = Some status
           ∧ get_order_by_id db' (PaymentWebhookPayload.order_id payload)
             = Return (Some order)
           ∧ Order.status order = status
           ∧ body = (order_status_value status,
                     pretty (PaymentWebhookPayload.order_id payload)))
  ∧ (∀ e, resp = Unhandled e →
       db' = db
       ∧ (¬ NoDup (Order.id <$> orders db)
          ∨ ∃ order,
              get_order_by_id db (PaymentWebhookPayload.order_id payload)
                = Return (Some order)
              ∧ ¬ text_or_nothing (webhook_reference payload order))).
Proof.
  intros H. unfold Endpoints.payment_webhook in H.
  destruct (negb (Py.opt_str_truthy signature)) eqn:Htruthy.
  { cbn [orb] in H. injection H as <- <-. repeat split; try done.
    all: by intros; simplify_eq. }
  case_bool_decide as Hsig; cbn [negb orb] in H; cycle 1.
  { injection H as <- <-. repeat split; try done.
    all: by intros; simplify_eq. }
  assert (¬ (signature = None ∨ signature = Some EmptyString
             ∨ signature ≠ Some (PaymentWebhookPayload.signature payload)))
    as Hgood.
  { intros [->|[->|Hne]]; [done|done|by apply Hne]. }
  destruct (handle_webhook db payload) as [db1 [[order status]|e]] eqn:Hrun;
    apply handle_webhook_inv in Hrun.
  - destruct Hrun as (Htarget & Hstatus & Hid & Hget).
    injection H as <- <-. split; [done|]. split; [done|]. split; [|done].
    intros code body [= <- <-]. split; [done|]. split; [done|].
    exists order, status. by rewrite Hid.
  - destruct Hrun as [-> [[-> Hnd]|[(msg & -> & _)|[He Hno]]]].
    + injection H as <- <-.
      split; [done|]. split; [done|]. split; [done|]. intros e _. auto.
    + injection H as <- <-.
      split; [done|]. split; [|done]. by intros code detail [= <- <-].
    + destruct He as [-> | ->]; injection H as <- <-;
        (split; [done|]); (split; [done|]); (split; [done|]);
        intros e _; auto.
Qed.

(** X15 on the example: the failure of the payment of Alice's order. *)
Lemma endpoint_payment_webhook_witness :
  ∃ db' order,
    Endpoints.payment_webhook pending_db failed_event (Some "signature")
    = (db', Respond 202 ("cancelled", "1"))
    ∧ get_order_by_id db' 1 = Return (Some order)
    ∧ Order.status order = OrderStatus.CANCELLED.
Proof.
  eexists _.
  assert (Hcall : Endpoints.payment_webhook pending_db failed_event
                    (Some "signature")
                  = (_, Respond 202 ("cancelled", "1")))
    by (vm_compute; reflexivity).
  destruct (endpoint_payment_webhook _ _ _ _ _ Hcall) as (_ & _ & Hr & _).
  destruct (Hr _ _ eq_refl) as (_ & _ & order & status & Ht & Hget & Hs & _).
  injection Ht as <-.
  exists order. exact (conj Hcall (conj Hget Hs)).
Defined.

(** What a returned session tells about the order and the address. *)
Lemma init_payment_session_returned stripe stripe_secret_key is_http_url
    db order request db' session :
  init_payment_session stripe stripe_secret_key is_http_url db order request
    = (db', Return session) →
  (Order.status order = OrderStatus.PENDING
   ∨ Order.status order = OrderStatus.DRAFT)
  ∧ is_http_url (PaymentSession.checkout_url session) = true.
Proof.
  unfold init_payment_session. intros H.
  destruct (bool_decide (Order.status order = OrderStatus.PENDING)) eqn:Hp;
    [apply bool_decide_eq_true in Hp|];
    (destruct (bool_decide (Order.status order = OrderStatus.DRAFT)) eqn:Hd;
     [apply bool_decide_eq_true in Hd|]);
    cbn [orb negb] in H; [| | |done]; (split; [by auto|]);
    unfold make_payment_session in H;
    repeat case_match; by simplify_eq.
Qed.

(** X16.  [POST /payments/init].  When no order of the requested id
    belongs to the caller the answer is 404 "Order not found" and nothing
    changes.  An answer has code 200, and then the requested order is an
    order of the caller that was pending or a draft, and the checkout
    address is an HTTP address.  An [HTTPException] has code 404 or 400.
    Whatever the outcome, the products stay and each order keeps every
    column but the payment provider and the payment reference. *)
Theorem endpoint_init_payment stripe stripe_secret_key is_http_url
    db user payload db' resp :
  Endpoints.init_payment stripe stripe_secret_key is_http_url db user payload
    = (db', resp) →
  ((∀ o, o ∈ orders db → Order.id o = PaymentInitRequest.order_id payload →
         Order.user_id o ≠ User.id user) →
   resp = HTTPException 404 "Order not found" ∧ db' = db)
  ∧ (∀ code session, resp = Respond code session →
       code = 200
       ∧ is_http_url (PaymentSession.checkout_url session) = true
       ∧ ∃ order,
           order ∈ orders db
           ∧ Order.id order = PaymentInitRequest.order_id payload
           ∧ Order.user_id order = User.id user
           ∧ (Order.status order = OrderStatus.PENDING
              ∨ Order.status order = OrderStatus.DRAFT))
  ∧ (∀ code detail, resp = HTTPException code detail →
       (code = 404 ∧ db' = db) ∨ code = 400)
  ∧ products db' = products db
  ∧ Forall2 same_but_payment (orders db) (orders db').
Proof.
  intros H. unfold Endpoints.init_payment in H.
  assert (Forall2 same_but_payment (orders db) (orders db)) as Hsame
    by (apply Forall2_unchanged; apply same_but_payment_refl).
  destruct (get_order db user (PaymentInitRequest.order_id payload))
    as [[order|]|e] eqn:Hget.
  - unfold get_order in Hget. apply scalar_one_or_none_Some in Hget.
    assert (order ∈ filter (λ o, Order.id o = PaymentInitRequest.order_id payload
                                 ∧ Order.user_id o = User.id user) (orders db))
      as Hin by (rewrite Hget; by left).
    apply list_elem_of_filter in Hin as [[Hid Huser] Hin].
    destruct (init_payment_session stripe stripe_secret_key is_http_url
                db order payload) as [db1 r] eqn:Hrun.
    assert (products db1 = products db
            ∧ Forall2 same_but_payment (orders db) (orders db1)) as Hframe.
    { destruct (init_payment_session_db _ _ _ _ _ _ _ _ Hrun)
        as [->|(provider & reference & ->)]; [done|].
      apply save_payment_rows. }
    split.
    { intros Hnone. destruct (Hnone order Hin Hid Huser). }
    destruct r as [session|e].
    + apply init_payment_session_returned in Hrun as [Hstatus Hurl].
      injection H as <- <-. split; [|split; [done|done]].
      intros code session' [= <- <-]. split; [done|]. split; [done|].
      by exists order.
    + destruct e; injection H as <- <-;
        (split; [done|]); (split; [|done]);
        intros code detail Hr; simplify_eq; by right.
  - injection H as <- <-. split; [done|]. split; [done|].
    split; [|done]. intros code detail [= <- <-]. by left.
  - unfold get_order in Hget. injection H as <- <-.
    split; [|done].
    intros Hnone. rewrite filter_none in Hget; [done|].
    intros o Ho [Hid Huser]. by destruct (Hnone o Ho Hid).
Qed.

(** X16 on the example: Alice asks for a sandbox session for her order. *)
Lemma endpoint_init_payment_witness :
  ∃ db' session,
    Endpoints.init_payment None None (λ _, true) pending_db alice
      sandbox_request = (db', Respond 200 session)
    ∧ products db' = products pending_db
    ∧ Forall2 same_but_payment (orders pending_db) (orders db').
Proof.
  eexists _, _.
  assert (Hcall : Endpoints.init_payment None None (λ _, true) pending_db
                    alice sandbox_request = (_, Respond 200 _))
    by (vm_compute; reflexivity).
  destruct (endpoint_init_payment _ _ _ _ _ _ _ _ Hcall)
    as (_ & _ & _ & Hproducts & Horders).
  exact (conj Hcall (conj Hproducts Horders)).
Defined.

(** What [handle_stripe_event] can end in. *)
Lemma handle_stripe_event_inv db event db' r :
  handle_stripe_event db event = (db', r) →
  match r with
  | Return (order, status) =>
      (status = OrderStatus.PAID ∨ status = OrderStatus.REFUNDED
       ∨ status = OrderStatus.CANCELLED)
      ∧ Order.status order = status
      ∧ get_order_by_id db' (Order.id order) = Return (Some order)
  | Raise e => db' = db
  end.
Proof.
  intros H. unfold handle_stripe_event in H.
  destruct (stripe_order_reference event) as [[obj [order_id|]]|e];
    [|by simplify_eq..].
  destruct (get_order_by_id db order_id) as [[order|]|e] eqn:Hget;
    [|by simplify_eq..].
  pose proof (λ status reference Htext,
                update_order_status_returns db _ order status reference
                  Htext Hget)
    as Hupd.
  assert (∀ status reference,
            text_or_nothing reference →
            status = OrderStatus.PAID ∨ status = OrderStatus.REFUNDED
            ∨ status = OrderStatus.CANCELLED →
            (let (db0, r0) := update_order_status db order status reference in
             match r0 with
             | Return o => (db0, Return (o, Order.status o))
             | Raise e => (db0, Raise e)
             end) = (db', r) →
            match r with
            | Return (order, status) =>
                (status = OrderStatus.PAID ∨ status = OrderStatus.REFUNDED
                 ∨ status = OrderStatus.CANCELLED)
                ∧ Order.status order = status
                ∧ get_order_by_id db' (Order.id order) = Return (Some order)
            | Raise e => db' = db
            end) as Hstep.
  { intros status reference Htext Hstatus Hrun.
    destruct (Hupd status reference Htext)
      as (db1 & o1 & Hu & Hs & Hi & Hg).
    rewrite Hu in Hrun. injection Hrun as <- <-.
    rewrite Hs, Hi. done. }
  destruct (is_str _ "checkout.session.completed").
  { eapply Hstep; [apply text_or_nothing_str| |exact H]. by left. }
  destruct (negb _); [by simplify_eq|].
  destruct (_ || _);
    [apply (Hstep OrderStatus.REFUNDED PyNone);
       [apply text_or_nothing_None | by auto | done]|].
  destruct (_ || _);
    [apply (Hstep OrderStatus.CANCELLED PyNone);
       [apply text_or_nothing_None | by auto | done]|].
  by simplify_eq.
Qed.

(** X17.  [POST /payments/stripe/webhook].  Without the [stripe] module or
    without a webhook secret the answer is 400 "Stripe not configured";
    with both but without a [Stripe-Signature] header it is 400 "Missing
    Stripe signature".  Every [HTTPException] has code 400.  The database
    changes only with an answer 202, which is given only for an event that
    [construct_event] has accepted for the body, the signature and the
    secret; its body names the order and the status the order now has,
    one of paid, refunded and cancelled. *)
Theorem endpoint_stripe_webhook construct_event stripe_webhook_secret
    db body signature db' resp :
  Endpoints.stripe_webhook construct_event stripe_webhook_secret db body
    signature = (db', resp) →
  (construct_event = None ∨ Py.opt_str_truthy stripe_webhook_secret = false →
   resp = HTTPException 400 "Stripe not configured")
  ∧ (construct_event ≠ None →
     Py.opt_str_truthy stripe_webhook_secret = true →
     Py.opt_str_truthy signature = false →
     resp = HTTPException 400 "Missing Stripe signature")
  ∧ (∀ code detail, resp = HTTPException code detail → code = 400)
  ∧ ((∀ code answer, resp ≠ Respond code answer) → db' = db)
  ∧ (∀ code answer, resp = Respond code answer →
       code = 202
       ∧ ∃ construct secret sig event order,
           construct_event = Some construct
           ∧ stripe_webhook_secret = Some secret
           ∧ signature = Some sig
           ∧ construct body sig secret = inr event
           ∧ get_order_by_id db' (Order.id order) = Return (Some order)
           ∧ (Order.status order = OrderStatus.PAID
              ∨ Order.status order = OrderStatus.REFUNDED
              ∨ Order.status order = OrderStatus.CANCELLED)
           ∧ answer = (order_status_value (Order.status order),
                       pretty (Order.id order))).
Proof.
  intros H. unfold Endpoints.stripe_webhook in H.
  assert (∀ detail,
            (db, @HTTPException (string * string) 400 detail) = (db', resp) →
            (∀ code detail', resp = HTTPException code detail' → code = 400)
            ∧ ((∀ code answer, resp ≠ Respond code answer) → db' = db)
            ∧ (∀ code answer, resp = Respond code answer → False))
    as Hrefused.
  { intros detail [= <- <-]. split; [|done]. by intros code detail' [= <- _]. }
  destruct construct_event as [construct|]; cycle 1.
  { destruct (Hrefused _ H) as (Hh & Hd & Hr). injection H as <- <-.
    split; [done|]. split; [done|]. split; [done|]. split; [done|].
    intros code answer Hresp. destruct (Hr _ _ Hresp). }
  destruct stripe_webhook_secret as [secret|]; cycle 1.
  { destruct (Hrefused _ H) as (Hh & Hd & Hr). injection H as <- <-.
    split; [done|]. split; [done|]. split; [done|]. split; [done|].
    intros code answer Hresp. destruct (Hr _ _ Hresp). }
  cbn [Py.opt_str_truthy].
  destruct (Py.str_truthy secret) eqn:Hsecret; cbn [negb] in H; cycle 1.
  { destruct (Hrefused _ H) as (Hh & Hd & Hr). injection H as <- <-.
    split; [done|]. split; [done|]. split; [done|]. split; [done|].
    intros code answer Hresp. destruct (Hr _ _ Hresp). }
  destruct signature as [sig|]; cycle 1.
  { destruct (Hrefused _ H) as (Hh & Hd & Hr). injection H as <- <-.
    split; [by intros [?|?]|]. split; [done|]. split; [done|]. split; [done|].
    intros code answer Hresp. destruct (Hr _ _ Hresp). }
  destruct (Py.str_truthy sig) eqn:Hsig; cbn [negb] in H; cycle 1.
  { destruct (Hrefused _ H) as (Hh & Hd & Hr). injection H as <- <-.
    split; [by intros [?|?]|]. split; [done|]. split; [done|]. split; [done|].
    intros code answer Hresp. destruct (Hr _ _ Hresp). }
  split; [by intros [?|?]|].
  split; [intros _ _ Hs; cbn [Py.opt_str_truthy] in Hs; congruence|].
  destruct (construct body sig secret) as [exc|event] eqn:Hevent.
  { destruct (Hrefused _ H) as (Hh & Hd & Hr). split; [done|].
    split; [done|]. intros code answer Hresp. destruct (Hr _ _ Hresp). }
  destruct (handle_stripe_event db event) as [db1 [[order status]|e]] eqn:Hrun;
    apply handle_stripe_event_inv in Hrun.
  - destruct Hrun as (Hstatus & Hs & Hget). injection H as <- <-.
    split; [done|]. split.
    { intros Hno. by destruct (Hno 202 (order_status_value status,
                                         pretty (Order.id order))). }
    intros code answer [= <- <-]. split; [done|].
    exists construct, secret, sig, event, order. rewrite Hs. done.
  - subst db1.
    destruct e; injection H as <- <-;
      (split; [by intros code detail [= <- _]|]); (split; [done|]);
      intros code answer Hresp; discriminate Hresp.
Qed.

(** X17 on the example: a verified refund of the charge of Alice's
    order. *)
Lemma endpoint_stripe_webhook_witness :
  ∃ db' order,
    Endpoints.stripe_webhook
      (Some (λ _ _ _, inr (stripe_event "charge.refunded")))
      (Some "whsec_1") pending_db "{}" (Some "t=1,v1=5f")
    = (db', Respond 202 ("refunded", "1"))
    ∧ get_order_by_id db' (Order.id order) = Return (Some order)
    ∧ Order.status order = OrderStatus.REFUNDED.
Proof.
  eexists _.
  assert (Hcall : Endpoints.stripe_webhook
                    (Some (λ _ _ _, inr (stripe_event "charge.refunded")))
                    (Some "whsec_1") pending_db "{}" (Some "t=1,v1=5f")
                  = (_, Respond 202 ("refunded", "1")))
    by (vm_compute; reflexivity).
  destruct (endpoint_stripe_webhook _ _ _ _ _ _ _ Hcall)
    as (_ & _ & _ & _ & Hr).
  destruct (Hr _ _ eq_refl)
    as (_ & construct & secret & sig & event & order & _ & _ & _ & _
        & Hget & _ & Hanswer).
  exists order. split; [exact Hcall|]. split; [exact Hget|].
  by destruct (Order.status order).
Defined.

(** * Requests that passed the schema *)

Lemma create_order_validation_messages db uuid now user order_in key provider
    db' msg :
  create_order db uuid now user order_in key provider
    = (db', Raise (OrderValidationError msg)) →
  msg = key_required
  ∨ (msg = "Order requires at least one product"
     ∧ OrderCreate.items order_in = []).
Proof.
  intros H.
  destruct (Py.str_truthy key) eqn:Ht; cycle 1.
  { unfold create_order in H. rewrite Ht in H. cbn [negb] in H.
    left. by injection H as _ <-. }
  destruct (decide (Py.strip key = EmptyString)) as [Hs|Hs].
  { unfold create_order in H. rewrite Ht in H. cbn [negb] in H.
    rewrite (bool_decide_eq_true_2 _ Hs) in H. left. by injection H as _ <-. }
  destruct (existing_orders db user (effective_key key uuid))
    as [|x [|y rest]] eqn:Hex.
  - rewrite create_order_after_lookup in H by done.
    destruct (bool_decide (requested_ids order_in = ∅)) eqn:Hreq.
    + apply bool_decide_eq_true in Hreq. right.
      split; [by injection H as _ <-|].
      destruct (OrderCreate.items order_in) as [|item rest] eqn:Hitems;
        [done|].
      assert (OrderItemInput.product_id item ∈ requested_ids order_in)
        as Hin by (apply requested_ids_elem; rewrite Hitems; by left).
      rewrite Hreq in Hin. by apply not_elem_of_empty in Hin.
    + destruct (negb _); [done|].
      destruct (check_items _ _) as [[]|e] eqn:Hcheck.
      * destruct (add_lines _ _ _) as [[loaded o1]|e] eqn:Hrun.
        -- cbv zeta in H. by destruct (key_taken _ _).
        -- injection H as _ ->. by apply add_lines_not_validation in Hrun.
      * injection H as _ ->. by apply check_items_not_validation in Hcheck.
  - unfold create_order in H.
    rewrite Ht, (bool_decide_eq_false_2 _ Hs) in H. cbn [negb] in H.
    cbv zeta in H. unfold effective_key in Hex. by rewrite Hex in H.
  - unfold create_order in H.
    rewrite Ht, (bool_decide_eq_false_2 _ Hs) in H. cbn [negb] in H.
    cbv zeta in H. unfold effective_key in Hex. by rewrite Hex in H.
Qed.

Lemma quantities_bounded db items lines :
  forallb order_item_valid items = true →
  Forall2 (priced_from db) items lines →
  Forall (λ l, 1 ≤ OrderLine.quantity l ≤ 100) lines
  ∧ Z.of_nat (List.length items)
    ≤ sumZ (OrderLine.quantity <$> lines)
    ≤ 100 * Z.of_nat (List.length items).
Proof.
  intros Hvalid Hlines. revert Hvalid.
  induction Hlines as [|item line items lines Hline _ IH]; intros Hvalid.
  { split; [constructor | done]. }
  cbn [forallb] in Hvalid. apply andb_true_iff in Hvalid as [Hitem Hvalid].
  destruct (IH Hvalid) as [Hall Hsum].
  destruct Hline as (p & _ & _ & Hq & _).
  unfold order_item_valid in Hitem.
  apply andb_true_iff in Hitem as [Hlo Hhi].
  apply Z.leb_le in Hlo, Hhi. rewrite <- Hq in Hlo, Hhi.
  split; [by constructor|].
  rewrite fmap_cons, sumZ_cons. cbn [List.length]. lia.
Qed.

(** X18.  A request body that [OrderCreate] has accepted never meets the
    refusal "Order requires at least one product"; when it creates an
    order, the order has one line per item, every line with a quantity
    from 1 to 100, so that the number of items of the order lies between
    the number of lines and a hundred times that number, and the order is
    not empty. *)
Theorem create_order_validated db uuid now user order_in key provider db' r :
  order_create_valid order_in = true →
  create_order db uuid now user order_in key provider = (db', r) →
  r ≠ Raise (OrderValidationError "Order requires at least one product")
  ∧ ∀ o, r = Return (o, true) →
      List.length (Order.lines o) = List.length (OrderCreate.items order_in)
      ∧ Order.lines o ≠ []
      ∧ Forall (λ l, 1 ≤ OrderLine.quantity l ≤ 100) (Order.lines o)
      ∧ Z.of_nat (List.length (Order.lines o))
        ≤ Order.total_items o
        ≤ 100 * Z.of_nat (List.length (Order.lines o)).
Proof.
  intros Hvalid H. unfold order_create_valid in Hvalid.
  apply andb_true_iff in Hvalid as [Hvalid Hitems].
  apply andb_true_iff in Hvalid as [Hquantities _].
  split.
  - intros ->.
    apply create_order_validation_messages in H as [Hmsg|[_ Hnil]];
      [done|].
    by rewrite Hnil in Hitems.
  - intros o ->.
    apply created_order_lines in H as [[_ Htotal] Hlines].
    destruct (quantities_bounded _ _ _ Hquantities Hlines) as [Hall Hsum].
    pose proof (Forall2_length _ _ _ Hlines) as Hlen.
    split; [done|]. split.
    { intros Hnil. rewrite Hnil in Hlen.
      destruct (OrderCreate.items order_in); done. }
    split; [done|]. rewrite Htotal, <- Hlen. done.
Qed.

(** X18 on the example: the request for two of A and one of B. *)
Lemma create_order_validated_witness :
  List.length (Order.lines first_order) = 2%nat
  ∧ Order.lines first_order ≠ []
  ∧ Forall (λ l, 1 ≤ OrderLine.quantity l ≤ 100) (Order.lines first_order)
  ∧ Z.of_nat (List.length (Order.lines first_order))
    ≤ Order.total_items first_order
    ≤ 100 * Z.of_nat (List.length (Order.lines first_order)).
Proof.
  assert (Hcall : create_order example_db uuid_1 0 alice example_request
                    "key-1" (Some "manual")
                  = (db_after_first, Return (first_order, true)))
    by (vm_compute; reflexivity).
  assert (Hvalid : order_create_valid example_request = true)
    by (vm_compute; reflexivity).
  exact (proj2 (create_order_validated _ _ _ _ _ _ _ _ _ Hvalid Hcall)
           first_order eq_refl).
Defined.

(** X19.  A webhook body that [PaymentWebhookPayload] has accepted never
    meets the refusal "Unknown event": [handle_webhook] refuses it only
    with "Order not found" or "Provider mismatch".  Otherwise, the primary
    key of [orders] holding, it returns the order with the status of the
    event, or, when the settlement reference is a truthy value that is no
    text, it raises an exception that is not [PaymentProviderError] and
    writes nothing. *)
Theorem handle_webhook_validated db data db' r :
  webhook_payload_valid data = true →
  handle_webhook db data = (db', r) →
  (∀ msg, r = Raise (PaymentProviderError msg) →
          msg = "Order not found" ∨ msg = "Provider mismatch")
  ∧ (NoDup (Order.id <$> orders db) →
     (∃ msg, r = Raise (PaymentProviderError msg))
     ∨ (∃ order status,
          r = Return (order, status)
          ∧ target_status (PaymentWebhookPayload.event data) = Some status)
     ∨ (∃ e order,
          r = Raise e ∧ db' = db
          ∧ (∀ msg, e ≠ PaymentProviderError msg)
          ∧ get_order_by_id db (PaymentWebhookPayload.order_id data)
            = Return (Some order)
          ∧ ¬ text_or_nothing (webhook_reference data order))).
Proof.
  intros Hvalid H. unfold webhook_payload_valid in Hvalid.
  apply andb_true_iff in Hvalid as [Hevent _].
  assert (target_status (PaymentWebhookPayload.event data) ≠ None) as Hknown.
  { unfold target_status. repeat case_bool_decide; done. }
  apply handle_webhook_inv in H.
  split.
  - intros msg ->.
    destruct H as [_ [[Hm _]|[(msg' & Hm & Hmsg)|[[Hm|Hm] _]]]];
      try done.
    injection Hm as ->. destruct Hmsg as [?|[?|[_ Hnone]]]; auto. done.
  - intros Hnd. destruct r as [[order status]|e].
    + right. left. exists order, status. by destruct H as (Ht & _).
    + destruct H as [-> [[_ Hbroken]|[(msg & -> & _)|[He (order & Hget & Hno)]]]];
        [done | left; by exists msg |].
      right. right. exists e, order.
      split; [done|]. split; [done|]. split; [|done].
      intros msg. by destruct He as [-> | ->].
Qed.

(** X19 on the example: the failure of the payment of Alice's order. *)
Lemma handle_webhook_validated_witness :
  ∃ db' order status,
    handle_webhook pending_db failed_event = (db', Return (order, status))
    ∧ target_status "payment_failed" = Some status.
Proof.
  eexists _, _, _.
  assert (Hcall : handle_webhook pending_db failed_event
                  = (_, Return (_, OrderStatus.CANCELLED)))
    by (vm_compute; reflexivity).
  assert (Hvalid : webhook_payload_valid failed_event = true)
    by (vm_compute; reflexivity).
  assert (Hkey : NoDup (Order.id <$> orders pending_db))
    by (apply (bool_decide_unpack _); vm_compute; exact I).
  destruct (proj2 (handle_webhook_validated _ _ _ _ Hvalid Hcall) Hkey)
    as [[msg Hmsg]|[(order & status & Hr & Ht)|(e & order & Hr & _)]];
    [discriminate Hmsg| |discriminate Hr].
  injection Hr as _ <-.
  exact (conj Hcall Ht).
Defined.

(** * Later databases *)

Lemma same_order_refl o : same_order o o.
Proof. by destruct o. Qed.

Lemma same_order_trans o o' o'' :
  same_order o o' → same_order o' o'' → same_order o o''.
Proof.
  unfold same_order. destruct o, o', o''. cbn.
  intros [= -> -> -> -> -> -> -> -> -> ->] [= -> -> -> -> -> -> -> -> -> ->].
  done.
Qed.

Lemma same_but_status_same_order o o' : same_but_status o o' → same_order o o'.
Proof.
  unfold same_order, same_but_status. destruct o, o'. cbn.
  intros [= -> -> -> -> -> -> -> -> -> -> ->]. done.
Qed.

Lemma same_but_payment_same_order o o' :
  same_but_payment o o' → same_order o o'.
Proof.
  unfold same_order, same_but_payment. destruct o, o'. cbn.
  intros [= -> -> -> -> -> -> -> -> -> -> ->]. done.
Qed.

Lemma same_order_columns o o' :
  same_order o o' →
  Order.id o' = Order.id o ∧ Order.user_id o' = Order.user_id o
  ∧ Order.idempotency_key o' = Order.idempotency_key o.
Proof. unfold same_order. by intros ->. Qed.

(** The order table after one call of a service: every row is the same
    order as before, or one order with a fresh id and a key no row has
    was appended. *)
Lemma update_order_status_same db order status reference :
  Forall2 same_order (orders db)
    (orders (update_order_status db order status reference).1).
Proof.
  destruct (update_order_status_rows db order status reference) as [_ Hrows].
  eapply Forall2_impl; [exact Hrows|].
  intros o o' [->|(_ & Hs & _)];
    [apply same_order_refl | by apply same_but_status_same_order].
Qed.

Lemma handle_webhook_same db data :
  Forall2 same_order (orders db) (orders (handle_webhook db data).1).
Proof.
  assert (Forall2 same_order (orders db) (orders db)) as Hsame
    by (apply Forall2_unchanged, same_order_refl).
  unfold handle_webhook.
  repeat case_match; simplify_eq; cbn [fst]; try done.
  all: match goal with
       | E : update_order_status ?d ?o ?s ?r = (?d', _) |- _ =>
           pose proof (update_order_status_same d o s r) as Hd;
           by rewrite E in Hd
       end.
Qed.

Lemma handle_stripe_event_same db event :
  Forall2 same_order (orders db) (orders (handle_stripe_event db event).1).
Proof.
  assert (Forall2 same_order (orders db) (orders db)) as Hsame
    by (apply Forall2_unchanged, same_order_refl).
  unfold handle_stripe_event.
  repeat case_match; simplify_eq; cbn [fst]; try done.
  all: match goal with
       | E : update_order_status ?d ?o ?s ?r = (?d', _) |- _ =>
           pose proof (update_order_status_same d o s r) as Hd;
           by rewrite E in Hd
       end.
Qed.

Lemma init_payment_session_same stripe stripe_secret_key is_http_url
    db order request :
  Forall2 same_order (orders db)
    (orders (init_payment_session stripe stripe_secret_key is_http_url
               db order request).1).
Proof.
  destruct (init_payment_session _ _ _ db order request) as [db' r] eqn:H.
  cbn [fst].
  apply init_payment_session_db in H as [->|(p & ref & ->)].
  - apply Forall2_unchanged, same_order_refl.
  - destruct (save_payment_rows db order p ref) as [_ Hrows].
    eapply Forall2_impl; [exact Hrows|].
    intros o o'. apply same_but_payment_same_order.
Qed.

Lemma create_order_rows db uuid now user order_in key provider db' r :
  create_order db uuid now user order_in key provider = (db', r) →
  db' = db
  ∨ ∃ o k,
      orders db' = orders db ++ [o]
      ∧ Order.id o = next_order_id (orders db)
      ∧ Order.idempotency_key o = Some k
      ∧ key_taken (orders db) (Some k) = false.
Proof.
  intros H. destruct r as [[o [|]]|e].
  - right. exists o, (effective_key key uuid).
    pose proof (created_order_header _ _ _ _ _ _ _ _ _ H)
      as (Hid & _ & Hk & _).
    apply create_order_created in H
      as (loaded & o1 & _ & _ & _ & _ & _ & Htaken & ->).
    done.
  - left. by apply create_order_found in H as [-> _].
  - left. by apply create_order_raise_unchanged in H.
Qed.

Lemma service_step_rows db db' :
  service_step db db' →
  Forall2 same_order (orders db) (orders db')
  ∨ ∃ o k,
      orders db' = orders db ++ [o]
      ∧ Order.id o = next_order_id (orders db)
      ∧ Order.idempotency_key o = Some k
      ∧ key_taken (orders db) (Some k) = false.
Proof.
  intros [db0 uuid now user order_in key provider db1 r H
         |db0 data db1 r H
         |db0 event db1 r H
         |stripe stripe_secret_key is_http_url db0 order request db1 r H].
  - apply create_order_rows in H as [->|H]; [|by right].
    left. apply Forall2_unchanged, same_order_refl.
  - left. pose proof (handle_webhook_same db0 data) as Hs.
    by rewrite H in Hs.
  - left. pose proof (handle_stripe_event_same db0 event) as Hs.
    by rewrite H in Hs.
  - left.
    pose proof (init_payment_session_same stripe stripe_secret_key
                  is_http_url db0 order request) as Hs.
    by rewrite H in Hs.
Qed.

(** Rows that stay the same orders keep the ids and the keys. *)
Lemma same_rows_columns rows rows' :
  Forall2 same_order rows rows' →
  Order.id <$> rows' = Order.id <$> rows
  ∧ omap Order.idempotency_key rows' = omap Order.idempotency_key rows.
Proof.
  induction 1 as [|o o' rows rows' Ho _ [IHid IHkey]]; [done|].
  apply same_order_columns in Ho as (Hid & _ & Hk).
  rewrite !fmap_cons, IHid, Hid. split; [done|].
  cbn [omap list_omap]. by rewrite Hk, IHkey.
Qed.

Lemma same_rows_filter_key rows rows' k o :
  Forall2 same_order rows rows' →
  filter (λ x, Order.idempotency_key x = Some k) rows = [o] →
  ∃ o', filter (λ x, Order.idempotency_key x = Some k) rows' = [o']
        ∧ same_order o o'.
Proof.
  intros Hrows. revert o.
  assert (∀ l, filter (λ x, Order.idempotency_key x = Some k) rows = l →
               Forall2 same_order l
                 (filter (λ x, Order.idempotency_key x = Some k) rows'))
    as Hfilter.
  { induction Hrows as [|x x' rows rows' Hx _ IH]; intros l <-;
      [constructor|].
    pose proof (same_order_columns _ _ Hx) as (_ & _ & Hk).
    destruct (decide (Order.idempotency_key x = Some k)) as [Hyes|Hno].
    - rewrite !filter_cons_True by congruence. constructor; [done|].
      by apply IH.
    - rewrite !filter_cons_False by congruence. by apply IH. }
  intros o Ho. specialize (Hfilter _ Ho).
  apply Forall2_cons_inv_l in Hfilter as (o' & rest & Hoo' & Hrest & ->).
  apply Forall2_nil_inv_l in Hrest as ->. by exists o'.
Qed.

(** The order stored under a key stays the only one under that key,
    and the same order, through every call of a service. *)
Lemma stored_under_key_step db db' k o :
  service_step db db' →
  (∃ o', filter (λ x, Order.idempotency_key x = Some k) (orders db) = [o']
         ∧ same_order o o') →
  ∃ o', filter (λ x, Order.idempotency_key x = Some k) (orders db') = [o']
        ∧ same_order o o'.
Proof.
  intros Hstep (o1 & Hf & Ho1).
  apply service_step_rows in Hstep
    as [Hrows|(new & k' & -> & _ & Hk' & Htaken)].
  - destruct (same_rows_filter_key _ _ k o1 Hrows Hf) as (o2 & Hf2 & Ho2).
    exists o2. split; [done|]. by eapply same_order_trans.
  - exists o1. split; [|done].
    rewrite filter_app, Hf.
    rewrite filter_cons_False; [done|].
    rewrite Hk'. intros [= ->].
    apply (key_taken_false _ _ Htaken).
    apply list_elem_of_omap. exists o1. split; [|].
    + eapply (list_elem_of_filter _ (orders db)). rewrite Hf. by left.
    + assert (o1 ∈ filter (λ x, Order.idempotency_key x = Some k)
                      (orders db)) as Hin by (rewrite Hf; by left).
      by apply list_elem_of_filter in Hin as [Hkey _].
Qed.

Lemma stored_under_key_later db db' k o :
  later db db' →
  (∃ o', filter (λ x, Order.idempotency_key x = Some k) (orders db) = [o']
         ∧ same_order o o') →
  ∃ o', filter (λ x, Order.idempotency_key x = Some k) (orders db') = [o']
        ∧ same_order o o'.
Proof.
  induction 1 as [db0|db0 db1 db2 Hstep _ IH]; [done|].
  intros H. by apply IH, (stored_under_key_step db0 db1).
Qed.

(** C2, as amended. For every user and every idempotency key other than
    the placeholder [{{$uuid}}]: once [create_order] has created an order
    for the pair, any further call with the same pair and any payload,
    made at once or after any number of calls of [create_order],
    [handle_webhook], [handle_stripe_event] and [init_payment_session],
    returns that same order as it is stored by then (every column but
    the status and the payment columns is as it was created) with
    [created = False], and the database after the call is the database
    before it (no stock changed, no order or line added). *)
Theorem create_order_retry key :
  key ≠ placeholder_key → retry_returns_same_order key.
Proof.
  intros Hkey db uuid now user order_in provider db1 o H db2 Hlater.
  pose proof (create_order_key_checked _ _ _ _ _ _ _ _ _ H) as [Ht Hs].
  pose proof (created_order_header _ _ _ _ _ _ _ _ _ H)
    as (_ & Huser & Hk & _).
  apply create_order_created in H
    as (loaded & o1 & _ & _ & _ & _ & _ & Htaken & Hdb).
  unfold effective_key in Hk, Htaken.
  rewrite bool_decide_eq_false_2 in Hk, Htaken by done.
  assert (filter (λ x, Order.idempotency_key x = Some key) (orders db1) = [o])
    as Hfirst.
  { rewrite Hdb. cbn [orders]. rewrite filter_app.
    rewrite (filter_none _ (orders db)).
    - by rewrite filter_cons_True.
    - intros x Hx Hkx. apply (key_taken_false _ _ Htaken).
      apply list_elem_of_omap. eauto. }
  destruct (stored_under_key_later db1 db2 key o Hlater)
    as (o2 & Hf2 & Hsame).
  { exists o. split; [done | apply same_order_refl]. }
  pose proof (same_order_columns _ _ Hsame) as (_ & Huser2 & Hk2).
  exists o2. split; [|split; [done|]].
  { eapply (list_elem_of_filter _ (orders db2)). rewrite Hf2. by left. }
  intros uuid' now' order_in' provider'.
  unfold create_order. rewrite Ht, Hs.
  rewrite bool_decide_eq_false_2 by done.
  assert (existing_orders db2 user key = [o2]) as ->; [|done].
  unfold existing_orders.
  rewrite <- (list_filter_filter
                (λ x, Order.user_id x = User.id user)
                (λ x, Order.idempotency_key x = Some key)).
  rewrite Hf2. rewrite filter_cons_True; [done|]. congruence.
Qed.

(** C2 on the example: after Bob has ordered under ["key-2"] and Alice's
    order has been paid, a call of Alice with ["key-1"], whatever it asks
    for, is answered with her order. *)
Lemma create_order_retry_witness :
  "key-1" ≠ placeholder_key
  ∧ create_order example_db uuid_1 0 alice example_request "key-1"
      (Some "manual") = (db_after_first, Return (first_order, true))
  ∧ later db_after_first db_later
  ∧ ∃ o2,
      o2 ∈ orders db_later ∧ same_order first_order o2
      ∧ create_order db_later uuid_2 9 alice
          (OrderCreate.mk [OrderItemInput.mk 2 4] None) "key-1" None
        = (db_later, Return (o2, false)).
Proof.
  assert (Hne : "key-1" ≠ placeholder_key) by done.
  assert (Hfirst : create_order example_db uuid_1 0 alice example_request
                     "key-1" (Some "manual")
                   = (db_after_first, Return (first_order, true)))
    by (vm_compute; reflexivity).
  assert (Hbob : create_order db_after_first uuid_2 5 bob request_with_notes
                   "key-2" (Some "manual") = (db_after_bob, bob_call.2))
    by (vm_compute; reflexivity).
  assert (Hpaid : handle_webhook db_after_bob succeeded_event
                  = (db_later, paid_call.2))
    by (vm_compute; reflexivity).
  assert (Hlater : later db_after_first db_later).
  { eapply rtc_l; [exact (step_create_order _ _ _ _ _ _ _ _ _ Hbob)|].
    eapply rtc_l; [exact (step_handle_webhook _ _ _ _ Hpaid)|].
    apply rtc_refl. }
  destruct (create_order_retry "key-1" Hne _ _ _ _ _ _ _ _ Hfirst
              db_later Hlater) as (o2 & Hin & Hsame & Hretry).
  split; [exact Hne|]. split; [exact Hfirst|]. split; [exact Hlater|].
  exists o2. split; [exact Hin|]. split; [exact Hsame|].
  exact (Hretry uuid_2 9 (OrderCreate.mk [OrderItemInput.mk 2 4] None) None).
Defined.

(** C2 as stated fails at the placeholder key: a call with [{{$uuid}}]
    looks up the uuid it draws, not the key it was given, so the second
    of two such calls that draws another uuid creates a second order and
    takes stock again. *)
Lemma create_order_retry_placeholder :
  ¬ retry_returns_same_order placeholder_key.
Proof.
  intros Hclaim.
  destruct (Hclaim example_db uuid_1 0 alice example_request
              (Some "manual") _ _ eq_refl _ (rtc_refl _ _))
    as (o2 & _ & _ & Hretry).
  specialize (Hretry uuid_2 1 example_request (Some "manual")).
  vm_compute in Hretry. discriminate Hretry.
Qed.

(** X4. The constraints of the order table are kept by the services:
    if order ids are unique and idempotency keys are unique (NULLs
    apart) in a database, they are so after any number of calls of
    [create_order], [handle_webhook], [handle_stripe_event] and
    [init_payment_session], whatever the calls are given and however
    they end. *)
Theorem orders_constraints_kept db db' :
  orders_wf db → later db db' → orders_wf db'.
Proof.
  intros Hwf Hlater.
  induction Hlater as [db0|db0 db1 db2 Hstep _ IH]; [done|].
  apply IH. clear IH. destruct Hwf as [Hids Hkeys].
  apply service_step_rows in Hstep
    as [Hrows|(o & k & Horders & Hid & Hk & Htaken)].
  - apply same_rows_columns in Hrows as [Hi Hk].
    split; [by rewrite Hi | by rewrite Hk].
  - unfold orders_wf. rewrite Horders. split.
    + rewrite fmap_app. apply NoDup_app. split; [done|]. split.
      * intros i Hi Hnew. simpl in Hnew.
        apply elem_of_cons in Hnew as [->|Hnew];
          [|by apply elem_of_nil in Hnew].
        apply list_elem_of_fmap in Hi as (x & Hx & Hin).
        apply next_order_id_fresh in Hin. lia.
      * simpl. apply NoDup_singleton.
    + rewrite omap_app. cbn [omap list_omap]. rewrite Hk.
      apply NoDup_app. split; [done|]. split; [|apply NoDup_singleton].
      intros k' Hin Hnew.
      apply elem_of_cons in Hnew as [->|Hnew];
        [|by apply elem_of_nil in Hnew].
      by apply (key_taken_false _ _ Htaken).
Qed.

(** X4 on the example: the table after Alice's order, Bob's order and the
    payment of Alice's. *)
Lemma orders_constraints_kept_witness : orders_wf db_later.
Proof.
  assert (Hwf : orders_wf example_db)
    by (split; apply (bool_decide_unpack _); vm_compute; exact I).
  assert (Hfirst : create_order example_db uuid_1 0 alice example_request
                     "key-1" (Some "manual")
                   = (db_after_first, Return (first_order, true)))
    by (vm_compute; reflexivity).
  assert (Hbob : create_order db_after_first uuid_2 5 bob request_with_notes
                   "key-2" (Some "manual") = (db_after_bob, bob_call.2))
    by (vm_compute; reflexivity).
  assert (Hpaid : handle_webhook db_after_bob succeeded_event
                  = (db_later, paid_call.2))
    by (vm_compute; reflexivity).
  apply (orders_constraints_kept example_db db_later Hwf).
  eapply rtc_l; [exact (step_create_order _ _ _ _ _ _ _ _ _ Hfirst)|].
  eapply rtc_l; [exact (step_create_order _ _ _ _ _ _ _ _ _ Hbob)|].
  eapply rtc_l; [exact (step_handle_webhook _ _ _ _ Hpaid)|].
  apply rtc_refl.
Defined.
